(** * sasg: grid of rectangular tiles over a bounding box

    Shallow embedding of [src/core.py] (create_rectangle_wkt,
    retrieve_number, format_number, get_code, get_grid_df) and the
    properties its specification states about them.

    Conventions of the embedding.
    - Python exceptions are the constructors of [exn]; a function that
      may raise returns a [result].
    - A Python [str] is a [string] whose characters are code points
      below 256.
    - A Python number is a [pynum]: an [int] (unbounded, [Z]) or a
      [float] (IEEE 754 binary64, [spec_float] with [prec = 53] and
      [emax = 1024]).  numpy's [int64] and [float64] scalars are
      modelled by the same two constructors; integer arguments are taken
      in the range where int64 arithmetic does not wrap.
    - The builtins the source calls ([str], [abs], [float], [str.lower],
      [str.replace], [str.join], [range], [numpy.arange]) are modelled
      from their documented behaviour. *)

From Stdlib Require Import ZArith QArith List String Ascii Bool Lia.
From Stdlib Require Import Floats.SpecFloat.
Import ListNotations.

Local Open Scope string_scope.
Local Open Scope Z_scope.

(** ** Exceptions *)

Inductive exn : Set :=
| KeyError
| IndexError
| ValueError
| ZeroDivisionError
| OverflowError.

Inductive result (A : Type) : Type :=
| Ok (a : A)
| Raise (e : exn).

Arguments Ok {A} a.
Arguments Raise {A} e.

Definition bind {A B : Type} (r : result A) (k : A -> result B) : result B :=
  match r with
  | Ok a => k a
  | Raise e => Raise e
  end.

Notation "x <- r ;; k" := (bind r (fun x => k))
  (at level 61, r at next level, right associativity).

Definition is_ok {A : Type} (r : result A) : bool :=
  match r with
  | Ok _ => true
  | Raise _ => false
  end.

(** ** Strings *)

Module PyStr.

Definition code (c : ascii) : N := N_of_ascii c.

Definition in_range (lo hi : N) (c : ascii) : bool :=
  ((lo <=? code c) && (code c <=? hi))%N.

(** Upper-case letters below code point 256: A-Z, and the Latin-1
    capitals 0xC0-0xDE without the multiplication sign 0xD7. *)
Definition is_upper (c : ascii) : bool :=
  in_range 65 90 c || (in_range 192 222 c && negb (code c =? 215)%N).

Definition lower_char (c : ascii) : ascii :=
  if is_upper c then ascii_of_N (code c + 32) else c.

Fixpoint map (f : ascii -> ascii) (s : string) : string :=
  match s with
  | EmptyString => EmptyString
  | String c r => String (f c) (map f r)
  end.

(** [s.lower()] *)
Definition lower (s : string) : string := map lower_char s.

(** [s.replace(old, new)] for one-character [old] and [new], the only
    form the source uses. *)
Definition replace (old new : ascii) (s : string) : string :=
  map (fun c => if Ascii.eqb c old then new else c) s.

(** [sep.join(ls)] *)
Definition join (sep : string) (ls : list string) : string :=
  String.concat sep ls.

Definition is_digit (c : ascii) : bool := in_range 48 57 c.

Definition digit_val (c : ascii) : Z := Z.of_N (code c) - 48.

Definition digit_char (d : Z) : ascii :=
  match d with
  | 0 => "0" | 1 => "1" | 2 => "2" | 3 => "3" | 4 => "4"
  | 5 => "5" | 6 => "6" | 7 => "7" | 8 => "8" | _ => "9"
  end%char.

Fixpoint repeat (c : ascii) (n : nat) : string :=
  match n with
  | O => EmptyString
  | S n' => String c (repeat c n')
  end.

Fixpoint firstn (n : nat) (s : string) : string :=
  match n, s with
  | S n', String c r => String c (firstn n' r)
  | _, _ => EmptyString
  end.

Fixpoint skipn (n : nat) (s : string) : string :=
  match n, s with
  | S n', String _ r => skipn n' r
  | _, _ => s
  end.

(** Decimal digits of a non-negative integer, most significant first. *)
Fixpoint digits_aux (fuel : nat) (n : Z) (acc : string) : string :=
  match fuel with
  | O => acc
  | S fuel' =>
      let acc' := String (digit_char (n mod 10)) acc in
      if n <? 10 then acc' else digits_aux fuel' (n / 10) acc'
  end.

Definition digits (n : Z) : string :=
  digits_aux (S (Z.to_nat (Z.log2 n))) n EmptyString.

(** Value of a string of decimal digits. *)
Fixpoint digits_value (acc : Z) (s : string) : Z :=
  match s with
  | EmptyString => acc
  | String c r => digits_value (10 * acc + digit_val c) r
  end.

(** Longest prefix of decimal digits, and the rest. *)
Fixpoint span_digits (s : string) : string * string :=
  match s with
  | EmptyString => (EmptyString, EmptyString)
  | String c r =>
      if is_digit c
      then let (d, t) := span_digits r in (String c d, t)
      else (EmptyString, s)
  end.

Definition is_empty (s : string) : bool :=
  match s with
  | EmptyString => true
  | String _ _ => false
  end.

(** Every character of the string satisfies [p]. *)
Fixpoint all (p : ascii -> bool) (s : string) : bool :=
  match s with
  | EmptyString => true
  | String c r => p c && all p r
  end.

End PyStr.

(** ** Binary64 floating point *)

Module F64.

Definition prec : Z := 53.
Definition emax : Z := 1024.

Definition add : spec_float -> spec_float -> spec_float := SFadd prec emax.
Definition sub : spec_float -> spec_float -> spec_float := SFsub prec emax.
Definition mul : spec_float -> spec_float -> spec_float := SFmul prec emax.
Definition div : spec_float -> spec_float -> spec_float := SFdiv prec emax.

Definition pzero : spec_float := S754_zero false.
Definition nzero : spec_float := S754_zero true.
Definition pinf : spec_float := S754_infinity false.
Definition ninf : spec_float := S754_infinity true.

(** Same float, bit for bit (as opposed to [SFeqb], the IEEE [==]). *)
Definition same (a b : spec_float) : bool :=
  match a, b with
  | S754_zero s, S754_zero t => Bool.eqb s t
  | S754_infinity s, S754_infinity t => Bool.eqb s t
  | S754_nan, S754_nan => true
  | S754_finite s m e, S754_finite t n f =>
      Bool.eqb s t && (m =? n)%positive && (e =? f)
  | _, _ => false
  end.

Definition is_zero (a : spec_float) : bool :=
  match a with
  | S754_zero _ => true
  | _ => false
  end.

Definition signbit (a : spec_float) : bool :=
  match a with
  | S754_zero s | S754_infinity s | S754_finite s _ _ => s
  | S754_nan => false
  end.

(** A well-formed binary64 value. *)
Definition valid (a : spec_float) : bool := valid_binary prec emax a.

(** Zero or finite: neither an infinity nor not-a-number. *)
Definition is_finite (a : spec_float) : bool :=
  match a with
  | S754_zero _ | S754_finite _ _ _ => true
  | _ => false
  end.

(** The integer nearest to [z] among the floats (ties to even);
    an infinity when [z] is out of range. *)
Definition of_Z (z : Z) : spec_float := binary_normalize prec emax z 0 false.

(** The exact value of the finite float [m * 2^e]. *)
Definition to_Q (m : positive) (e : Z) : Q :=
  match e with
  | Z0 => Zpos m # 1
  | Zpos p => Zpos (m * 2 ^ p) # 1
  | Zneg p => Zpos m # (2 ^ p)
  end.

(** The float nearest to the non-negative rational [q] (ties to
    even), with sign [neg]: the correctly rounded quotient of the
    numerator and denominator of [q] in lowest terms. *)
Definition round_Q (neg : bool) (q : Q) : spec_float :=
  let r := Qred q in
  match Qnum r with
  | Zpos n => div (S754_finite neg n 0) (S754_finite false (Qden r) 0)
  | _ => S754_zero neg
  end.

(** The decimal [D * 10^k] as a rational. *)
Definition dec_value (D k : Z) : Q :=
  match k with
  | Zneg p => D # (10 ^ p)
  | _ => (D * 10 ^ k) # 1
  end.

(** [ceil] of a finite float, as an integer. *)
Definition ceil (a : spec_float) : option Z :=
  match a with
  | S754_zero _ => Some 0
  | S754_finite s m e =>
      let v := if s then Zneg m else Zpos m in
      Some (match e with
            | Zneg p => - ((- v) / Zpos (2 ^ p))
            | _ => v * 2 ^ e
            end)
  | _ => None
  end.

End F64.

(** ** [repr] of a float

    CPython prints a float as the shortest decimal string that reads
    back as the same float and, among those, the one nearest to it,
    then lays the digits out in fixed or exponent notation
    ([float_repr_style = 'short'], format code ['r']). *)

Module Repr.

Import PyStr.

Definition ndigits (n : Z) : Z := Z.of_nat (String.length (digits n)).

(** [E] with [10^E <= q < 10^(E+1)], for [q > 0]. *)
Definition decimal_exponent (q : Q) : Z :=
  let n := Qnum q in
  let d := Zpos (Qden q) in
  if d <=? n then ndigits (n / d) - 1 else - ndigits (d / n).

(** [floor (q / 10^k)], and how the fractional part compares to 1/2. *)
Definition scaled_floor (q : Q) (k : Z) : Z * comparison :=
  let n := Qnum q in
  let d := Zpos (Qden q) in
  let num := match k with Zneg p => n * Zpos (10 ^ p) | _ => n end in
  let den := match k with Zneg _ => d | _ => d * 10 ^ k end in
  (num / den, 2 * (num mod den) ?= den).

(** The [n]-digit decimal nearest to the float [f] of value [q],
    among those that read back as [f]. *)
Definition try_digits (f : spec_float) (q : Q) (E n : Z) : option (Z * Z) :=
  let k := E + 1 - n in
  let (lo, c) := scaled_floor q k in
  let hi := lo + 1 in
  let ok_lo := F64.same (F64.round_Q false (F64.dec_value lo k)) f in
  let ok_hi := F64.same (F64.round_Q false (F64.dec_value hi k)) f in
  match ok_lo, ok_hi with
  | true, true =>
      Some (match c with
            | Lt => lo
            | Gt => hi
            | Eq => if Z.even lo then lo else hi
            end, k)
  | true, false => Some (lo, k)
  | false, true => Some (hi, k)
  | false, false => None
  end.

Fixpoint search (fuel : nat) (f : spec_float) (q : Q) (E n : Z)
  : option (Z * Z) :=
  match fuel with
  | O => None
  | S fuel' =>
      match try_digits f q E n with
      | Some c => Some c
      | None => search fuel' f q E (n + 1)
      end
  end.

(** The full decimal expansion of [m * 2^e]. *)
Definition exact_decimal (m : positive) (e : Z) : Z * Z :=
  match e with
  | Zneg p => (Zpos (m * 5 ^ p), e)
  | _ => (Zpos m * 2 ^ e, 0)
  end.

Fixpoint strip_zeros (fuel : nat) (D k : Z) : Z * Z :=
  match fuel with
  | O => (D, k)
  | S fuel' =>
      if (0 <? D) && (D mod 10 =? 0)
      then strip_zeros fuel' (D / 10) (k + 1)
      else (D, k)
  end.

(** Digits [D] and exponent [k] of the shortest decimal [D * 10^k]
    that reads back as [m * 2^e].  Seventeen significant digits
    identify every binary64 value, so the search succeeds; the full
    expansion closes the definition without relying on that. *)
Definition shortest (m : positive) (e : Z) : Z * Z :=
  let f := S754_finite false m e in
  let q := F64.to_Q m e in
  let '(D, k) :=
    match search 17 f q (decimal_exponent q) 1 with
    | Some c => c
    | None => exact_decimal m e
    end in
  strip_zeros (S (Z.to_nat (Z.log2 D))) D k.

Definition pad2 (s : string) : string :=
  match s with
  | String _ EmptyString => String "0" s
  | _ => s
  end.

(** Layout of the digits: fixed notation when the decimal point
    falls in [-4 < decpt <= 16], exponent notation otherwise. *)
Definition format_short (D k : Z) : string :=
  let ds := digits D in
  let n := Z.of_nat (String.length ds) in
  let decpt := n + k in
  if (-4 <? decpt) && (decpt <=? 16) then
    if decpt <=? 0 then
      "0." ++ repeat "0" (Z.to_nat (- decpt)) ++ ds
    else if n <=? decpt then
      ds ++ repeat "0" (Z.to_nat (decpt - n)) ++ ".0"
    else
      firstn (Z.to_nat decpt) ds ++ "." ++ skipn (Z.to_nat decpt) ds
  else
    let x := decpt - 1 in
    firstn 1 ds ++ (if 1 <? n then "." ++ skipn 1 ds else EmptyString)
      ++ "e" ++ (if x <? 0 then "-" else "+") ++ pad2 (digits (Z.abs x)).

Definition repr_abs (f : spec_float) : string :=
  match f with
  | S754_nan => "nan"
  | S754_infinity _ => "inf"
  | S754_zero _ => "0.0"
  | S754_finite _ m e => let (D, k) := shortest m e in format_short D k
  end.

(** [repr(f)], which is also [str(f)]. *)
Definition repr (f : spec_float) : string :=
  (if F64.signbit f then "-" else EmptyString) ++ repr_abs f.

(** [str(z)] for an integer. *)
Definition str_int (z : Z) : string :=
  if z <? 0 then "-" ++ digits (- z) else digits z.

End Repr.

(** ** [float(s)] for a string

    CPython maps the non-ASCII white space of the string to a blank and
    any other non-ASCII character to ['?'], strips ASCII white space at
    both ends, accepts single underscores between digits, and reads a
    signed decimal literal, [inf], [infinity] or [nan] in any case; the
    literal is rounded to the nearest float. *)

Module Parse.

Import PyStr.

(** Non-ASCII white space below code point 256: NEL and NBSP. *)
Definition is_wide_space (c : ascii) : bool :=
  (code c =? 133)%N || (code c =? 160)%N.

Definition transform_char (c : ascii) : ascii :=
  if (code c <=? 127)%N then c
  else if is_wide_space c then " "%char else "?"%char.

(** [Py_ISSPACE]: blank, and the controls 0x09-0x0D. *)
Definition is_space (c : ascii) : bool :=
  (code c =? 32)%N || in_range 9 13 c.

Fixpoint lstrip (s : string) : string :=
  match s with
  | String c r => if is_space c then lstrip r else s
  | EmptyString => EmptyString
  end.

Fixpoint rstrip (s : string) : string :=
  match s with
  | EmptyString => EmptyString
  | String c r =>
      let r' := rstrip r in
      if is_empty r' && is_space c then EmptyString else String c r'
  end.

Definition strip (s : string) : string := rstrip (lstrip s).

(** Underscores are allowed only between two digits; they are
    dropped.  [prev] is the character before [s]. *)
Fixpoint underscores (prev : ascii) (s : string) : option string :=
  match s with
  | EmptyString => if Ascii.eqb prev "_" then None else Some EmptyString
  | String c r =>
      if Ascii.eqb c "_" then
        if is_digit prev then underscores c r else None
      else if Ascii.eqb prev "_" && negb (is_digit c) then None
      else option_map (String c) (underscores c r)
  end.

(** A character that [float] passes through unchanged: ASCII, no white
    space, no underscore. *)
Definition plain (c : ascii) : bool :=
  (code c <=? 127)%N && negb (is_space c) && negb (Ascii.eqb c "_").

Definition take_sign (s : string) : bool * string :=
  match s with
  | String "+" r => (false, r)
  | String "-" r => (true, r)
  | _ => (false, s)
  end.

(** The exponent part: empty, or [e] or [E], an optional sign and at
    least one digit, up to the end of the string. *)
Definition parse_exponent (s : string) : option Z :=
  match s with
  | EmptyString => Some 0
  | String c r =>
      if Ascii.eqb c "e" || Ascii.eqb c "E" then
        let (neg, r1) := take_sign r in
        let (d, t) := span_digits r1 in
        if is_empty d || negb (is_empty t) then None
        else Some (if neg then - digits_value 0 d else digits_value 0 d)
      else None
  end.

(** A decimal literal without sign: digits with an optional point, at
    least one digit before or after it, and an exponent part. *)
Definition parse_number (s : string) : option Q :=
  let (ip, r1) := span_digits s in
  let (fp, r2) :=
    match r1 with
    | String "." r => span_digits r
    | _ => (EmptyString, r1)
    end in
  if is_empty ip && is_empty fp then None
  else
    match parse_exponent r2 with
    | None => None
    | Some x =>
        Some (F64.dec_value (digits_value 0 (ip ++ fp))
                            (x - Z.of_nat (String.length fp)))
    end.

Definition string_to_double (s : string) : option spec_float :=
  let (neg, r) := take_sign s in
  let l := lower r in
  if (l =? "inf")%string || (l =? "infinity")%string
  then Some (S754_infinity neg)
  else if (l =? "nan")%string then Some S754_nan
  else option_map (F64.round_Q neg) (parse_number r).

(** [float(s)] *)
Definition py_float (s : string) : result spec_float :=
  match underscores "000"%char (strip (map transform_char s)) with
  | None => Raise ValueError
  | Some t =>
      match string_to_double t with
      | Some f => Ok f
      | None => Raise ValueError
      end
  end.

End Parse.

(** ** Python numbers *)

Inductive pynum : Type :=
| PyInt (z : Z)
| PyFloat (f : spec_float).

Module PyNum.

(** [float(z)] for an integer: nearest float, [OverflowError] beyond
    the largest one. *)
Definition int_to_float (z : Z) : result spec_float :=
  match F64.of_Z z with
  | S754_infinity _ => Raise OverflowError
  | f => Ok f
  end.

Definition to_float (v : pynum) : result spec_float :=
  match v with
  | PyInt z => int_to_float z
  | PyFloat f => Ok f
  end.

(** [str(v)], which is also what an f-string field [{v}] prints. *)
Definition str (v : pynum) : string :=
  match v with
  | PyInt z => Repr.str_int z
  | PyFloat f => Repr.repr f
  end.

(** [abs(v)] *)
Definition abs (v : pynum) : pynum :=
  match v with
  | PyInt z => PyInt (Z.abs z)
  | PyFloat f => PyFloat (SFabs f)
  end.

(** [v >= 0] *)
Definition ge0 (v : pynum) : bool :=
  match v with
  | PyInt z => 0 <=? z
  | PyFloat f => SFleb F64.pzero f
  end.

(** [a - b] *)
Definition sub (a b : pynum) : result pynum :=
  match a, b with
  | PyInt x, PyInt y => Ok (PyInt (x - y))
  | _, _ =>
      x <- to_float a ;; y <- to_float b ;; Ok (PyFloat (F64.sub x y))
  end.

(** [a + b] *)
Definition add (a b : pynum) : result pynum :=
  match a, b with
  | PyInt x, PyInt y => Ok (PyInt (x + y))
  | _, _ =>
      x <- to_float a ;; y <- to_float b ;; Ok (PyFloat (F64.add x y))
  end.

(** The correctly rounded quotient of two integers, [y <> 0]. *)
Definition int_quotient (x y : Z) : spec_float :=
  let neg := xorb (x <? 0) (y <? 0) in
  match Z.abs x, Z.abs y with
  | Zpos n, Zpos d => F64.div (S754_finite neg n 0) (S754_finite false d 0)
  | _, _ => S754_zero neg
  end.

(** [a / b] (true division) *)
Definition truediv (a b : pynum) : result spec_float :=
  match a, b with
  | PyInt x, PyInt y =>
      if y =? 0 then Raise ZeroDivisionError
      else match int_quotient x y with
           | S754_infinity _ => Raise OverflowError
           | q => Ok q
           end
  | _, _ =>
      x <- to_float a ;; y <- to_float b ;;
      if F64.is_zero y then Raise ZeroDivisionError else Ok (F64.div x y)
  end.

(** [v != 0] *)
Definition nonzero (v : pynum) : bool :=
  match v with
  | PyInt z => negb (z =? 0)
  | PyFloat f => negb (SFeqb f F64.pzero)
  end.

End PyNum.

(** ** [range] and [numpy.arange]

    Integers are unbounded here.  numpy holds the integers of an array
    in 64 bits: the model follows it for integer arguments that fit
    64 bits and for arrays that fit the memory; beyond that numpy
    changes the element type or fails, and [abs] of the least 64-bit
    integer wraps.  Statements about the values of an integer grid carry
    the range as a hypothesis. *)

Module Numpy.

(** [range(n)] *)
Definition range (n : Z) : list Z :=
  List.map Z.of_nat (List.seq 0 (Z.to_nat n)).

Definition intp_min : Z := - 2 ^ 63.
Definition intp_max : Z := 2 ^ 63.

(** [ceil] of the quotient as an array length; [ValueError] when it
    is not a number or does not fit ("cannot compute length",
    "Maximum allowed size exceeded"). *)
Definition safe_ceil_to_intp (v : spec_float) : result Z :=
  match F64.ceil v with
  | Some n =>
      if (intp_min <=? n) && (n <=? intp_max) then Ok n
      else Raise ValueError
  | None => Raise ValueError
  end.

Definition overflow_to_value {A : Type} (r : result A) : result A :=
  match r with
  | Raise OverflowError => Raise ValueError
  | _ => r
  end.

(** The number of elements: [ceil((stop - start) / step)], computed
    with Python arithmetic; a quotient that underflows to zero counts
    one element when it is positive. *)
Definition calc_length (start stop step : pynum) : result Z :=
  overflow_to_value
    (d <- PyNum.sub stop start ;;
     val <- PyNum.truediv d step ;;
     len <- safe_ceil_to_intp val ;;
     Ok (if SFeqb val F64.pzero && PyNum.nonzero d
         then (if F64.signbit val then 0 else 1)
         else len)).

Definition all_int (start stop step : pynum) : bool :=
  match start, stop, step with
  | PyInt _, PyInt _, PyInt _ => true
  | _, _, _ => false
  end.

(** Element [i] of the array: the first two are [start] and
    [start + step], the others [start + i * delta] with
    [delta = (start + step) - start], in the arithmetic of the
    element type. *)
Definition element (first next : pynum) (i : Z) : pynum :=
  match first, next with
  | PyInt a, PyInt b => PyInt (a + i * (b - a))
  | PyFloat a, PyFloat b =>
      if i =? 0 then first
      else if i =? 1 then next
      else PyFloat (F64.add a (F64.mul (F64.of_Z i) (F64.sub b a)))
  | _, _ => first
  end.

(** [numpy.arange(start, stop, step)]: the values of the half-open
    interval from [start] towards [stop] in steps of [step]; an
    integer array when the three arguments are integers, a float
    array otherwise. *)
Definition arange (start stop step : pynum) : result (list pynum) :=
  len <- calc_length start stop step ;;
  if len <=? 0 then Ok []
  else
    next <- overflow_to_value (PyNum.add start step) ;;
    if all_int start stop step
    then Ok (List.map (element start next) (range len))
    else
      a <- PyNum.to_float start ;;
      b <- PyNum.to_float next ;;
      Ok (List.map (element (PyFloat a) (PyFloat b)) (range len)).

(** [len(a)] *)
Definition len {A : Type} (a : list A) : Z := Z.of_nat (List.length a).

(** [a[i]], negative indices counting from the end. *)
Definition getitem {A : Type} (a : list A) (i : Z) : result A :=
  let j := if i <? 0 then len a + i else i in
  if j <? 0 then Raise IndexError
  else match List.nth_error a (Z.to_nat j) with
       | Some x => Ok x
       | None => Raise IndexError
       end.

End Numpy.

(** ** The program: [core.py] *)

Module Core.

Import Numpy.

(** A dictionary with string keys, in source order. *)
Definition dict : Type := list (string * string).

Fixpoint lookup (d : dict) (k : string) : result string :=
  match d with
  | [] => Raise KeyError
  | (k', v) :: r => if (k' =? k)%string then Ok v else lookup r k
  end.

(** [d[key]] where [key] is a string or [None]. *)
Definition subscript (d : dict) (key : option string) : result string :=
  match key with
  | Some k => lookup d k
  | None => Raise KeyError
  end.

Definition create_rectangle_wkt (x_min x_max y_min y_max : pynum) : string :=
  let wkt :=
    ("POLYGON((" ++ PyNum.str x_min ++ " " ++ PyNum.str y_min ++ ", "
       ++ PyNum.str x_min ++ " " ++ PyNum.str y_max ++ ", "
       ++ PyNum.str x_max ++ " " ++ PyNum.str y_max ++ ", ")
    ++ (PyNum.str x_max ++ " " ++ PyNum.str y_min ++ ", "
       ++ PyNum.str x_min ++ " " ++ PyNum.str y_min ++ "))") in
  wkt.

Definition d_signal : dict :=
  [("w", "-"); ("s", "-"); ("n", "+"); ("e", "+")].

Definition retrieve_number (s_number : string) : result spec_float :=
  let s_number := PyStr.lower s_number in
  let s_number := PyStr.replace "p" "." s_number in
  match s_number with
  | EmptyString => Raise IndexError
  | String c rest =>
      sign <- lookup d_signal (String c EmptyString) ;;
      Parse.py_float (sign ++ rest)
  end.

Definition d_signal_positive : dict := [("y", "n"); ("x", "e")].
Definition d_signal_negative : dict := [("y", "s"); ("x", "w")].

(** [axis] is a string or [None]; the source's default is ["y"]. *)
Definition format_number (f_number : pynum) (axis : option string)
  : result string :=
  s_hem <- (if PyNum.ge0 f_number
            then subscript d_signal_positive axis
            else subscript d_signal_negative axis) ;;
  let f_abs := PyNum.abs f_number in
  let s_abs := PyStr.replace "." "p" (PyNum.str f_abs) in
  let s_hem := match axis with
               | None => EmptyString
               | Some _ => s_hem
               end in
  Ok (s_hem ++ s_abs).

Definition get_code (x_min x_max y_min y_max : pynum) : result string :=
  a <- format_number x_min (Some "x") ;;
  b <- format_number x_max (Some "x") ;;
  c <- format_number y_min (Some "y") ;;
  d <- format_number y_max (Some "y") ;;
  let ls := [a; b; c; d] in
  let s := PyStr.join "-" ls in
  Ok s.

(** The lists the loops of [get_grid_df] append to, and the counter. *)
Record lists : Type := {
  lst_ids : list Z;
  lst_codes : list string;
  lst_xmin : list pynum;
  lst_xmax : list pynum;
  lst_ymin : list pynum;
  lst_ymax : list pynum;
  lst_wkt : list string;
  c_id : Z
}.

Definition lists_init : lists :=
  {| lst_ids := []; lst_codes := []; lst_xmin := []; lst_xmax := [];
     lst_ymin := []; lst_ymax := []; lst_wkt := []; c_id := 1 |}.

(** The data frame: its seven columns. *)
Record DataFrame : Type := {
  Id : list Z;
  tile_code : list string;
  x_min : list pynum;
  x_max : list pynum;
  y_min : list pynum;
  y_max : list pynum;
  geometry : list string
}.

(** [for i in l: body] threading the state, stopping at the first
    exception. *)
Fixpoint for_each {S : Type} (l : list Z) (body : Z -> S -> result S)
  (st : S) : result S :=
  match l with
  | [] => Ok st
  | i :: r => st' <- body i st ;; for_each r body st'
  end.

(** The body of the inner loop. *)
Definition cell_body (xs ys : list pynum) (i j : Z) (st : lists)
  : result lists :=
  xmin <- getitem xs i ;;
  xmax <- getitem xs (i + 1) ;;
  ymin <- getitem ys j ;;
  ymax <- getitem ys (j + 1) ;;
  let s := create_rectangle_wkt xmin xmax ymin ymax in
  code <- get_code xmin xmax ymin ymax ;;
  Ok {| lst_ids := lst_ids st ++ [c_id st];
        lst_codes := lst_codes st ++ [code];
        lst_xmin := lst_xmin st ++ [xmin];
        lst_xmax := lst_xmax st ++ [xmax];
        lst_ymin := lst_ymin st ++ [ymin];
        lst_ymax := lst_ymax st ++ [ymax];
        lst_wkt := lst_wkt st ++ [s];
        c_id := c_id st + 1 |}.

Definition get_grid_df (step xs_min xs_max ys_min ys_max : pynum)
  : result DataFrame :=
  xs <- arange xs_min xs_max step ;;
  ys <- arange ys_min ys_max step ;;
  st <- for_each (range (len xs - 1))
          (fun i => for_each (range (len ys - 1)) (cell_body xs ys i))
          lists_init ;;
  Ok {| Id := lst_ids st; tile_code := lst_codes st;
        x_min := lst_xmin st; x_max := lst_xmax st;
        y_min := lst_ymin st; y_max := lst_ymax st;
        geometry := lst_wkt st |}.

(** The source's default bounding box. *)
Definition get_grid_df_default (step : pynum) : result DataFrame :=
  get_grid_df step (PyInt (-110)) (PyInt (-18)) (PyInt (-60)) (PyInt 18).

End Core.

(** ** The program: [main.py] *)

Module Main.

Import Core.

(** What the script does to the outside world: its calls to [print]
    and to [DataFrame.to_csv], with their arguments.  [Print df] stands
    for [print(df.to_string())]. *)
Inductive event : Type :=
| Print (df : DataFrame)
| ToCsv (df : DataFrame) (path sep : string) (index : bool).

(** A run: the calls made, in order, and the exception that ended the
    run, if one did. *)
Definition run : Type := list event * option exn.

(** [df.head()]: the first five rows. *)
Definition head (df : DataFrame) : DataFrame :=
  {| Id := List.firstn 5 (Id df);
     tile_code := List.firstn 5 (tile_code df);
     x_min := List.firstn 5 (x_min df);
     x_max := List.firstn 5 (x_max df);
     y_min := List.firstn 5 (y_min df);
     y_max := List.firstn 5 (y_max df);
     geometry := List.firstn 5 (geometry df) |}.

(** [out] holds the calls made before. *)
Definition make_grid (step : pynum) (filename folder : string)
  (out : list event) : run :=
  match get_grid_df_default step with
  | Raise e => (out, Some e)
  | Ok grd_df =>
      let out := (out ++ [Print (head grd_df)])%list in
      let out :=
        (out ++ [ToCsv grd_df (folder ++ "/" ++ filename ++ ".csv") ";"
                   false])%list in
      (out, None)
  end.

(** The float literals 0.25, 0.5, 1.0, 2.0 and 3.0. *)
Definition f_0p25 : spec_float := S754_finite false 4503599627370496 (-54).
Definition f_0p5 : spec_float := S754_finite false 4503599627370496 (-53).
Definition f_1p0 : spec_float := S754_finite false 4503599627370496 (-52).
Definition f_2p0 : spec_float := S754_finite false 4503599627370496 (-51).
Definition f_3p0 : spec_float := S754_finite false 6755399441055744 (-51).

Definition steps_d : list (string * pynum) :=
  [("0p25", PyFloat f_0p25); ("0p50", PyFloat f_0p5);
   ("1p00", PyFloat f_1p0); ("2p00", PyFloat f_2p0);
   ("3p00", PyFloat f_3p0)].

(** [d[k]] *)
Fixpoint getitem (d : list (string * pynum)) (k : string) : result pynum :=
  match d with
  | [] => Raise KeyError
  | (k', v) :: r => if (k' =? k)%string then Ok v else getitem r k
  end.

(** The loop over the keys of [steps_d]. *)
Fixpoint main_loop (keys : list string) (out : list event) : run :=
  match keys with
  | [] => (out, None)
  | step_s :: r =>
      match getitem steps_d step_s with
      | Raise e => (out, Some e)
      | Ok step =>
          let res := PyStr.replace "." "p" (PyNum.str step) in
          let fnm := "sasg_" ++ step_s ++ "-v0_" ++ res ++ "-d_sa_2025" in
          match make_grid step fnm "C:/data" out with
          | (out', None) => main_loop r out'
          | (out', Some e) => (out', Some e)
          end
      end
  end.

(** The script, run as [__main__]. *)
Definition main : run := main_loop (List.map fst steps_d) [].

End Main.

(** ** Vocabulary of the specification *)

Module Spec.

Import Core.

(** A grid cell: one row of the data frame. *)
Record GridCell : Type := {
  cell_id : Z;
  cell_code : string;
  cell_x_min : pynum;
  cell_x_max : pynum;
  cell_y_min : pynum;
  cell_y_max : pynum;
  cell_geometry : string
}.

Fixpoint zip_rows (ids : list Z) (codes : list string)
  (xmin xmax ymin ymax : list pynum) (wkt : list string) : list GridCell :=
  match ids, codes, xmin, xmax, ymin, ymax, wkt with
  | i :: ids', c :: codes', a :: xmin', b :: xmax', u :: ymin', v :: ymax',
    g :: wkt' =>
      {| cell_id := i; cell_code := c; cell_x_min := a; cell_x_max := b;
         cell_y_min := u; cell_y_max := v; cell_geometry := g |}
      :: zip_rows ids' codes' xmin' xmax' ymin' ymax' wkt'
  | _, _, _, _, _, _, _ => []
  end.

(** The rows of a data frame, in order. *)
Definition rows (df : DataFrame) : list GridCell :=
  zip_rows (Id df) (tile_code df) (x_min df) (x_max df) (y_min df)
           (y_max df) (geometry df).

Definition empty_frame : DataFrame :=
  {| Id := []; tile_code := []; x_min := []; x_max := []; y_min := [];
     y_max := []; geometry := [] |}.

(** The exact value of a number; none for [nan] and the infinities. *)
Definition value (v : pynum) : option Q :=
  match v with
  | PyInt z => Some (z # 1)
  | PyFloat (S754_zero _) => Some (0 # 1)
  | PyFloat (S754_finite s m e) =>
      Some (if s then Qopp (F64.to_Q m e) else F64.to_Q m e)
  | PyFloat _ => None
  end.

Definition between (lo hi : pynum) (p : Q) : bool :=
  match value lo, value hi with
  | Some a, Some b => Qle_bool a p && Qle_bool p b
  | _, _ => false
  end.

(** The point [(px, py)] lies in the cell. *)
Definition cell_contains (c : GridCell) (px py : Q) : bool :=
  between (cell_x_min c) (cell_x_max c) px
  && between (cell_y_min c) (cell_y_max c) py.

(** The point lies in some cell of the table. *)
Definition covered (df : DataFrame) (px py : Q) : bool :=
  List.existsb (fun c => cell_contains c px py) (rows df).

(** A polygon ring in WKT: [POLYGON((x1 y1, x2 y2, ...))]. *)
Definition wkt_point (p : pynum * pynum) : string :=
  PyNum.str (fst p) ++ " " ++ PyNum.str (snd p).

Definition wkt_polygon (ring : list (pynum * pynum)) : string :=
  "POLYGON((" ++ PyStr.join ", " (List.map wkt_point ring) ++ "))".

(** The corners of a rectangle, in the order of section 4.3. *)
Definition rectangle_ring (xMin xMax yMin yMax : pynum)
  : list (pynum * pynum) :=
  [(xMin, yMin); (xMin, yMax); (xMax, yMax); (xMax, yMin); (xMin, yMin)].

Inductive axis : Set := AxisX | AxisY.

Definition axis_name (a : axis) : string :=
  match a with
  | AxisX => "x"
  | AxisY => "y"
  end.

(** Hemisphere letter of section 4.1: value >= 0 gives N/E per axis,
    value < 0 gives S/W per axis. *)
Definition hemisphere (v : pynum) (a : axis) : string :=
  match a, PyNum.ge0 v with
  | AxisY, true => "n"
  | AxisX, true => "e"
  | AxisY, false => "s"
  | AxisX, false => "w"
  end.

(** encodeCoordinate of section 4.1: hemisphere letter, then the
    magnitude in default rendering with the decimal point replaced
    by [p]. *)
Definition encodeCoordinate (v : pynum) (a : axis) : string :=
  hemisphere v a ++ PyStr.replace "." "p" (PyNum.str (PyNum.abs v)).

(** The remainder of section 4.1's [<digits>[p<digits>]]: a
    non-negative decimal with [p] for the decimal point. *)
Definition is_digits (s : string) : bool :=
  negb (PyStr.is_empty s) && PyStr.all PyStr.is_digit s.

Definition nonneg_decimal (s : string) : bool :=
  let (d, t) := PyStr.span_digits s in
  negb (PyStr.is_empty d)
  && match t with
     | EmptyString => true
     | String c r => (Ascii.eqb c "p" || Ascii.eqb c "P") && is_digits r
     end.

(** Python's [v <= 0], [v > 0] and [v < 0]. *)
Definition le0 (v : pynum) : bool :=
  match v with
  | PyInt z => z <=? 0
  | PyFloat f => SFleb f F64.pzero
  end.

Definition gt0 (v : pynum) : bool :=
  match v with
  | PyInt z => 0 <? z
  | PyFloat f => SFltb F64.pzero f
  end.

Definition lt0 (v : pynum) : bool :=
  match v with
  | PyInt z => z <? 0
  | PyFloat f => SFltb f F64.pzero
  end.

(** [hi - lo <= 0] and [hi - lo >= 0], the difference as Python
    computes it. *)
Definition extent_le0 (lo hi : pynum) : bool :=
  match PyNum.sub hi lo with
  | Ok d => le0 d
  | Raise _ => false
  end.

Definition extent_ge0 (lo hi : pynum) : bool :=
  match PyNum.sub hi lo with
  | Ok d => PyNum.ge0 d
  | Raise _ => false
  end.

(** The axis has no room for a step: the step is positive and the
    extent is not, or the step is negative and the extent is not. *)
Definition no_room (step lo hi : pynum) : bool :=
  (gt0 step && extent_le0 lo hi) || (lt0 step && extent_ge0 lo hi).

(** The sign of a hemisphere letter, in either case: N and E are
    positive, S and W negative ([true]); no other character is a
    hemisphere. *)
Definition hemisphere_sign (c : ascii) : option bool :=
  if List.existsb (Ascii.eqb c) ["N"; "E"; "n"; "e"]%char then Some false
  else if List.existsb (Ascii.eqb c) ["S"; "W"; "s"; "w"]%char then Some true
  else None.

Definition sign_string (neg : bool) : string := if neg then "-" else "+".

(** The bands of a coordinate sequence: its consecutive pairs. *)
Fixpoint bands (l : list pynum) : list (pynum * pynum) :=
  match l with
  | a :: (b :: _) as r => (a, b) :: bands r
  | _ => []
  end.

(** The cell of an x-band and a y-band. *)
Definition make_cell (id : Z) (bx ys : pynum * pynum) : GridCell :=
  {| cell_id := id;
     cell_code :=
       PyStr.join "-"
         [encodeCoordinate (fst bx) AxisX; encodeCoordinate (snd bx) AxisX;
          encodeCoordinate (fst ys) AxisY; encodeCoordinate (snd ys) AxisY];
     cell_x_min := fst bx; cell_x_max := snd bx;
     cell_y_min := fst ys; cell_y_max := snd ys;
     cell_geometry := create_rectangle_wkt (fst bx) (snd bx) (fst ys) (snd ys)
  |}.

(** Cells numbered from [id] on. *)
Fixpoint number_cells (id : Z)
  (l : list ((pynum * pynum) * (pynum * pynum))) : list GridCell :=
  match l with
  | [] => []
  | (bx, ys) :: r => make_cell id bx ys :: number_cells (id + 1) r
  end.

(** All pairs of an x-band and a y-band, x-major: the y-bands of the
    first x-band, then those of the second, and so on. *)
Definition x_major (bxs bys : list (pynum * pynum))
  : list ((pynum * pynum) * (pynum * pynum)) :=
  List.flat_map (fun bx => List.map (fun ys => (bx, ys)) bys) bxs.

(** The cells of the grid over two coordinate sequences, ids from 1. *)
Definition grid_cells (xs ys : list pynum) : list GridCell :=
  number_cells 1 (x_major (bands xs) (bands ys)).

End Spec.

(** ** Predicates of the proofs *)

Import Core Spec.

(** The sign bit of a float that is not [nan]. *)
Definition has_sign (f : spec_float) (b : bool) : Prop :=
  match f with
  | S754_zero s | S754_infinity s | S754_finite s _ _ => s = b
  | S754_nan => True
  end.

(** A quotient that is zero or negative; [dnz] tells whether the
    dividend was non-zero. *)
Definition nonpos_quotient (v : spec_float) (dnz : bool) : Prop :=
  match v with
  | S754_zero s => dnz = false \/ s = true
  | S754_finite s _ _ => s = true
  | _ => True
  end.

(** What is left after the digits of a literal: nothing, or an
    exponent part. *)
Definition exponent_like (ex : string) : Prop :=
  match ex with
  | EmptyString => True
  | String c _ => PyStr.is_digit c = false
  end.

(** The digits printed for [n] are decimal digits, at least one, and
    their value is [n]. *)
Definition digits_of (n : Z) (d : string) : Prop :=
  PyStr.all PyStr.is_digit d = true
  /\ PyStr.is_empty d = false
  /\ forall a, PyStr.digits_value a d = a * 10 ^ Z.of_nat (String.length d) + n.

(** The characters of a printed finite float. *)
Definition numeric_char (c : ascii) : bool :=
  PyStr.is_digit c || Ascii.eqb c "." || Ascii.eqb c "e"
  || Ascii.eqb c "+" || Ascii.eqb c "-".

(** The rows held by the lists of the loops. *)
Definition state_rows (st : lists) : list GridCell :=
  zip_rows (lst_ids st) (lst_codes st) (lst_xmin st) (lst_xmax st)
           (lst_ymin st) (lst_ymax st) (lst_wkt st).

(** The seven lists of the loops have one length. *)
Definition aligned (st : lists) : Prop :=
  let n := List.length (lst_ids st) in
  List.length (lst_codes st) = n /\ List.length (lst_xmin st) = n
  /\ List.length (lst_xmax st) = n /\ List.length (lst_ymin st) = n
  /\ List.length (lst_ymax st) = n /\ List.length (lst_wkt st) = n.

(** The seven columns of a data frame have one length. *)
Definition columns_aligned (df : DataFrame) : Prop :=
  let n := List.length (Id df) in
  List.length (tile_code df) = n /\ List.length (x_min df) = n
  /\ List.length (x_max df) = n /\ List.length (y_min df) = n
  /\ List.length (y_max df) = n /\ List.length (geometry df) = n.

(** An integer that numpy's default integer type holds. *)
Definition fits_intp (z : Z) : Prop := Numpy.intp_min <= z < Numpy.intp_max.

(** An integer whose magnitude numpy's integer type holds as well: its
    [abs] does not wrap (the least 64-bit integer, [- 2^63], is left
    out). *)
Definition fits_abs (z : Z) : Prop := - Numpy.intp_max < z < Numpy.intp_max.

(** An argument from which numpy.arange builds an array of 64-bit
    integers or of floats: a float, or an integer that fits 64 bits. *)
Definition in_int64 (v : pynum) : Prop :=
  match v with
  | PyInt z => fits_intp z
  | PyFloat _ => True
  end.

(** A number as the grid holds it: an integer, or a well-formed float. *)
Definition well_formed (v : pynum) : bool :=
  match v with
  | PyInt _ => true
  | PyFloat f => F64.valid f
  end.

(** Not-a-number. *)
Definition is_nan (v : pynum) : bool :=
  match v with
  | PyFloat S754_nan => true
  | _ => false
  end.

(** Two integers that are equal, or two floats that are equal as [==]
    has it (0.0 and -0.0 are). *)
Definition same_number (v w : pynum) : Prop :=
  match v, w with
  | PyInt x, PyInt y => x = y
  | PyFloat f, PyFloat g => SFeqb f g = true
  | _, _ => False
  end.

(** The characters of a code: digits, lower-case ASCII letters, [+]
    and [-]. *)
Definition code_char (c : ascii) : bool :=
  PyStr.is_digit c || PyStr.in_range 97 122 c
  || Ascii.eqb c "+" || Ascii.eqb c "-".

(** Every [-] of the string is followed by a digit. *)
Fixpoint field_ok (s : string) : bool :=
  match s with
  | EmptyString => true
  | String c r =>
      (if Ascii.eqb c "-"
       then match r with
            | String d _ => PyStr.is_digit d
            | EmptyString => false
            end
       else true)
      && field_ok r
  end.

(** The magnitude part of a code: [str(abs(v))] with [p] for the
    point. *)
Definition magnitude (v : pynum) : string :=
  PyStr.replace "." "p" (PyNum.str (PyNum.abs v)).

(** The number of occurrences of a character in a string. *)
Fixpoint count (c : ascii) (s : string) : nat :=
  match s with
  | EmptyString => O
  | String x r => ((if Ascii.eqb x c then 1 else 0) + count c r)%nat
  end.

(** The characters [str] prints for a number: those of a decimal
    literal, and the letters of [inf] and [nan]. *)
Definition number_char (c : ascii) : bool :=
  numeric_char c || PyStr.in_range 97 122 c.

(** The tile code of a pair of bands. *)
Definition band_code (p : (pynum * pynum) * (pynum * pynum)) : string :=
  PyStr.join "-"
    [encodeCoordinate (fst (fst p)) AxisX; encodeCoordinate (snd (fst p)) AxisX;
     encodeCoordinate (fst (snd p)) AxisY; encodeCoordinate (snd (snd p)) AxisY].

(** A value as an element of the array numpy.arange builds for
    [start], [stop] and [step]: itself in an integer array, its float
    otherwise. *)
Definition as_element (start stop step v : pynum) : result pynum :=
  if Numpy.all_int start stop step then Ok v
  else f <- PyNum.to_float v ;; Ok (PyFloat f).

(** An infinity or not-a-number. *)
Definition nonfinite (v : pynum) : bool :=
  match v with
  | PyFloat S754_nan | PyFloat (S754_infinity _) => true
  | _ => false
  end.

(** * Properties *)

(** ** Strings *)

Lemma append_assoc (a b c : string) : (a ++ b) ++ c = a ++ (b ++ c).
Proof.
  induction a as [|x a IH]; simpl; [reflexivity | now rewrite IH].
Qed.

Lemma append_nil_r (a : string) : a ++ EmptyString = a.
Proof.
  induction a as [|x a IH]; simpl; [reflexivity | now rewrite IH].
Qed.

(** ** The WKT builder *)

(** C7: for all bounds, create_rectangle_wkt is the WKT polygon of the
    closed five-point ring (xMin,yMin), (xMin,yMax), (xMax,yMax),
    (xMax,yMin), (xMin,yMin), each coordinate in its default rendering;
    in particular the bounds 0, 1, 0, 1 give
    POLYGON((0 0, 0 1, 1 1, 1 0, 0 0)). *)
Theorem create_rectangle_wkt_ring :
  (forall xMin xMax yMin yMax : pynum,
      create_rectangle_wkt xMin xMax yMin yMax
      = wkt_polygon (rectangle_ring xMin xMax yMin yMax)
      /\ List.length (rectangle_ring xMin xMax yMin yMax) = 5%nat
      /\ List.hd_error (rectangle_ring xMin xMax yMin yMax)
         = List.nth_error (rectangle_ring xMin xMax yMin yMax) 4)
  /\ create_rectangle_wkt (PyInt 0) (PyInt 1) (PyInt 0) (PyInt 1)
     = "POLYGON((0 0, 0 1, 1 1, 1 0, 0 0))".
Proof.
  split; [| reflexivity].
  intros xMin xMax yMin yMax. split; [| split; reflexivity].
  unfold create_rectangle_wkt, wkt_polygon, rectangle_ring, wkt_point,
    PyStr.join.
  cbn [List.map String.concat fst snd].
  repeat rewrite append_assoc. cbn [String.append]. reflexivity.
Qed.

(** ** The coordinate encoder *)

Lemma format_number_axis (v : pynum) (a : axis) :
  format_number v (Some (axis_name a)) = Ok (encodeCoordinate v a).
Proof.
  unfold format_number, encodeCoordinate, hemisphere.
  destruct a, (PyNum.ge0 v); reflexivity.
Qed.

(** C4 (what the code does): with [axis = None] the hemisphere lookup
    comes before the test [axis is None] and raises KeyError, for every
    number; no numeric-only string is ever returned. *)
Theorem format_number_none_raises :
  forall v : pynum, format_number v None = Raise KeyError.
Proof.
  intros v. unfold format_number. destruct (PyNum.ge0 v); reflexivity.
Qed.

(** C10: negative zero passes the test [f_number >= 0], so
    format_number gives it the positive hemisphere letter on either
    axis ([n] for y, [e] for x); the same holds of the other zeros, so a
    zero never gets [s] or [w]. *)
Theorem format_number_negative_zero :
  PyNum.ge0 (PyFloat F64.nzero) = true
  /\ format_number (PyFloat F64.nzero) (Some "y") = Ok "n0p0"
  /\ format_number (PyFloat F64.nzero) (Some "x") = Ok "e0p0"
  /\ format_number (PyFloat F64.pzero) (Some "y") = Ok "n0p0"
  /\ format_number (PyFloat F64.pzero) (Some "x") = Ok "e0p0"
  /\ format_number (PyInt 0) (Some "y") = Ok "n0"
  /\ format_number (PyInt 0) (Some "x") = Ok "e0".
Proof.
  repeat split; reflexivity.
Qed.

(** ** The tile code *)

(** C8: get_code encodes xMin and xMax on axis x, yMin and yMax on
    axis y, and joins the four encodings with [-] in that order; in
    particular the bounds -10, -9, -5, -4 give w10-w9-s5-s4. *)
Theorem get_code_joins_encodings :
  (forall xMin xMax yMin yMax : pynum,
      get_code xMin xMax yMin yMax
      = Ok (PyStr.join "-" [encodeCoordinate xMin AxisX;
                            encodeCoordinate xMax AxisX;
                            encodeCoordinate yMin AxisY;
                            encodeCoordinate yMax AxisY]))
  /\ get_code (PyInt (-10)) (PyInt (-9)) (PyInt (-5)) (PyInt (-4))
     = Ok "w10-w9-s5-s4".
Proof.
  split; [| reflexivity].
  intros xMin xMax yMin yMax. unfold get_code.
  pose proof (format_number_axis xMin AxisX) as Ha.
  pose proof (format_number_axis xMax AxisX) as Hb.
  pose proof (format_number_axis yMin AxisY) as Hc.
  pose proof (format_number_axis yMax AxisY) as Hd.
  cbn [axis_name] in Ha, Hb, Hc, Hd.
  rewrite Ha, Hb, Hc, Hd. reflexivity.
Qed.

(** ** The grid enumerator *)

Lemma range_nonpos (n : Z) : n <= 0 -> Numpy.range n = [].
Proof.
  intros Hn. unfold Numpy.range.
  replace (Z.to_nat n) with 0%nat by lia. reflexivity.
Qed.

Lemma for_each_inner_nil (S : Type) (body : Z -> Z -> S -> result S)
  (l : list Z) (st : S) :
  for_each l (fun i => for_each [] (body i)) st = Ok st.
Proof.
  induction l as [|i l IH]; simpl; [reflexivity | exact IH].
Qed.

(** A coordinate sequence with fewer than two values on either axis
    leaves no band, and the loops append nothing. *)
Lemma get_grid_df_short (step x0 x1 y0 y1 : pynum) (xs ys : list pynum) :
  Numpy.arange x0 x1 step = Ok xs ->
  Numpy.arange y0 y1 step = Ok ys ->
  Numpy.len xs < 2 \/ Numpy.len ys < 2 ->
  get_grid_df step x0 x1 y0 y1 = Ok empty_frame.
Proof.
  intros Hx Hy Hshort. unfold get_grid_df. rewrite Hx, Hy. cbn [bind].
  destruct Hshort as [H | H].
  - rewrite (range_nonpos (Numpy.len xs - 1)) by lia. reflexivity.
  - rewrite (range_nonpos (Numpy.len ys - 1)) by lia.
    rewrite for_each_inner_nil. reflexivity.
Qed.

(** C1 (what the code does): for step 1 and the box 0..3 by 0..2 the
    coordinate sequences are 0,1,2 and 0,1, leaving two x-bands and one
    y-band: the table has two cells, ids 1 and 2, with bounds (0,1,0,1)
    and (1,2,0,1); the band up to xMax = 3 and the band up to yMax = 2
    are not produced. *)
Theorem get_grid_df_3_by_2 :
  Numpy.arange (PyInt 0) (PyInt 3) (PyInt 1) = Ok [PyInt 0; PyInt 1; PyInt 2]
  /\ Numpy.arange (PyInt 0) (PyInt 2) (PyInt 1) = Ok [PyInt 0; PyInt 1]
  /\ option_map rows
       (match get_grid_df (PyInt 1) (PyInt 0) (PyInt 3) (PyInt 0) (PyInt 2) with
        | Ok df => Some df
        | Raise _ => None
        end)
     = Some
         [ {| cell_id := 1; cell_code := "e0-e1-n0-n1";
              cell_x_min := PyInt 0; cell_x_max := PyInt 1;
              cell_y_min := PyInt 0; cell_y_max := PyInt 1;
              cell_geometry := "POLYGON((0 0, 0 1, 1 1, 1 0, 0 0))" |};
           {| cell_id := 2; cell_code := "e1-e2-n0-n1";
              cell_x_min := PyInt 1; cell_x_max := PyInt 2;
              cell_y_min := PyInt 0; cell_y_max := PyInt 1;
              cell_geometry := "POLYGON((1 0, 1 1, 2 1, 2 0, 1 0))" |} ].
Proof.
  repeat split; vm_compute; reflexivity.
Qed.

(** C2 (what the code does): with step 1 > 0 and the box 0..3 by 0..2
    the point (5/2, 3/2) of the box lies in no cell of the table, and
    neither does (5/2, 1/2) nor (1/2, 3/2): the cells cover 0..2 by
    0..1 only, so the box is not tiled without gaps. *)
Theorem get_grid_df_leaves_gap :
  match get_grid_df (PyInt 1) (PyInt 0) (PyInt 3) (PyInt 0) (PyInt 2) with
  | Ok df =>
      covered df (5 # 2) (3 # 2) = false
      /\ covered df (5 # 2) (1 # 2) = false
      /\ covered df (1 # 2) (3 # 2) = false
      /\ covered df (1 # 2) (1 # 2) = true
  | Raise _ => False
  end.
Proof.
  vm_compute. repeat split; reflexivity.
Qed.

(** *** Axes without room for a step *)

(** Rounding keeps the sign it is given. *)
Lemma binary_round_aux_sign (s : bool) (m e : Z) (l : location) :
  has_sign (binary_round_aux F64.prec F64.emax s m e l) s.
Proof.
  unfold binary_round_aux.
  destruct (shr_fexp F64.prec F64.emax m e l) as [mrs e'].
  destruct (shr_fexp F64.prec F64.emax _ e' loc_Exact) as [mrs' e''].
  destruct (shr_m mrs'); [reflexivity | | exact I].
  destruct (e'' <=? F64.emax - F64.prec); reflexivity.
Qed.

Lemma div_sign (x y : spec_float) (b c : bool) :
  has_sign x b -> has_sign y c -> has_sign (F64.div x y) (xorb b c).
Proof.
  intros Hx Hy.
  destruct x as [sx | sx | | sx mx ex], y as [sy | sy | | sy my ey];
    cbn in Hx, Hy; subst; try exact I; try reflexivity.
  unfold F64.div, SFdiv.
  destruct (SFdiv_core_binary F64.prec F64.emax (Z.pos mx) ex (Z.pos my) ey)
    as [[mz ez] lz].
  apply binary_round_aux_sign.
Qed.

Lemma of_Z_sign (z : Z) : z <> 0 -> has_sign (F64.of_Z z) (z <? 0).
Proof.
  intros Hz. unfold F64.of_Z, binary_normalize, binary_round.
  destruct z as [| m | m]; [lia | |];
    match goal with |- context [shl_align ?a ?b ?c] =>
      destruct (shl_align a b c) as [mz ez] end;
    apply binary_round_aux_sign.
Qed.

Lemma length_of_nonpos_quotient (v : spec_float) (dnz : bool) (n : Z) :
  nonpos_quotient v dnz ->
  (len <- Numpy.safe_ceil_to_intp v ;;
   Ok (if SFeqb v F64.pzero && dnz
       then (if F64.signbit v then 0 else 1)
       else len)) = Ok n ->
  n <= 0.
Proof.
  intros Hv. unfold Numpy.safe_ceil_to_intp.
  destruct v as [s | s | | s m e]; cbn [F64.ceil bind]; try discriminate.
  - cbn. destruct Hv as [-> | ->]; [| destruct dnz];
      intros H; injection H as <-; lia.
  - cbn in Hv. subst s.
    match goal with |- context [if ?c then Ok ?x else _] =>
      destruct c; cbn [bind]; [| discriminate]; set (k := x) end.
    assert (Hk : k <= 0).
    { subst k. destruct e as [| p | p].
      - lia.
      - assert (0 < 2 ^ Z.pos p) by (apply Z.pow_pos_nonneg; lia). nia.
      - assert (0 <= (- Z.neg m) / Z.pos (2 ^ p))
          by (apply Z.div_pos; lia). lia. }
    cbn. intros H; injection H as <-. exact Hk.
Qed.

Lemma div_opposite_signs (x y : spec_float) (b dnz : bool) :
  has_sign x b -> has_sign y (negb b) ->
  nonpos_quotient (F64.div x y) dnz.
Proof.
  intros Hx Hy. pose proof (div_sign x y b (negb b) Hx Hy) as H.
  replace (xorb b (negb b)) with true in H by (destruct b; reflexivity).
  destruct (F64.div x y); cbn in *; auto.
Qed.

Lemma div_zero_dividend (s : bool) (y : spec_float) :
  nonpos_quotient (F64.div (S754_zero s) y) false.
Proof.
  destruct y; cbn; auto.
Qed.

(** The signs of Python's numbers, as floats. *)
Lemma to_float_negative (d : pynum) (x : spec_float) :
  le0 d = true -> PyNum.nonzero d = true -> PyNum.to_float d = Ok x ->
  has_sign x true.
Proof.
  destruct d as [z | f]; cbn [le0 PyNum.nonzero PyNum.to_float].
  - intros Hle Hnz. unfold PyNum.int_to_float.
    pose proof (of_Z_sign z) as Hs.
    replace (z <? 0) with true in Hs by lia.
    destruct (F64.of_Z z); intros H; try discriminate; injection H as <-;
      apply Hs; lia.
  - intros Hle Hnz H. injection H as <-.
    destruct f as [s | s | | s m e]; cbn in *; try discriminate;
      try exact I; destruct s; try discriminate; reflexivity.
Qed.

Lemma to_float_positive (d : pynum) (x : spec_float) :
  PyNum.ge0 d = true -> PyNum.nonzero d = true -> PyNum.to_float d = Ok x ->
  has_sign x false.
Proof.
  destruct d as [z | f]; cbn [PyNum.ge0 PyNum.nonzero PyNum.to_float].
  - intros Hle Hnz. unfold PyNum.int_to_float.
    pose proof (of_Z_sign z) as Hs.
    replace (z <? 0) with false in Hs by lia.
    destruct (F64.of_Z z); intros H; try discriminate; injection H as <-;
      apply Hs; lia.
  - intros Hle Hnz H. injection H as <-.
    destruct f as [s | s | | s m e]; cbn in *; try discriminate;
      try exact I; destruct s; try discriminate; reflexivity.
Qed.

Lemma to_float_zero (d : pynum) (x : spec_float) :
  PyNum.nonzero d = false -> PyNum.to_float d = Ok x -> F64.is_zero x = true.
Proof.
  destruct d as [z | f]; cbn [PyNum.nonzero PyNum.to_float].
  - intros Hz. replace z with 0 by lia. cbn. intros H; injection H as <-.
    reflexivity.
  - intros Hz H. injection H as <-.
    destruct f as [s | s | | s m e]; cbn in *; try discriminate;
      try reflexivity; destruct s; discriminate.
Qed.

Lemma gt0_nonzero (v : pynum) : gt0 v = true -> PyNum.ge0 v = true /\ PyNum.nonzero v = true.
Proof.
  destruct v as [z | f]; cbn.
  - intros H. split; lia.
  - destruct f as [s | s | | s m e]; cbn; try discriminate;
      destruct s; cbn; try discriminate; auto.
Qed.

Lemma lt0_nonzero (v : pynum) : lt0 v = true -> le0 v = true /\ PyNum.nonzero v = true.
Proof.
  destruct v as [z | f]; cbn.
  - intros H. split; lia.
  - destruct f as [s | s | | s m e]; cbn; try discriminate;
      destruct s; cbn; try discriminate; auto.
Qed.

Lemma int_quotient_nonpos (x y : Z) :
  (x <= 0 /\ 0 < y) \/ (0 <= x /\ y < 0) ->
  nonpos_quotient (PyNum.int_quotient x y) (negb (x =? 0)).
Proof.
  intros H. unfold PyNum.int_quotient.
  destruct x as [| n | n], y as [| d | d]; cbn [Z.abs]; try lia;
    try (left; reflexivity).
  - change (xorb (Z.pos n <? 0) (Z.neg d <? 0)) with true.
    apply (div_opposite_signs _ _ true); reflexivity.
  - change (xorb (Z.neg n <? 0) (Z.pos d <? 0)) with true.
    apply (div_opposite_signs _ _ true); reflexivity.
Qed.

Lemma truediv_nonpos (d step : pynum) (val : spec_float) :
  (le0 d = true /\ gt0 step = true)
  \/ (PyNum.ge0 d = true /\ lt0 step = true) ->
  PyNum.truediv d step = Ok val ->
  nonpos_quotient val (PyNum.nonzero d).
Proof.
  intros H.
  assert (Hfloat :
    (x <- PyNum.to_float d ;; y <- PyNum.to_float step ;;
     if F64.is_zero y then Raise ZeroDivisionError else Ok (F64.div x y))
    = Ok val -> nonpos_quotient val (PyNum.nonzero d)).
  { destruct (PyNum.to_float d) as [x |] eqn:Ex; cbn [bind];
      [| discriminate].
    destruct (PyNum.to_float step) as [y |] eqn:Ey; cbn [bind];
      [| discriminate].
    destruct (F64.is_zero y); [discriminate |].
    intros Hv; injection Hv as <-.
    destruct (PyNum.nonzero d) eqn:Hnz.
    - destruct H as [[Hd Hs] | [Hd Hs]].
      + apply (div_opposite_signs _ _ true).
        * exact (to_float_negative d x Hd Hnz Ex).
        * apply gt0_nonzero in Hs. destruct Hs as [Hs1 Hs2].
          exact (to_float_positive step y Hs1 Hs2 Ey).
      + apply (div_opposite_signs _ _ false).
        * exact (to_float_positive d x Hd Hnz Ex).
        * apply lt0_nonzero in Hs. destruct Hs as [Hs1 Hs2].
          exact (to_float_negative step y Hs1 Hs2 Ey).
    - pose proof (to_float_zero d x Hnz Ex) as Hz.
      destruct x; try discriminate. apply div_zero_dividend. }
  destruct d as [x | fx], step as [y | fy]; try exact Hfloat.
  cbn [PyNum.truediv PyNum.nonzero].
  destruct (y =? 0) eqn:Hy; [discriminate |].
  pose proof (int_quotient_nonpos x y) as Hq.
  cbn [le0 gt0 lt0 PyNum.ge0] in H.
  destruct (PyNum.int_quotient x y); try discriminate;
    intros Hv; injection Hv as <-; apply Hq; lia.
Qed.

Lemma overflow_to_value_ok (A : Type) (r : result A) (a : A) :
  Numpy.overflow_to_value r = Ok a -> r = Ok a.
Proof.
  destruct r as [x | e]; [trivial | destruct e; discriminate].
Qed.

Lemma calc_length_no_room (step lo hi : pynum) (n : Z) :
  no_room step lo hi = true ->
  Numpy.calc_length lo hi step = Ok n ->
  n <= 0.
Proof.
  unfold no_room, extent_le0, extent_ge0, Numpy.calc_length.
  intros Hroom Hlen. apply overflow_to_value_ok in Hlen.
  destruct (PyNum.sub hi lo) as [d |]; cbn [bind] in Hlen; [| discriminate].
  destruct (PyNum.truediv d step) as [val |] eqn:Eval; cbn [bind] in Hlen;
    [| discriminate].
  apply (length_of_nonpos_quotient val (PyNum.nonzero d)); [| exact Hlen].
  apply (truediv_nonpos d step); [| exact Eval].
  apply orb_true_iff in Hroom.
  destruct Hroom as [Hr | Hr]; apply andb_true_iff in Hr; tauto.
Qed.

Lemma arange_no_room (step lo hi : pynum) (xs : list pynum) :
  no_room step lo hi = true ->
  Numpy.arange lo hi step = Ok xs ->
  xs = [].
Proof.
  intros Hroom. unfold Numpy.arange.
  destruct (Numpy.calc_length lo hi step) as [n |] eqn:En; cbn [bind];
    [| discriminate].
  pose proof (calc_length_no_room step lo hi n Hroom En) as Hn.
  replace (n <=? 0) with true by lia.
  intros H; injection H as <-. reflexivity.
Qed.

(** When numpy.arange builds both coordinate sequences and one axis has
    no room for a step, the table is empty. *)
Lemma get_grid_df_no_extent (step xs_min xs_max ys_min ys_max : pynum) :
  is_ok (Numpy.arange xs_min xs_max step) = true ->
  is_ok (Numpy.arange ys_min ys_max step) = true ->
  no_room step xs_min xs_max = true \/ no_room step ys_min ys_max = true ->
  get_grid_df step xs_min xs_max ys_min ys_max = Ok empty_frame.
Proof.
  intros Hx Hy Hroom. rename xs_min into x0, xs_max into x1.
  rename ys_min into y0, ys_max into y1.
  destruct (Numpy.arange x0 x1 step) as [xs |] eqn:Ex; [| discriminate].
  destruct (Numpy.arange y0 y1 step) as [ys |] eqn:Ey; [| discriminate].
  apply (get_grid_df_short step x0 x1 y0 y1 xs ys Ex Ey).
  destruct Hroom as [H | H].
  - left. rewrite (arange_no_room step x0 x1 xs H Ex). cbn. lia.
  - right. rewrite (arange_no_room step y0 y1 ys H Ey). cbn. lia.
Qed.

(** ** The coordinate decoder *)

Lemma hemisphere_lookup (c : ascii) :
  lookup d_signal
    (String (if Ascii.eqb (PyStr.lower_char c) "p" then "."%char
             else PyStr.lower_char c) EmptyString)
  = match hemisphere_sign c with
    | Some neg => Ok (sign_string neg)
    | None => Raise KeyError
    end.
Proof.
  destruct c as [b0 b1 b2 b3 b4 b5 b6 b7].
  destruct b0, b1, b2, b3, b4, b5, b6, b7; vm_compute; reflexivity.
Qed.

(** retrieve_number, case by case on its input. *)
Lemma retrieve_number_cases (s : string) :
  retrieve_number s
  = match s with
    | EmptyString => Raise IndexError
    | String c r =>
        match hemisphere_sign c with
        | Some neg =>
            Parse.py_float
              (sign_string neg ++ PyStr.replace "p" "." (PyStr.lower r))
        | None => Raise KeyError
        end
    end.
Proof.
  destruct s as [| c r]; [reflexivity |].
  unfold retrieve_number, PyStr.lower, PyStr.replace.
  cbn [PyStr.map]. rewrite hemisphere_lookup.
  destruct (hemisphere_sign c); reflexivity.
Qed.
(** ** [float] on plain strings *)

Ltac ascii_cases c :=
  let b0 := fresh "b" in let b1 := fresh "b" in let b2 := fresh "b" in
  let b3 := fresh "b" in let b4 := fresh "b" in let b5 := fresh "b" in
  let b6 := fresh "b" in let b7 := fresh "b" in
  destruct c as [b0 b1 b2 b3 b4 b5 b6 b7];
  destruct b0, b1, b2, b3, b4, b5, b6, b7.

Lemma map_app (f : ascii -> ascii) (a b : string) :
  PyStr.map f (a ++ b) = PyStr.map f a ++ PyStr.map f b.
Proof.
  induction a as [| c a IH]; cbn; [reflexivity | now rewrite IH].
Qed.

Lemma map_fixed (f : ascii -> ascii) (p : ascii -> bool) (s : string) :
  (forall c, p c = true -> f c = c) ->
  PyStr.all p s = true -> PyStr.map f s = s.
Proof.
  intros Hf. induction s as [| c s IH]; cbn; [reflexivity |].
  intros H. apply andb_true_iff in H. destruct H as [Hc Hs].
  now rewrite (Hf c Hc), (IH Hs).
Qed.

Lemma all_app (p : ascii -> bool) (a b : string) :
  PyStr.all p (a ++ b) = PyStr.all p a && PyStr.all p b.
Proof.
  induction a as [| c a IH]; cbn; [reflexivity |].
  now rewrite IH, andb_assoc.
Qed.

Lemma all_weaken (p q : ascii -> bool) (s : string) :
  (forall c, p c = true -> q c = true) ->
  PyStr.all p s = true -> PyStr.all q s = true.
Proof.
  intros Hpq. induction s as [| c s IH]; cbn; [reflexivity |].
  intros H. apply andb_true_iff in H. destruct H as [Hc Hs].
  now rewrite (Hpq c Hc), (IH Hs).
Qed.

Lemma plain_transform (c : ascii) :
  Parse.plain c = true -> Parse.transform_char c = c.
Proof.
  unfold Parse.plain, Parse.transform_char.
  destruct (PyStr.code c <=? 127)%N; [reflexivity | discriminate].
Qed.

Lemma plain_not_space (c : ascii) :
  Parse.plain c = true -> Parse.is_space c = false.
Proof.
  unfold Parse.plain. destruct (Parse.is_space c); [| reflexivity].
  rewrite andb_false_r. discriminate.
Qed.

Lemma plain_not_underscore (c : ascii) :
  Parse.plain c = true -> Ascii.eqb c "_" = false.
Proof.
  unfold Parse.plain. destruct (Ascii.eqb c "_"); [| reflexivity].
  rewrite andb_false_r. discriminate.
Qed.

Lemma lstrip_plain (s : string) :
  PyStr.all Parse.plain s = true -> Parse.lstrip s = s.
Proof.
  destruct s as [| c s]; cbn; [reflexivity |].
  intros H. apply andb_true_iff in H. destruct H as [Hc _].
  now rewrite (plain_not_space c Hc).
Qed.

Lemma rstrip_plain (s : string) :
  PyStr.all Parse.plain s = true -> Parse.rstrip s = s.
Proof.
  induction s as [| c s IH]; cbn; [reflexivity |].
  intros H. apply andb_true_iff in H. destruct H as [Hc Hs].
  rewrite (IH Hs), (plain_not_space c Hc), andb_false_r. reflexivity.
Qed.

Lemma underscores_plain (s : string) (prev : ascii) :
  Ascii.eqb prev "_" = false ->
  PyStr.all Parse.plain s = true ->
  Parse.underscores prev s = Some s.
Proof.
  revert prev. induction s as [| c s IH]; intros prev Hprev; cbn.
  - now rewrite Hprev.
  - intros H. apply andb_true_iff in H. destruct H as [Hc Hs].
    pose proof (plain_not_underscore c Hc) as Hu.
    rewrite Hu, Hprev. cbn. now rewrite (IH c Hu Hs).
Qed.

(** On a plain string [float] is the literal reader alone. *)
Lemma py_float_plain (s : string) :
  PyStr.all Parse.plain s = true ->
  Parse.py_float s
  = match Parse.string_to_double s with
    | Some f => Ok f
    | None => Raise ValueError
    end.
Proof.
  intros H. unfold Parse.py_float, Parse.strip.
  rewrite (map_fixed _ _ s plain_transform H).
  rewrite (lstrip_plain s H), (rstrip_plain s H).
  rewrite (underscores_plain s "000"%char eq_refl H). reflexivity.
Qed.

Lemma digit_plain (c : ascii) : PyStr.is_digit c = true -> Parse.plain c = true.
Proof.
  ascii_cases c; vm_compute; trivial.
Qed.

Lemma digit_lower (c : ascii) : PyStr.is_digit c = true -> PyStr.lower_char c = c.
Proof.
  ascii_cases c; vm_compute; trivial; discriminate.
Qed.

Lemma digit_not_p (c : ascii) :
  PyStr.is_digit c = true -> (if Ascii.eqb c "p" then "."%char else c) = c.
Proof.
  ascii_cases c; vm_compute; trivial; discriminate.
Qed.

Lemma digit_not_dot (c : ascii) :
  PyStr.is_digit c = true -> (if Ascii.eqb c "." then "p"%char else c) = c.
Proof.
  ascii_cases c; vm_compute; trivial; discriminate.
Qed.

Lemma span_digits_app (d t : string) :
  PyStr.all PyStr.is_digit d = true ->
  match t with
  | EmptyString => True
  | String c _ => PyStr.is_digit c = false
  end ->
  PyStr.span_digits (d ++ t) = (d, t).
Proof.
  intros Hd Ht. induction d as [| c d IH]; cbn.
  - destruct t as [| c t]; [reflexivity |]. cbn. now rewrite Ht.
  - cbn in Hd. apply andb_true_iff in Hd. destruct Hd as [Hc Hd].
    now rewrite Hc, (IH Hd).
Qed.

Lemma span_digits_all (d : string) :
  PyStr.all PyStr.is_digit d = true ->
  PyStr.span_digits d = (d, EmptyString).
Proof.
  intros Hd. rewrite <- (append_nil_r d) at 1.
  now apply span_digits_app.
Qed.

Lemma number_start_not_word (c : ascii) :
  PyStr.is_digit c = true \/ c = "."%char ->
  Ascii.eqb (PyStr.lower_char c) "i" = false
  /\ Ascii.eqb (PyStr.lower_char c) "n" = false.
Proof.
  intros [H | ->]; [| split; reflexivity].
  revert H. ascii_cases c; vm_compute; intros; try discriminate; split;
    reflexivity.
Qed.

(** After the sign, a string that starts with a digit or a point is
    read as a decimal literal. *)
Lemma string_to_double_number (neg : bool) (c : ascii) (r : string) :
  PyStr.is_digit c = true \/ c = "."%char ->
  Parse.string_to_double (sign_string neg ++ String c r)
  = option_map (F64.round_Q neg) (Parse.parse_number (String c r)).
Proof.
  intros Hc. destruct (number_start_not_word c Hc) as [Hi Hn].
  unfold Parse.string_to_double.
  replace (Parse.take_sign (sign_string neg ++ String c r))
    with (neg, String c r) by (destruct neg; reflexivity).
  unfold PyStr.lower. cbn [PyStr.map String.eqb].
  rewrite Hi, Hn. reflexivity.
Qed.

Lemma parse_number_point (ip fp ex : string) (x : Z) :
  PyStr.all PyStr.is_digit ip = true ->
  PyStr.all PyStr.is_digit fp = true ->
  PyStr.is_empty ip && PyStr.is_empty fp = false ->
  exponent_like ex ->
  Parse.parse_exponent ex = Some x ->
  Parse.parse_number (ip ++ "." ++ fp ++ ex)
  = Some (F64.dec_value (PyStr.digits_value 0 (ip ++ fp))
            (x - Z.of_nat (String.length fp))).
Proof.
  intros Hip Hfp Hne Hex Hx. unfold Parse.parse_number.
  rewrite (span_digits_app ip ("." ++ fp ++ ex) Hip eq_refl).
  cbn [String.append]. rewrite (span_digits_app fp ex Hfp Hex).
  rewrite Hne, Hx. reflexivity.
Qed.

Lemma parse_number_whole (ip ex : string) (x : Z) :
  PyStr.all PyStr.is_digit ip = true ->
  PyStr.is_empty ip = false ->
  match ex with
  | EmptyString => True
  | String c _ => PyStr.is_digit c = false /\ c <> "."%char
  end ->
  Parse.parse_exponent ex = Some x ->
  Parse.parse_number (ip ++ ex)
  = Some (F64.dec_value (PyStr.digits_value 0 ip) x).
Proof.
  intros Hip Hne Hex Hx. unfold Parse.parse_number.
  rewrite (span_digits_app ip ex Hip)
    by (destruct ex; [exact I | exact (proj1 Hex)]).
  assert (Hr : (match ex with
                | String "." r => PyStr.span_digits r
                | _ => (EmptyString, ex)
                end) = (EmptyString, ex)).
  { destruct ex as [| c ex]; [reflexivity |]. destruct Hex as [_ Hc].
    revert Hc. ascii_cases c; intros Hc; try reflexivity.
    exfalso. apply Hc. reflexivity. }
  rewrite Hr, Hne, Hx. cbn [PyStr.is_empty andb String.length Z.of_nat].
  rewrite append_nil_r, Z.sub_0_r. reflexivity.
Qed.

Lemma py_float_raises (s : string) (e : exn) :
  Parse.py_float s = Raise e -> e = ValueError.
Proof.
  unfold Parse.py_float.
  destruct (Parse.underscores _ _) as [t |]; [| now intros [= <-]].
  destruct (Parse.string_to_double t); [discriminate | now intros [= <-]].
Qed.

Lemma is_digits_spec (d : string) :
  is_digits d = true ->
  PyStr.all PyStr.is_digit d = true
  /\ exists c r, d = String c r /\ PyStr.is_digit c = true.
Proof.
  unfold is_digits. intros H. apply andb_true_iff in H.
  destruct H as [Hne Hall]. split; [exact Hall |].
  destruct d as [| c r]; [discriminate |]. exists c, r. split; [reflexivity |].
  cbn in Hall. apply andb_true_iff in Hall. tauto.
Qed.

Lemma lower_digits (d : string) :
  PyStr.all PyStr.is_digit d = true -> PyStr.lower d = d.
Proof.
  apply map_fixed. exact digit_lower.
Qed.

Lemma replace_p_digits (d : string) :
  PyStr.all PyStr.is_digit d = true -> PyStr.replace "p" "." d = d.
Proof.
  apply (map_fixed _ PyStr.is_digit). exact digit_not_p.
Qed.

Lemma sign_string_plain (neg : bool) :
  PyStr.all Parse.plain (sign_string neg) = true.
Proof.
  destruct neg; reflexivity.
Qed.

Lemma digits_plain (d : string) :
  PyStr.all PyStr.is_digit d = true -> PyStr.all Parse.plain d = true.
Proof.
  apply all_weaken. exact digit_plain.
Qed.

(** A hemisphere letter followed by digits, or by digits, [p] and
    digits, decodes to the decimal magnitude with the letter's sign. *)
Lemma retrieve_number_decimal (c : ascii) (neg : bool) (d1 d2 : string) :
  hemisphere_sign c = Some neg ->
  is_digits d1 = true ->
  is_digits d2 = true ->
  retrieve_number (String c d1)
  = Ok (F64.round_Q neg (F64.dec_value (PyStr.digits_value 0 d1) 0))
  /\ retrieve_number (String c (d1 ++ "p" ++ d2))
     = Ok (F64.round_Q neg
             (F64.dec_value (PyStr.digits_value 0 (d1 ++ d2))
                            (- Z.of_nat (String.length d2)))).
Proof.
  intros Hc H1 H2.
  destruct (is_digits_spec d1 H1) as [Ha1 [c1 [r1 [E1 Hc1]]]].
  destruct (is_digits_spec d2 H2) as [Ha2 _].
  assert (Hne1 : PyStr.is_empty d1 = false) by (rewrite E1; reflexivity).
  rewrite !retrieve_number_cases, Hc. split.
  - rewrite (lower_digits d1 Ha1), (replace_p_digits d1 Ha1).
    rewrite py_float_plain
      by (rewrite all_app, sign_string_plain, (digits_plain d1 Ha1);
          reflexivity).
    rewrite E1, (string_to_double_number neg c1 r1 (or_introl Hc1)), <- E1.
    rewrite <- (append_nil_r d1) at 1.
    rewrite (parse_number_whole d1 EmptyString 0 Ha1 Hne1 I eq_refl).
    rewrite E1. reflexivity.
  - unfold PyStr.lower, PyStr.replace. rewrite !map_app.
    fold (PyStr.lower d1) (PyStr.lower d2).
    rewrite (lower_digits d1 Ha1), (lower_digits d2 Ha2).
    fold (PyStr.replace "p" "." d1) (PyStr.replace "p" "." d2).
    rewrite (replace_p_digits d1 Ha1), (replace_p_digits d2 Ha2).
    change (PyStr.map _ (PyStr.map PyStr.lower_char "p")) with ".".
    rewrite py_float_plain
      by (rewrite !all_app, sign_string_plain, (digits_plain d1 Ha1),
            (digits_plain d2 Ha2); reflexivity).
    rewrite E1. cbn [String.append].
    rewrite (string_to_double_number neg c1 _ (or_introl Hc1)).
    change (String c1 (r1 ++ String "." d2)) with (String c1 r1 ++ "." ++ d2).
    rewrite <- E1. rewrite <- (append_nil_r d2) at 1.
    assert (Hne : PyStr.is_empty d1 && PyStr.is_empty d2 = false)
      by (rewrite Hne1; reflexivity).
    rewrite (parse_number_point d1 d2 EmptyString 0 Ha1 Ha2 Hne I eq_refl).
    rewrite E1. reflexivity.
Qed.

(** C5 (amended): retrieve_number raises IndexError on the empty
    string and KeyError exactly when the first character is not one of
    N, S, E, W in either case; after a hemisphere letter it is
    [float(sign + remainder)], the remainder lower-cased with [p]
    replaced by a point and the sign [+] for N, E and [-] for S, W, so
    it raises ValueError exactly when [float] rejects that string; and
    for a remainder of the form digits or digits-p-digits it returns
    the decimal magnitude with the sign of the hemisphere. *)
Theorem retrieve_number_contract :
  (forall s : string,
      retrieve_number s
      = match s with
        | EmptyString => Raise IndexError
        | String c r =>
            match hemisphere_sign c with
            | Some neg =>
                Parse.py_float
                  (sign_string neg ++ PyStr.replace "p" "." (PyStr.lower r))
            | None => Raise KeyError
            end
        end)
  /\ (forall s : string,
         retrieve_number s = Raise IndexError <-> s = EmptyString)
  /\ (forall s : string,
         retrieve_number s = Raise KeyError
         <-> exists c r, s = String c r /\ hemisphere_sign c = None)
  /\ (forall s : string,
         retrieve_number s = Raise ValueError
         <-> exists c r neg,
             s = String c r /\ hemisphere_sign c = Some neg
             /\ Parse.py_float
                  (sign_string neg ++ PyStr.replace "p" "." (PyStr.lower r))
                = Raise ValueError)
  /\ (forall (c : ascii) (neg : bool) (d1 d2 : string),
         hemisphere_sign c = Some neg ->
         is_digits d1 = true ->
         is_digits d2 = true ->
         retrieve_number (String c d1)
         = Ok (F64.round_Q neg (F64.dec_value (PyStr.digits_value 0 d1) 0))
         /\ retrieve_number (String c (d1 ++ "p" ++ d2))
            = Ok (F64.round_Q neg
                    (F64.dec_value (PyStr.digits_value 0 (d1 ++ d2))
                                   (- Z.of_nat (String.length d2))))).
Proof.
  split; [exact retrieve_number_cases |].
  split; [| split; [| split; [| exact retrieve_number_decimal]]].
  - intros s. rewrite retrieve_number_cases. split.
    + destruct s as [| c r]; [reflexivity |].
      destruct (hemisphere_sign c); [| discriminate].
      intros H. apply py_float_raises in H. discriminate.
    + intros ->. reflexivity.
  - intros s. rewrite retrieve_number_cases. split.
    + destruct s as [| c r]; [discriminate |].
      destruct (hemisphere_sign c) eqn:Hc.
      * intros H. apply py_float_raises in H. discriminate.
      * intros _. exists c, r. split; [reflexivity | exact Hc].
    + intros [c [r [-> Hc]]]. rewrite Hc. reflexivity.
  - intros s. rewrite retrieve_number_cases. split.
    + destruct s as [| c r]; [discriminate |].
      destruct (hemisphere_sign c) as [neg |] eqn:Hc; [| discriminate].
      intros H. exists c, r, neg. repeat split; [exact Hc | exact H].
    + intros [c [r [neg [-> [Hc H]]]]]. rewrite Hc. exact H.
Qed.

Lemma retrieve_number_contract_witness :
  retrieve_number "N45p67"
  = Ok (F64.round_Q false (F64.dec_value 4567 (-2))).
Proof.
  exact (proj2 (proj2 (proj2 (proj2 (proj2 retrieve_number_contract)))
                  "N"%char false "45" "67" eq_refl eq_refl eq_refl)).
Defined.

(** C5 (as stated, refuted): the remainders [inf] and [nan] are not
    non-negative decimal numbers, yet N followed by them decodes
    without error, to infinity and to not-a-number; and the empty
    string, which has no first character, fails with IndexError. *)
Lemma retrieve_number_counterexample :
  hemisphere_sign "N" = Some false
  /\ nonneg_decimal "inf" = false
  /\ retrieve_number "Ninf" = Ok F64.pinf
  /\ nonneg_decimal "nan" = false
  /\ retrieve_number "Nnan" = Ok S754_nan
  /\ retrieve_number EmptyString = Raise IndexError.
Proof.
  repeat split; vm_compute; reflexivity.
Qed.

(** ** Decimal digits *)

Lemma digits_value_app (a : Z) (x y : string) :
  PyStr.digits_value a (x ++ y) = PyStr.digits_value (PyStr.digits_value a x) y.
Proof.
  revert a. induction x as [| c x IH]; intros a; cbn; [reflexivity | apply IH].
Qed.

Lemma length_app (x y : string) :
  String.length (x ++ y) = (String.length x + String.length y)%nat.
Proof.
  induction x as [| c x IH]; cbn; [reflexivity | now rewrite IH].
Qed.

Lemma digit_char_spec (k : Z) :
  0 <= k < 10 ->
  PyStr.is_digit (PyStr.digit_char k) = true
  /\ PyStr.digit_val (PyStr.digit_char k) = k.
Proof.
  intros Hk.
  assert (H : k = 0 \/ k = 1 \/ k = 2 \/ k = 3 \/ k = 4 \/ k = 5 \/ k = 6
              \/ k = 7 \/ k = 8 \/ k = 9) by lia.
  repeat (destruct H as [-> | H]; [split; reflexivity |]).
  subst k. split; reflexivity.
Qed.

Lemma digits_aux_spec (fuel : nat) :
  forall (n : Z) (acc : string),
    0 <= n < 2 ^ Z.of_nat fuel ->
    (0 < fuel)%nat ->
    exists d, PyStr.digits_aux fuel n acc = d ++ acc /\ digits_of n d.
Proof.
  induction fuel as [| fuel IH]; intros n acc Hn Hfuel; [lia |].
  cbn [PyStr.digits_aux].
  destruct (digit_char_spec (n mod 10)) as [Hd Hv];
    [apply Z.mod_pos_bound; lia |].
  destruct (n <? 10) eqn:Hlt.
  - exists (String (PyStr.digit_char (n mod 10)) EmptyString).
    split; [reflexivity |]. unfold digits_of.
    cbn [PyStr.all PyStr.is_empty PyStr.digits_value String.length].
    rewrite Hd, Hv. repeat split. intros a.
    rewrite Z.mod_small by lia. change (Z.of_nat 1) with 1.
    rewrite Z.pow_1_r. lia.
  - assert (Hn10 : 10 <= n) by lia.
    assert (Hpow : 2 ^ Z.of_nat (S fuel) = 2 * 2 ^ Z.of_nat fuel)
      by (rewrite Nat2Z.inj_succ, Z.pow_succ_r; lia).
    assert (Hq : 0 <= n / 10 < 2 ^ Z.of_nat fuel).
    { split; [apply Z.div_pos; lia |].
      apply Z.div_lt_upper_bound; lia. }
    assert (Hf : (0 < fuel)%nat).
    { destruct fuel; [cbn in Hn; lia | lia]. }
    destruct (IH (n / 10) (String (PyStr.digit_char (n mod 10)) acc) Hq Hf)
      as [d [Ed [Hall [Hne Hval]]]].
    exists (d ++ String (PyStr.digit_char (n mod 10)) EmptyString).
    split; [rewrite Ed, append_assoc; reflexivity |].
    unfold digits_of. rewrite all_app, Hall.
    cbn [PyStr.all andb]. rewrite Hd.
    split; [reflexivity |].
    split; [destruct d; [discriminate | reflexivity] |].
    intros a. rewrite digits_value_app, Hval.
    cbn [PyStr.digits_value]. rewrite Hv.
    rewrite length_app. cbn [String.length].
    replace (Z.of_nat (String.length d + 1))
      with (Z.succ (Z.of_nat (String.length d))) by lia.
    rewrite Z.pow_succ_r by lia.
    pose proof (Z.div_mod n 10). lia.
Qed.

Lemma digits_spec (n : Z) : 0 <= n -> digits_of n (PyStr.digits n).
Proof.
  intros Hn. unfold PyStr.digits.
  destruct (digits_aux_spec (S (Z.to_nat (Z.log2 n))) n EmptyString)
    as [d [Ed Hd]]; [| lia |].
  - split; [exact Hn |].
    rewrite Nat2Z.inj_succ, Z2Nat.id by apply Z.log2_nonneg.
    destruct (Z.eq_dec n 0) as [-> | Hnz]; [cbn; lia |].
    apply Z.log2_spec. lia.
  - rewrite Ed, append_nil_r. exact Hd.
Qed.

Lemma digits_value_digits (n : Z) :
  0 <= n -> PyStr.digits_value 0 (PyStr.digits n) = n.
Proof.
  intros Hn. destruct (digits_spec n Hn) as [_ [_ Hv]]. rewrite Hv. lia.
Qed.

(** ** Layout of the digits, read back *)

Lemma round_Q_Qeq (neg : bool) (q q' : Q) :
  q == q' -> F64.round_Q neg q = F64.round_Q neg q'.
Proof.
  intros H. unfold F64.round_Q. now rewrite (Qred_complete q q' H).
Qed.

Lemma repeat_zero_spec (z : nat) :
  PyStr.all PyStr.is_digit (PyStr.repeat "0" z) = true
  /\ String.length (PyStr.repeat "0" z) = z
  /\ forall a, PyStr.digits_value a (PyStr.repeat "0" z) = a * 10 ^ Z.of_nat z.
Proof.
  induction z as [| z [IH1 [IH2 IH3]]].
  - repeat split. intros a. cbn. lia.
  - cbn [PyStr.repeat PyStr.all String.length PyStr.digits_value].
    rewrite IH1, IH2. repeat split. intros a. rewrite IH3.
    rewrite Nat2Z.inj_succ, Z.pow_succ_r by lia.
    change (PyStr.digit_val "0") with 0. lia.
Qed.

Lemma firstn_skipn (n : nat) (s : string) :
  PyStr.firstn n s ++ PyStr.skipn n s = s.
Proof.
  revert s. induction n as [| n IH]; intros s; [reflexivity |].
  destruct s as [| c s]; [reflexivity |]. cbn. now rewrite IH.
Qed.

Lemma length_skipn (n : nat) (s : string) :
  String.length (PyStr.skipn n s) = (String.length s - n)%nat.
Proof.
  revert s. induction n as [| n IH]; intros s; cbn; [lia |].
  destruct s as [| c s]; [reflexivity |]. cbn. apply IH.
Qed.

Lemma all_firstn (p : ascii -> bool) (n : nat) (s : string) :
  PyStr.all p s = true -> PyStr.all p (PyStr.firstn n s) = true.
Proof.
  revert s. induction n as [| n IH]; intros s; [reflexivity |].
  destruct s as [| c s]; [reflexivity |]. cbn. intros H.
  apply andb_true_iff in H. destruct H as [Hc Hs].
  now rewrite Hc, (IH s Hs).
Qed.

Lemma all_skipn (p : ascii -> bool) (n : nat) (s : string) :
  PyStr.all p s = true -> PyStr.all p (PyStr.skipn n s) = true.
Proof.
  revert s. induction n as [| n IH]; intros s; [trivial |].
  destruct s as [| c s]; [trivial |]. cbn. intros H.
  apply andb_true_iff in H. destruct H as [Hc Hs]. exact (IH s Hs).
Qed.

Lemma firstn_nonempty (n : nat) (s : string) :
  (0 < n)%nat -> PyStr.is_empty s = false ->
  PyStr.is_empty (PyStr.firstn n s) = false.
Proof.
  intros Hn Hs. destruct n; [lia |]. destruct s; [discriminate | reflexivity].
Qed.

Lemma firstn_all (n : nat) (s : string) :
  (String.length s <= n)%nat -> PyStr.firstn n s = s.
Proof.
  revert s. induction n as [| n IH]; intros s Hs.
  - destruct s; [reflexivity | cbn in Hs; lia].
  - destruct s as [| c s]; [reflexivity |]. cbn. rewrite IH; [reflexivity |].
    cbn in Hs. lia.
Qed.

Lemma pad2_spec (n : Z) (d : string) :
  digits_of n d -> digits_of n (Repr.pad2 d).
Proof.
  intros [Hall [Hne Hval]]. unfold Repr.pad2.
  destruct d as [| c [| c' d]]; try (repeat split; assumption).
  unfold digits_of.
  cbn [PyStr.all PyStr.is_empty andb String.length] in *.
  rewrite Hall. repeat split. intros a.
  cbn [PyStr.digits_value]. change (PyStr.digit_val "0") with 0.
  pose proof (Hval (10 * a + 0)) as H1. cbn [PyStr.digits_value] in H1.
  rewrite H1.
  change (Z.of_nat 2) with 2. change (Z.of_nat 1) with 1. lia.
Qed.

(** The exponent part printed for [x] reads back as [x]. *)
Lemma parse_exponent_printed (x : Z) :
  Parse.parse_exponent
    ("e" ++ (if x <? 0 then "-" else "+") ++ Repr.pad2 (PyStr.digits (Z.abs x)))
  = Some x.
Proof.
  destruct (pad2_spec (Z.abs x) _ (digits_spec (Z.abs x) (Z.abs_nonneg x)))
    as [Hall [Hne Hval]].
  set (d := Repr.pad2 (PyStr.digits (Z.abs x))) in *.
  unfold Parse.parse_exponent. cbn [String.append Ascii.eqb Bool.eqb orb].
  replace (Parse.take_sign ((if x <? 0 then "-" else "+") ++ d))
    with (x <? 0, d) by (destruct (x <? 0); reflexivity).
  rewrite (span_digits_all d Hall), Hne. cbn [orb negb PyStr.is_empty].
  rewrite Hval. destruct (x <? 0) eqn:Hx; f_equal; lia.
Qed.

Lemma parse_number_point_end (ip fp : string) :
  PyStr.all PyStr.is_digit ip = true ->
  PyStr.all PyStr.is_digit fp = true ->
  PyStr.is_empty ip && PyStr.is_empty fp = false ->
  Parse.parse_number (ip ++ "." ++ fp)
  = Some (F64.dec_value (PyStr.digits_value 0 (ip ++ fp))
            (- Z.of_nat (String.length fp))).
Proof.
  intros Hip Hfp Hne.
  rewrite <- (append_nil_r fp) at 1.
  rewrite (parse_number_point ip fp EmptyString 0 Hip Hfp Hne I eq_refl).
  reflexivity.
Qed.

Lemma read_leading_zeros (D : Z) (ds : string) (z : nat) :
  digits_of D ds ->
  Parse.parse_number ("0." ++ PyStr.repeat "0" z ++ ds)
  = Some (F64.dec_value D (- Z.of_nat (z + String.length ds))).
Proof.
  intros [Hall [Hne Hval]].
  destruct (repeat_zero_spec z) as [Hz1 [Hz2 Hz3]].
  change ("0." ++ PyStr.repeat "0" z ++ ds)
    with ("0" ++ "." ++ (PyStr.repeat "0" z ++ ds)).
  rewrite parse_number_point_end;
    [| reflexivity | rewrite all_app, Hz1, Hall; reflexivity | reflexivity].
  rewrite length_app, Hz2.
  cbn [String.append PyStr.digits_value].
  rewrite digits_value_app, Hz3, Hval.
  change (PyStr.digit_val "0") with 0. f_equal; f_equal; lia.
Qed.

Lemma read_trailing_zeros (D : Z) (ds : string) (z : nat) :
  digits_of D ds ->
  Parse.parse_number (ds ++ PyStr.repeat "0" z ++ ".0")
  = Some (F64.dec_value (D * 10 ^ Z.of_nat (S z)) (-1)).
Proof.
  intros [Hall [Hne Hval]].
  destruct (repeat_zero_spec z) as [Hz1 [Hz2 Hz3]].
  replace (ds ++ PyStr.repeat "0" z ++ ".0")
    with ((ds ++ PyStr.repeat "0" z) ++ "." ++ "0")
    by (rewrite append_assoc; reflexivity).
  rewrite parse_number_point_end;
    [| rewrite all_app, Hz1, Hall; reflexivity | reflexivity
     | destruct ds; [discriminate | reflexivity]].
  rewrite !digits_value_app, Hval, Hz3.
  cbn [PyStr.digits_value String.length].
  change (PyStr.digit_val "0") with 0. change (- Z.of_nat 1) with (-1).
  f_equal; f_equal; rewrite ?Nat2Z.inj_succ, ?Z.pow_succ_r by lia; lia.
Qed.

Lemma read_split (D : Z) (ds : string) (p : nat) :
  digits_of D ds ->
  (0 < p)%nat ->
  Parse.parse_number (PyStr.firstn p ds ++ "." ++ PyStr.skipn p ds)
  = Some (F64.dec_value D (- Z.of_nat (String.length ds - p))).
Proof.
  intros [Hall [Hne Hval]] Hp.
  rewrite parse_number_point_end;
    [| apply all_firstn; exact Hall | apply all_skipn; exact Hall
     | rewrite (firstn_nonempty p ds Hp Hne); reflexivity].
  rewrite firstn_skipn, length_skipn, Hval. f_equal; f_equal; lia.
Qed.

Lemma read_exponent_form (D x : Z) (ds : string) :
  digits_of D ds ->
  Parse.parse_number
    (PyStr.firstn 1 ds
       ++ (if 1 <? Z.of_nat (String.length ds)
           then "." ++ PyStr.skipn 1 ds else EmptyString)
       ++ "e" ++ (if x <? 0 then "-" else "+")
       ++ Repr.pad2 (PyStr.digits (Z.abs x)))
  = Some (F64.dec_value D (x - (Z.of_nat (String.length ds) - 1))).
Proof.
  intros Hds. pose proof Hds as [Hall [Hne Hval]].
  pose proof (parse_exponent_printed x) as Hx.
  set (ex := "e" ++ (if x <? 0 then "-" else "+")
               ++ Repr.pad2 (PyStr.digits (Z.abs x))) in *.
  assert (Hex : exponent_like ex) by reflexivity.
  destruct (1 <? Z.of_nat (String.length ds)) eqn:Hn.
  - change (("." ++ PyStr.skipn 1 ds) ++ ex)
      with ("." ++ PyStr.skipn 1 ds ++ ex).
    rewrite (parse_number_point (PyStr.firstn 1 ds) (PyStr.skipn 1 ds) ex x);
      [| apply all_firstn; exact Hall | apply all_skipn; exact Hall
       | rewrite (firstn_nonempty 1 ds (le_n 1) Hne); reflexivity
       | exact Hex | exact Hx].
    rewrite firstn_skipn, length_skipn, Hval. f_equal; f_equal; lia.
  - assert (Hlen : String.length ds = 1%nat).
    { destruct ds as [| c [| c' ds]]; [discriminate | reflexivity |].
      exfalso. apply Z.ltb_ge in Hn. cbn [String.length] in Hn. lia. }
    rewrite firstn_all by lia. cbn [String.append].
    rewrite (parse_number_whole ds ex x Hall Hne); [| | exact Hx].
    + rewrite Hval, Hlen. f_equal; f_equal; lia.
    + split; [reflexivity | discriminate].
Qed.

Lemma dec_value_nonneg (D k : Z) :
  0 <= k -> F64.dec_value D k = (D * 10 ^ k) # 1.
Proof.
  intros Hk. destruct k; [reflexivity | reflexivity | lia].
Qed.

Lemma dec_value_trailing (D : Z) (z : nat) :
  F64.dec_value (D * 10 ^ Z.of_nat (S z)) (-1)
  == F64.dec_value D (Z.of_nat z).
Proof.
  rewrite (dec_value_nonneg D (Z.of_nat z)) by lia.
  unfold F64.dec_value, Qeq. cbn [Qnum Qden].
  rewrite Nat2Z.inj_succ, Z.pow_succ_r by lia.
  change (Z.pos (10 ^ 1)) with 10. lia.
Qed.

(** The layout of the digits [D] with exponent [k], read back as a
    decimal literal, is the decimal [D * 10^k]. *)
Lemma format_short_read (neg : bool) (D k : Z) :
  0 < D ->
  option_map (F64.round_Q neg) (Parse.parse_number (Repr.format_short D k))
  = Some (F64.round_Q neg (F64.dec_value D k)).
Proof.
  intros HD. assert (Hds : digits_of D (PyStr.digits D))
    by (apply digits_spec; lia).
  unfold Repr.format_short. set (ds := PyStr.digits D) in *.
  set (n := Z.of_nat (String.length ds)).
  assert (Hn : 0 < n).
  { destruct Hds as [_ [Hne _]]. subst n.
    destruct ds; [discriminate | cbn [String.length]; lia]. }
  destruct ((-4 <? n + k) && (n + k <=? 16)).
  - destruct (n + k <=? 0) eqn:H0.
    + rewrite (read_leading_zeros D ds _ Hds). cbn [option_map].
      do 3 f_equal. subst n. lia.
    + destruct (n <=? n + k) eqn:H1.
      * rewrite (read_trailing_zeros D ds _ Hds). cbn [option_map].
        f_equal. apply round_Q_Qeq.
        rewrite dec_value_trailing. replace (Z.of_nat (Z.to_nat (n + k - n)))
          with k by lia. reflexivity.
      * rewrite (read_split D ds _ Hds) by lia. cbn [option_map].
        do 3 f_equal. subst n. lia.
  - pose proof (read_exponent_form D (n + k - 1) ds Hds) as Hr.
    fold n in Hr. cbv zeta. rewrite Hr. cbn [option_map].
    do 3 f_equal. lia.
Qed.

Lemma digit_numeric (c : ascii) :
  PyStr.is_digit c = true -> numeric_char c = true.
Proof.
  intros H. unfold numeric_char. now rewrite H.
Qed.

Lemma format_short_chars (D k : Z) :
  0 < D ->
  PyStr.all numeric_char (Repr.format_short D k) = true
  /\ exists c r, Repr.format_short D k = String c r /\ PyStr.is_digit c = true.
Proof.
  intros HD. destruct (digits_spec D) as [Hall [Hne Hval]]; [lia |].
  unfold Repr.format_short. set (ds := PyStr.digits D) in *.
  set (n := Z.of_nat (String.length ds)).
  assert (Hnum : PyStr.all numeric_char ds = true)
    by (apply (all_weaken PyStr.is_digit); [exact digit_numeric | exact Hall]).
  assert (Hhead : exists c r, ds = String c r /\ PyStr.is_digit c = true).
  { destruct ds as [| c r]; [discriminate |]. exists c, r.
    cbn in Hall. apply andb_true_iff in Hall. tauto. }
  destruct Hhead as [c [r [Eds Hc]]].
  assert (Hzeros : forall z, PyStr.all numeric_char (PyStr.repeat "0" z) = true).
  { intros z. apply (all_weaken PyStr.is_digit); [exact digit_numeric |].
    apply repeat_zero_spec. }
  destruct ((-4 <? n + k) && (n + k <=? 16)).
  - destruct (n + k <=? 0) eqn:H0; [| destruct (n <=? n + k) eqn:H1].
    + split.
      * change ("0." ++ ?x) with (String "0" (String "." x)).
        cbn [PyStr.all]. rewrite all_app, Hzeros, Hnum. reflexivity.
      * eexists; eexists; split; reflexivity.
    + split.
      * rewrite !all_app, Hzeros, Hnum. reflexivity.
      * rewrite Eds. cbn [String.append]. eexists; eexists; split;
          [reflexivity | exact Hc].
    + split.
      * rewrite !all_app, (all_firstn _ _ _ Hnum), (all_skipn _ _ _ Hnum).
        reflexivity.
      * rewrite Eds. destruct (Z.to_nat (n + k)) eqn:Hp; [lia |].
        cbn [PyStr.firstn String.append]. eexists; eexists; split;
          [reflexivity | exact Hc].
  - split.
    + destruct (pad2_spec _ _ (digits_spec (Z.abs (n + k - 1))
                                 (Z.abs_nonneg _))) as [Hp _].
      rewrite !all_app, (all_firstn _ _ _ Hnum).
      rewrite (all_weaken _ _ _ digit_numeric Hp).
      destruct (1 <? n), (n + k - 1 <? 0);
        rewrite ?all_app, ?(all_skipn _ _ _ Hnum); reflexivity.
    + rewrite Eds. cbn [PyStr.firstn String.append].
      eexists; eexists; split; [reflexivity | exact Hc].
Qed.

(** ** Rounding a representable value *)

Lemma iter_pos_nat (A : Type) (f : A -> A) (p : positive) (x : A) :
  iter_pos f p x = Nat.iter (Pos.to_nat p) f x.
Proof.
  revert x. induction p as [p IH | p IH |]; intros x; cbn [iter_pos].
  - rewrite !IH, Pos2Nat.inj_xI, <- Nat.iter_add, <- Nat.iter_succ_r.
    f_equal. lia.
  - rewrite !IH, Pos2Nat.inj_xO, <- Nat.iter_add. f_equal. lia.
  - reflexivity.
Qed.

Lemma shr_1_even (w : Z) :
  0 < w ->
  shr_1 {| shr_m := 2 * w; shr_r := false; shr_s := false |}
  = {| shr_m := w; shr_r := false; shr_s := false |}.
Proof.
  intros Hw. destruct w as [| w | w]; [lia | reflexivity | lia].
Qed.

Lemma shr_exact (k : nat) (w : Z) :
  0 < w ->
  Nat.iter k shr_1
    {| shr_m := w * 2 ^ Z.of_nat k; shr_r := false; shr_s := false |}
  = {| shr_m := w; shr_r := false; shr_s := false |}.
Proof.
  intros Hw. induction k as [| k IH].
  - cbn [Nat.iter]. change (Z.of_nat 0) with 0. now rewrite Z.mul_1_r.
  - rewrite Nat.iter_succ_r, Nat2Z.inj_succ, Z.pow_succ_r by lia.
    replace (w * (2 * 2 ^ Z.of_nat k)) with (2 * (w * 2 ^ Z.of_nat k)) by lia.
    rewrite shr_1_even; [exact IH |].
    apply Z.mul_pos_pos; [exact Hw | apply Z.pow_pos_nonneg; lia].
Qed.

Lemma digits2_pos_bounds (m : positive) :
  2 ^ (Z.pos (digits2_pos m) - 1) <= Z.pos m < 2 ^ Z.pos (digits2_pos m).
Proof.
  induction m as [m IH | m IH |]; cbn [digits2_pos].
  - rewrite Pos2Z.inj_succ, (Pos2Z.inj_xI m).
    replace (Z.succ (Z.pos (digits2_pos m)) - 1)
      with (Z.succ (Z.pos (digits2_pos m) - 1)) by lia.
    rewrite !Z.pow_succ_r by lia.
    destruct IH as [IH1 IH2]. revert IH1 IH2.
    generalize (2 ^ (Z.pos (digits2_pos m) - 1)) (2 ^ Z.pos (digits2_pos m)).
    intros a b IH1 IH2. lia.
  - rewrite Pos2Z.inj_succ, (Pos2Z.inj_xO m).
    replace (Z.succ (Z.pos (digits2_pos m)) - 1)
      with (Z.succ (Z.pos (digits2_pos m) - 1)) by lia.
    rewrite !Z.pow_succ_r by lia.
    destruct IH as [IH1 IH2]. revert IH1 IH2.
    generalize (2 ^ (Z.pos (digits2_pos m) - 1)) (2 ^ Z.pos (digits2_pos m)).
    intros a b IH1 IH2. lia.
  - cbn. lia.
Qed.

Lemma Zdigits2_double (w : Z) :
  0 < w -> Zdigits2 (2 * w) = Zdigits2 w + 1.
Proof.
  intros Hw. destruct w as [| w | w]; [lia | | lia].
  change (Zdigits2 (2 * Z.pos w)) with (Z.pos (Pos.succ (digits2_pos w))).
  cbn [Zdigits2]. rewrite Pos2Z.inj_succ. lia.
Qed.

Lemma Zdigits2_shift (w : Z) (k : nat) :
  0 < w -> Zdigits2 (w * 2 ^ Z.of_nat k) = Zdigits2 w + Z.of_nat k.
Proof.
  intros Hw. induction k as [| k IH].
  - change (Z.of_nat 0) with 0. rewrite Z.mul_1_r. lia.
  - rewrite Nat2Z.inj_succ, Z.pow_succ_r by lia.
    replace (w * (2 * 2 ^ Z.of_nat k)) with (2 * (w * 2 ^ Z.of_nat k)) by lia.
    rewrite Zdigits2_double, IH; [lia |].
    apply Z.mul_pos_pos; [exact Hw | apply Z.pow_pos_nonneg; lia].
Qed.

Lemma bounded_spec (m : positive) (e : Z) :
  bounded F64.prec F64.emax m e = true ->
  fexp F64.prec F64.emax (Z.pos (digits2_pos m) + e) = e
  /\ e <= F64.emax - F64.prec.
Proof.
  unfold bounded, canonical_mantissa. intros H.
  apply andb_true_iff in H. destruct H as [H1 H2].
  split; [apply Z.eqb_eq; exact H1 | apply Z.leb_le; exact H2].
Qed.

(** A mantissa with [u] extra low zero bits rounds to the float it
    stands for. *)
Lemma binary_round_aux_exact (s : bool) (m : positive) (e u : Z) :
  bounded F64.prec F64.emax m e = true ->
  0 <= u ->
  binary_round_aux F64.prec F64.emax s (Z.pos m * 2 ^ u) (e - u) loc_Exact
  = S754_finite s m e.
Proof.
  intros Hb Hu. destruct (bounded_spec m e Hb) as [Hcan Hmax].
  assert (Hshift : shr_fexp F64.prec F64.emax (Z.pos m * 2 ^ u) (e - u)
                     loc_Exact
                   = ({| shr_m := Z.pos m; shr_r := false; shr_s := false |},
                      e)).
  { unfold shr_fexp.
    assert (Hd : Zdigits2 (Z.pos m * 2 ^ u) = Z.pos (digits2_pos m) + u).
    { replace (Z.pos m * 2 ^ u)
        with (Z.pos m * 2 ^ Z.of_nat (Z.to_nat u))
        by (rewrite Z2Nat.id by lia; reflexivity).
      rewrite Zdigits2_shift by lia. cbn [Zdigits2]. lia. }
    rewrite Hd.
    replace (Z.pos (digits2_pos m) + u + (e - u))
      with (Z.pos (digits2_pos m) + e) by lia.
    rewrite Hcan. replace (e - (e - u)) with u by lia.
    cbn [shr_record_of_loc]. unfold shr.
    destruct u as [| p | p]; [| | lia].
    - rewrite Z.mul_1_r, Z.sub_0_r. reflexivity.
    - rewrite iter_pos_nat.
      replace (Z.pos m * 2 ^ Z.pos p)
        with (Z.pos m * 2 ^ Z.of_nat (Pos.to_nat p))
        by (rewrite positive_nat_Z; reflexivity).
      rewrite shr_exact by lia. f_equal. lia. }
  unfold binary_round_aux. rewrite Hshift.
  cbn [shr_m loc_of_shr_record round_nearest_even].
  unfold shr_fexp. cbn [Zdigits2]. rewrite Hcan, Z.sub_diag.
  cbn [shr_record_of_loc shr shr_m].
  replace (e <=? F64.emax - F64.prec) with true by lia. reflexivity.
Qed.

Lemma div_eucl_multiple (q d : Z) : 0 < d -> Z.div_eucl (q * d) d = (q, 0).
Proof.
  intros Hd.
  assert (H : Z.div_eucl (q * d) d = ((q * d) / d, (q * d) mod d)).
  { unfold Z.div, Z.modulo. destruct (Z.div_eucl (q * d) d). reflexivity. }
  rewrite H, Z.div_mul, Z.mod_mul by lia. reflexivity.
Qed.

Lemma new_location_zero (d : Z) : new_location d 0 = loc_Exact.
Proof.
  unfold new_location, new_location_even, new_location_odd.
  destruct (Z.even d); reflexivity.
Qed.

Lemma pow2_lt_exponents (a b : Z) : 0 <= b -> 2 ^ a < 2 ^ b -> a < b.
Proof.
  intros Hb H. apply (Z.pow_lt_mono_r_iff 2); [lia | exact Hb | exact H].
Qed.

(** The quotient of two integers whose value is the float [m * 2^e]
    rounds to that float. *)
Lemma div_exact (s : bool) (n d m : positive) (e : Z) :
  bounded F64.prec F64.emax m e = true ->
  Z.pos n * 2 ^ Z.max 0 (- e) = Z.pos m * 2 ^ Z.max 0 e * Z.pos d ->
  F64.div (S754_finite s n 0) (S754_finite false d 0) = S754_finite s m e.
Proof.
  intros Hb Heq. destruct (bounded_spec m e Hb) as [Hcan Hmax].
  pose proof (digits2_pos_bounds n) as [Hn1 Hn2].
  pose proof (digits2_pos_bounds d) as [Hd1 Hd2].
  pose proof (digits2_pos_bounds m) as [Hm1 Hm2].
  set (dn := Z.pos (digits2_pos n)) in *.
  set (dd := Z.pos (digits2_pos d)) in *.
  set (dm := Z.pos (digits2_pos m)) in *.
  set (e' := Z.min (fexp F64.prec F64.emax (dn + 0 - (dd + 0))) (0 - 0)).
  assert (He'0 : e' <= 0) by (subst e'; lia).
  assert (He' : e' <= e).
  { destruct (Z_le_gt_dec 0 e) as [He | He]; [lia |].
    assert (Hlt : dn - 1 - e < dm + dd).
    { apply pow2_lt_exponents; [lia |].
      rewrite Z.max_r in Heq by lia. rewrite Z.max_l, Z.pow_0_r in Heq by lia.
      replace (dn - 1 - e) with ((dn - 1) + (- e)) by lia.
      rewrite !Z.pow_add_r by lia.
      assert (0 < 2 ^ (- e)) by (apply Z.pow_pos_nonneg; lia).
      assert (0 < 2 ^ dd) by (apply Z.pow_pos_nonneg; lia).
      assert (0 < 2 ^ dm) by (apply Z.pow_pos_nonneg; lia).
      nia. }
    subst e'. unfold fexp, emin, F64.prec, F64.emax in *. lia. }
  unfold F64.div, SFdiv, SFdiv_core_binary. cbn [Zdigits2].
  fold dn dd e'.
  assert (Hm' : (match 0 - 0 - e' with
                 | Z.pos _ => Z.shiftl (Z.pos n) (0 - 0 - e')
                 | 0 => Z.pos n
                 | Z.neg _ => 0
                 end) = Z.pos m * 2 ^ (e - e') * Z.pos d).
  { assert (Hval : Z.pos n * 2 ^ (- e') = Z.pos m * 2 ^ (e - e') * Z.pos d).
    { destruct (Z_le_gt_dec 0 e) as [He | He].
      - rewrite Z.max_l, Z.pow_0_r in Heq by lia.
        rewrite Z.max_r in Heq by lia.
        replace (e - e') with (e + (- e')) by lia.
        rewrite Z.pow_add_r by lia. nia.
      - rewrite Z.max_r in Heq by lia.
        rewrite Z.max_l, Z.pow_0_r in Heq by lia.
        replace (- e') with ((- e) + (e - e')) by lia.
        rewrite Z.pow_add_r by lia. nia. }
    replace (0 - 0 - e') with (- e') by lia.
    destruct (- e') as [| p | p] eqn:Ee; [| | lia].
    - rewrite <- Hval. lia.
    - rewrite Z.shiftl_mul_pow2 by lia. exact Hval. }
  rewrite Hm', div_eucl_multiple, new_location_zero by lia.
  replace (xorb s false) with s by (destruct s; reflexivity).
  replace e' with (e - (e - e')) at 2 by lia.
  apply binary_round_aux_exact; [exact Hb | lia].
Qed.

Lemma Qred_num_pos (q : Q) : 0 < Qnum q -> 0 < Qnum (Qred q).
Proof.
  intros Hq. pose proof (Qred_correct q) as H. unfold Qeq in H.
  assert (0 < Qnum (Qred q) * Z.pos (Qden q)) by (rewrite H; lia).
  nia.
Qed.

Lemma Qred_num_nonpos (q : Q) : Qnum q <= 0 -> Qnum (Qred q) <= 0.
Proof.
  intros Hq. pose proof (Qred_correct q) as H. unfold Qeq in H.
  assert (Qnum (Qred q) * Z.pos (Qden q) <= 0) by (rewrite H; nia).
  nia.
Qed.

Lemma to_Q_cross (m : positive) (e : Z) :
  Qnum (F64.to_Q m e) * 2 ^ Z.max 0 (- e)
  = Z.pos m * 2 ^ Z.max 0 e * Z.pos (Qden (F64.to_Q m e)).
Proof.
  destruct e as [| p | p]; cbn [F64.to_Q Qnum Qden Z.opp].
  - cbn. lia.
  - rewrite Z.max_l, Z.max_r by lia. rewrite Pos2Z.inj_mul, Pos2Z.inj_pow.
    lia.
  - rewrite Z.max_r, Z.max_l by lia. rewrite Pos2Z.inj_pow. lia.
Qed.

(** Rounding the exact value of a float gives the float. *)
Lemma round_Q_exact (s : bool) (m : positive) (e : Z) (q : Q) :
  bounded F64.prec F64.emax m e = true ->
  q == F64.to_Q m e ->
  F64.round_Q s q = S754_finite s m e.
Proof.
  intros Hb Hq. unfold F64.round_Q.
  assert (Hr : Qred q == F64.to_Q m e) by (rewrite Qred_correct; exact Hq).
  pose proof (to_Q_cross m e) as Hc.
  assert (Hpos : 0 < Qnum (F64.to_Q m e)) by (destruct e; cbn; lia).
  unfold Qeq in Hr.
  assert (Hn : 0 < Qnum (Qred q)).
  { assert (0 < Qnum (Qred q) * Z.pos (Qden (F64.to_Q m e)))
      by (rewrite Hr; lia). nia. }
  destruct (Qnum (Qred q)) as [| n | n] eqn:En; [lia | | lia].
  apply div_exact; [exact Hb |].
  assert (0 < 2 ^ Z.max 0 (- e)) by (apply Z.pow_pos_nonneg; lia).
  assert (0 < 2 ^ Z.max 0 e) by (apply Z.pow_pos_nonneg; lia).
  apply (Z.mul_cancel_r _ _ (Z.pos (Qden (F64.to_Q m e)))); [lia |].
  transitivity (Z.pos n * Z.pos (Qden (F64.to_Q m e)) * 2 ^ Z.max 0 (- e));
    [ring |].
  rewrite Hr.
  transitivity (Qnum (F64.to_Q m e) * 2 ^ Z.max 0 (- e) * Z.pos (Qden (Qred q)));
    [ring |].
  rewrite Hc. ring.
Qed.

Lemma same_eq (a b : spec_float) : F64.same a b = true -> a = b.
Proof.
  destruct a as [s | s | | s m e], b as [t | t | | t n f]; cbn;
    try discriminate; try reflexivity.
  - intros H. apply Bool.eqb_prop in H. now subst.
  - intros H. apply Bool.eqb_prop in H. now subst.
  - intros H. apply andb_true_iff in H. destruct H as [H He].
    apply andb_true_iff in H. destruct H as [Hs Hm].
    apply Bool.eqb_prop in Hs. apply Pos.eqb_eq in Hm. apply Z.eqb_eq in He.
    now subst.
Qed.

Lemma try_digits_ok (f : spec_float) (q : Q) (E n D k : Z) :
  Repr.try_digits f q E n = Some (D, k) ->
  F64.round_Q false (F64.dec_value D k) = f.
Proof.
  unfold Repr.try_digits.
  destruct (Repr.scaled_floor q (E + 1 - n)) as [lo c].
  destruct (F64.same (F64.round_Q false (F64.dec_value lo (E + 1 - n))) f)
    eqn:Hlo;
    destruct (F64.same (F64.round_Q false
                          (F64.dec_value (lo + 1) (E + 1 - n))) f) eqn:Hhi;
    try discriminate; intros H; injection H as <- <-;
    try (apply same_eq; assumption).
  destruct c; [destruct (Z.even lo) | |]; apply same_eq; assumption.
Qed.

Lemma search_ok (fuel : nat) (f : spec_float) (q : Q) (E n D k : Z) :
  Repr.search fuel f q E n = Some (D, k) ->
  F64.round_Q false (F64.dec_value D k) = f.
Proof.
  revert n. induction fuel as [| fuel IH]; intros n; cbn [Repr.search];
    [discriminate |].
  destruct (Repr.try_digits f q E n) as [[D' k'] |] eqn:Ht.
  - intros H; injection H as <- <-. exact (try_digits_ok f q E n D' k' Ht).
  - apply IH.
Qed.

(** ** The shortest digits read back *)

(** Two decimals with the same value. *)
Lemma dec_value_cross (D k D' k' : Z) :
  D * 10 ^ Z.max 0 k * 10 ^ Z.max 0 (- k')
  = D' * 10 ^ Z.max 0 k' * 10 ^ Z.max 0 (- k) ->
  F64.dec_value D k == F64.dec_value D' k'.
Proof.
  intros H. unfold Qeq.
  assert (Hnum : forall X x, Qnum (F64.dec_value X x) = X * 10 ^ Z.max 0 x).
  { intros X x. destruct x as [| p | p]; cbn [F64.dec_value Qnum].
    - reflexivity.
    - rewrite Z.max_r by lia. reflexivity.
    - rewrite Z.max_l by lia. lia. }
  assert (Hden : forall X x,
             Z.pos (Qden (F64.dec_value X x)) = 10 ^ Z.max 0 (- x)).
  { intros X x. destruct x as [| p | p]; cbn [F64.dec_value Qden Z.opp].
    - reflexivity.
    - rewrite Z.max_l by lia. reflexivity.
    - rewrite Z.max_r by lia. rewrite Pos2Z.inj_pow. reflexivity. }
  rewrite !Hnum, !Hden. exact H.
Qed.

Lemma dec_value_step (D k : Z) :
  F64.dec_value D (k + 1) == F64.dec_value (10 * D) k.
Proof.
  apply dec_value_cross.
  destruct (Z_le_gt_dec 0 k) as [Hk | Hk].
  - rewrite !(Z.max_r 0 k), !(Z.max_r 0 (k + 1)) by lia.
    rewrite !(Z.max_l 0 (- k)), !(Z.max_l 0 (- (k + 1))) by lia.
    rewrite Z.pow_add_r by lia. lia.
  - rewrite !(Z.max_l 0 k), !(Z.max_l 0 (k + 1)) by lia.
    rewrite !(Z.max_r 0 (- k)), !(Z.max_r 0 (- (k + 1))) by lia.
    replace (- k) with (- (k + 1) + 1) by lia.
    rewrite Z.pow_add_r by lia. lia.
Qed.

Lemma strip_zeros_value (fuel : nat) (D k : Z) :
  0 < D ->
  0 < fst (Repr.strip_zeros fuel D k)
  /\ F64.dec_value (fst (Repr.strip_zeros fuel D k))
                   (snd (Repr.strip_zeros fuel D k))
     == F64.dec_value D k.
Proof.
  revert D k. induction fuel as [| fuel IH]; intros D k HD;
    cbn [Repr.strip_zeros].
  - split; [exact HD | reflexivity].
  - destruct ((0 <? D) && (D mod 10 =? 0)) eqn:Hc.
    + apply andb_true_iff in Hc. destruct Hc as [_ Hm].
      apply Z.eqb_eq in Hm.
      assert (HD10 : D = 10 * (D / 10))
        by (pose proof (Z.div_mod D 10); lia).
      destruct (IH (D / 10) (k + 1)) as [Hpos Hval]; [lia |].
      split; [exact Hpos |].
      rewrite Hval, dec_value_step, <- HD10. reflexivity.
    + split; [exact HD | reflexivity].
Qed.

Lemma exact_decimal_value (m : positive) (e : Z) :
  0 < fst (Repr.exact_decimal m e)
  /\ F64.dec_value (fst (Repr.exact_decimal m e))
                   (snd (Repr.exact_decimal m e))
     == F64.to_Q m e.
Proof.
  destruct e as [| p | p]; cbn [Repr.exact_decimal fst snd F64.to_Q].
  - split; [lia |]. unfold F64.dec_value, Qeq. cbn [Qnum Qden]. lia.
  - split; [apply Z.mul_pos_pos; [lia | apply Z.pow_pos_nonneg; lia] |].
    unfold F64.dec_value, Qeq. cbn [Qnum Qden].
    rewrite Pos2Z.inj_mul, Pos2Z.inj_pow. lia.
  - split; [lia |]. unfold F64.dec_value, Qeq. cbn [Qnum Qden].
    rewrite !Pos2Z.inj_mul, !Pos2Z.inj_pow.
    change 10 with (5 * 2). rewrite Z.pow_mul_l. lia.
Qed.

Lemma round_Q_finite_positive (neg s : bool) (D k : Z) (m : positive) (e : Z) :
  F64.round_Q neg (F64.dec_value D k) = S754_finite s m e -> 0 < D.
Proof.
  intros H. destruct (Z_lt_le_dec 0 D) as [HD | HD]; [exact HD |].
  exfalso. unfold F64.round_Q in H.
  assert (Hq : Qnum (F64.dec_value D k) <= 0).
  { destruct k as [| p | p]; cbn [F64.dec_value Qnum]; [lia | | lia].
    assert (0 < 10 ^ Z.pos p) by (apply Z.pow_pos_nonneg; lia). nia. }
  pose proof (Qred_num_nonpos _ Hq) as Hr.
  destruct (Qnum (Qred (F64.dec_value D k))); [discriminate | lia | discriminate].
Qed.

(** The digits chosen for a float read back as that float. *)
Lemma shortest_roundtrip (m : positive) (e : Z) :
  bounded F64.prec F64.emax m e = true ->
  0 < fst (Repr.shortest m e)
  /\ F64.round_Q false
       (F64.dec_value (fst (Repr.shortest m e)) (snd (Repr.shortest m e)))
     = S754_finite false m e.
Proof.
  intros Hb. unfold Repr.shortest.
  set (f := S754_finite false m e). set (q := F64.to_Q m e).
  assert (H0 : exists D0 k0,
             (match Repr.search 17 f q (Repr.decimal_exponent q) 1 with
              | Some c => c
              | None => Repr.exact_decimal m e
              end) = (D0, k0)
             /\ 0 < D0
             /\ F64.round_Q false (F64.dec_value D0 k0) = f).
  { destruct (Repr.search 17 f q (Repr.decimal_exponent q) 1)
      as [[D0 k0] |] eqn:Hs.
    - exists D0, k0. pose proof (search_ok _ _ _ _ _ _ _ Hs) as Hr.
      split; [reflexivity |]. split; [| exact Hr].
      exact (round_Q_finite_positive _ _ _ _ _ _ Hr).
    - destruct (exact_decimal_value m e) as [Hpos Hval].
      destruct (Repr.exact_decimal m e) as [D0 k0]. cbn [fst snd] in *.
      exists D0, k0. split; [reflexivity |]. split; [exact Hpos |].
      apply round_Q_exact; [exact Hb | exact Hval]. }
  destruct H0 as [D0 [k0 [-> [Hpos Hr]]]].
  destruct (strip_zeros_value (S (Z.to_nat (Z.log2 D0))) D0 k0 Hpos)
    as [Hpos' Hval'].
  destruct (Repr.strip_zeros _ D0 k0) as [D k]. cbn [fst snd] in *.
  split; [exact Hpos' |].
  rewrite (round_Q_Qeq false _ _ Hval'). exact Hr.
Qed.
(** ** Round trip of the coordinate codec *)

Lemma binary_round_aux_opp (m e : Z) (l : location) :
  binary_round_aux F64.prec F64.emax true m e l
  = SFopp (binary_round_aux F64.prec F64.emax false m e l).
Proof.
  unfold binary_round_aux.
  destruct (shr_fexp F64.prec F64.emax m e l) as [mrs e'].
  destruct (shr_fexp F64.prec F64.emax _ e' loc_Exact) as [mrs' e''].
  destruct (shr_m mrs'); [reflexivity | | reflexivity].
  destruct (e'' <=? F64.emax - F64.prec); reflexivity.
Qed.

Lemma round_Q_negative (q : Q) :
  F64.round_Q true q = SFopp (F64.round_Q false q).
Proof.
  unfold F64.round_Q. destruct (Qnum (Qred q)); try reflexivity.
  unfold F64.div, SFdiv.
  destruct (SFdiv_core_binary F64.prec F64.emax (Z.pos p) 0
              (Z.pos (Qden (Qred q))) 0) as [[mz ez] lz].
  apply binary_round_aux_opp.
Qed.

Lemma numeric_plain (c : ascii) : numeric_char c = true -> Parse.plain c = true.
Proof.
  ascii_cases c; vm_compute; trivial.
Qed.

(** Replacing the point by [p], lower-casing, and replacing [p] by a
    point gives back a character of a printed float. *)
Lemma numeric_decoded (c : ascii) :
  numeric_char c = true ->
  (fun x => if Ascii.eqb x "p" then "."%char else x)
    (PyStr.lower_char ((fun x => if Ascii.eqb x "." then "p"%char else x) c))
  = c.
Proof.
  ascii_cases c; vm_compute; trivial; discriminate.
Qed.

Lemma map_map (f g : ascii -> ascii) (s : string) :
  PyStr.map g (PyStr.map f s) = PyStr.map (fun c => g (f c)) s.
Proof.
  induction s as [| c s IH]; cbn; [reflexivity | now rewrite IH].
Qed.

Lemma numeric_string_decoded (s : string) :
  PyStr.all numeric_char s = true ->
  PyStr.replace "p" "." (PyStr.lower (PyStr.replace "." "p" s)) = s.
Proof.
  intros H. unfold PyStr.replace, PyStr.lower. rewrite !map_map.
  apply (map_fixed _ numeric_char); [exact numeric_decoded | exact H].
Qed.

(** A printed finite float, after a sign, reads back as the float with
    that sign. *)
Lemma read_printed_finite (neg s : bool) (m : positive) (e : Z) :
  bounded F64.prec F64.emax m e = true ->
  PyStr.all numeric_char (Repr.repr_abs (S754_finite s m e)) = true
  /\ Parse.py_float (sign_string neg ++ Repr.repr_abs (S754_finite s m e))
     = Ok (S754_finite neg m e).
Proof.
  intros Hb. cbn [Repr.repr_abs].
  destruct (shortest_roundtrip m e Hb) as [Hpos Hr].
  destruct (Repr.shortest m e) as [D k]. cbn [fst snd] in *.
  destruct (format_short_chars D k Hpos) as [Hnum [c [r [Ef Hc]]]].
  split; [exact Hnum |].
  rewrite py_float_plain
    by (rewrite all_app, sign_string_plain;
        exact (all_weaken _ _ _ numeric_plain Hnum)).
  rewrite Ef, (string_to_double_number neg c r (or_introl Hc)), <- Ef.
  rewrite (format_short_read neg D k Hpos).
  destruct neg; [rewrite round_Q_negative |]; rewrite Hr; reflexivity.
Qed.

Lemma SFeqb_finite_refl (s : bool) (m : positive) (e : Z) :
  SFeqb (S754_finite s m e) (S754_finite s m e) = true.
Proof.
  unfold SFeqb, SFcompare. rewrite Z.compare_refl.
  replace (Pos.compare_cont Eq m m) with Eq
    by (symmetry; apply Pos.compare_cont_refl).
  destruct s; reflexivity.
Qed.

(** C6: for every float value of magnitude >= 0 (every float but
    not-a-number, of either sign) and either axis, format_number
    succeeds and retrieve_number decodes its result to a float equal
    ([==]) to the value: the very same float, except that negative zero
    comes back as zero. *)
Theorem retrieve_number_format_number :
  forall (v : spec_float) (a : axis),
    F64.valid v = true ->
    PyNum.ge0 (PyNum.abs (PyFloat v)) = true ->
    exists v' : spec_float,
      (s <- format_number (PyFloat v) (Some (axis_name a)) ;;
       retrieve_number s) = Ok v'
      /\ SFeqb v' v = true
      /\ (F64.is_zero v = false -> v' = v).
Proof.
  intros v a Hvalid Hmag. rewrite format_number_axis. cbn [bind].
  destruct v as [s | s | | s m e].
  - exists F64.pzero. destruct s, a; repeat split; try discriminate;
      vm_compute; reflexivity.
  - exists (S754_infinity s). destruct s, a; repeat split;
      vm_compute; reflexivity.
  - discriminate.
  - exists (S754_finite s m e).
    split; [| split; [apply SFeqb_finite_refl | reflexivity]].
    destruct (read_printed_finite s false m e Hvalid) as [Hnum Hread].
    assert (Henc : encodeCoordinate (PyFloat (S754_finite s m e)) a
                   = String (match a, s with
                             | AxisY, false => "n" | AxisX, false => "e"
                             | AxisY, true => "s" | AxisX, true => "w"
                             end%char)
                       (PyStr.replace "." "p"
                          (Repr.repr_abs (S754_finite false m e))))
      by (destruct a, s; reflexivity).
    rewrite Henc, retrieve_number_cases.
    replace (hemisphere_sign _) with (Some s) by (destruct a, s; reflexivity).
    rewrite (numeric_string_decoded _ Hnum). exact Hread.
Qed.

Lemma retrieve_number_format_number_witness :
  exists v' : spec_float,
    (s <- format_number
            (PyFloat (S754_finite true 7722969673498624 (-46)))
            (Some (axis_name AxisX)) ;;
     retrieve_number s) = Ok v'
    /\ SFeqb v' (S754_finite true 7722969673498624 (-46)) = true
    /\ (F64.is_zero (S754_finite true 7722969673498624 (-46)) = false ->
        v' = S754_finite true 7722969673498624 (-46)).
Proof.
  apply (retrieve_number_format_number
           (S754_finite true 7722969673498624 (-46)) AxisX);
    vm_compute; reflexivity.
Defined.

(** On an integer the round trip gives the float nearest to it. *)
Lemma retrieve_number_format_number_int (z : Z) (a : axis) :
  (s <- format_number (PyInt z) (Some (axis_name a)) ;; retrieve_number s)
  = Ok (F64.round_Q (z <? 0) (F64.dec_value (Z.abs z) 0)).
Proof.
  rewrite format_number_axis. cbn [bind].
  destruct (digits_spec (Z.abs z) (Z.abs_nonneg z)) as [Hall [Hne Hval]].
  assert (Hd : is_digits (PyStr.digits (Z.abs z)) = true)
    by (unfold is_digits; rewrite Hne, Hall; reflexivity).
  assert (Henc : encodeCoordinate (PyInt z) a
                 = hemisphere (PyInt z) a ++ PyStr.digits (Z.abs z)).
  { unfold encodeCoordinate. cbn [PyNum.abs PyNum.str].
    unfold Repr.str_int. replace (Z.abs z <? 0) with false by lia.
    rewrite (map_fixed _ PyStr.is_digit _ digit_not_dot Hall
             : PyStr.replace "." "p" (PyStr.digits (Z.abs z)) = _).
    reflexivity. }
  rewrite Henc. unfold hemisphere. cbn [PyNum.ge0].
  replace (0 <=? z) with (negb (z <? 0)) by lia.
  destruct a, (z <? 0); cbn [negb String.append];
    match goal with
    | |- retrieve_number (String ?h _) = Ok (F64.round_Q ?neg _) =>
        destruct (retrieve_number_decimal h neg _ "0" eq_refl Hd eq_refl)
          as [H _]
    end;
    rewrite H, Hval; do 3 f_equal; lia.
Qed.

(** The default box at step 3.0: 30 by 25 cells, the first one from
    (-110, -60) and the last one up to (-20, 15). *)
Example get_grid_df_default_step_3 :
  match get_grid_df_default (PyFloat (S754_finite false 6755399441055744 (-51)))
  with
  | Ok df =>
      List.length (rows df) = 750%nat
      /\ option_map cell_code (List.hd_error (rows df))
         = Some "w110p0-w107p0-s60p0-s57p0"
      /\ option_map cell_geometry (List.hd_error (rows df))
         = Some "POLYGON((-110.0 -60.0, -110.0 -57.0, -107.0 -57.0, -107.0 -60.0, -110.0 -60.0))"
      /\ option_map cell_code (List.nth_error (rows df) 749)
         = Some "w23p0-w20p0-n12p0-n15p0"
      /\ option_map cell_id (List.nth_error (rows df) 749) = Some 750
  | Raise _ => False
  end.
Proof.
  vm_compute. repeat split; reflexivity.
Qed.

(** ** Order of floats and sign of their difference *)

Lemma iter_xO_value (m d : positive) :
  Z.pos (Pos.iter xO m d) = Z.pos m * 2 ^ Z.pos d.
Proof.
  induction d as [| d IH] using Pos.peano_ind.
  - cbn [Pos.iter]. rewrite Z.pow_1_r. lia.
  - rewrite Pos.iter_succ, Pos2Z.inj_xO, IH, Pos2Z.inj_succ, Z.pow_succ_r by lia.
    lia.
Qed.

(** The mantissa of [m * 2^e] written at the exponent [e' <= e]. *)
Lemma shl_align_value (m : positive) (e e' : Z) :
  e' <= e ->
  Z.pos (fst (shl_align m e e')) = Z.pos m * 2 ^ (e - e').
Proof.
  intros He. unfold shl_align.
  destruct (e' - e) as [| d | d] eqn:Ed; cbn [fst].
  - replace (e - e') with 0 by lia. lia.
  - lia.
  - rewrite iter_xO_value. replace (e - e') with (Z.pos d) by lia.
    reflexivity.
Qed.

Lemma canonical_digits (m : positive) (e : Z) :
  bounded F64.prec F64.emax m e = true ->
  Z.pos m < 2 ^ 53
  /\ (emin F64.prec F64.emax < e -> 2 ^ 52 <= Z.pos m)
  /\ emin F64.prec F64.emax <= e.
Proof.
  intros Hb. destruct (bounded_spec m e Hb) as [Hcan _].
  pose proof (digits2_pos_bounds m) as [H1 H2].
  unfold fexp, emin, F64.prec, F64.emax in *.
  set (d := Z.pos (digits2_pos m)) in *.
  assert (Hd : d <= 53) by lia.
  split; [| split; [| lia]].
  - apply Z.lt_le_trans with (2 ^ d); [exact H2 |].
    apply Z.pow_le_mono_r; lia.
  - intros He. assert (d = 53) by lia. subst d.
    replace (2 ^ 52) with (2 ^ (Z.pos (digits2_pos m) - 1))
      by (f_equal; lia). exact H1.
Qed.

(** Among well-formed positive floats the one with the smaller
    exponent is the smaller. *)
Lemma aligned_lt (m1 m2 : positive) (e1 e2 : Z) :
  bounded F64.prec F64.emax m1 e1 = true ->
  bounded F64.prec F64.emax m2 e2 = true ->
  e1 < e2 ->
  Z.pos m1 < Z.pos m2 * 2 ^ (e2 - e1).
Proof.
  intros H1 H2 He.
  destruct (canonical_digits m1 e1 H1) as [Hm1 [_ Hmin1]].
  destruct (canonical_digits m2 e2 H2) as [_ [Hm2 _]].
  assert (H52 : 2 ^ 52 <= Z.pos m2) by (apply Hm2; lia).
  assert (Hp : 2 <= 2 ^ (e2 - e1)).
  { replace 2 with (2 ^ 1) at 1 by reflexivity.
    apply Z.pow_le_mono_r; lia. }
  change (2 ^ 53) with (2 ^ 52 * 2) in Hm1. nia.
Qed.

Lemma shr_1_nonneg (r : shr_record) : 0 <= shr_m r -> 0 <= shr_m (shr_1 r).
Proof.
  destruct r as [m r s]. cbn [shr_m].
  destruct m as [| p | p]; [| destruct p | lia]; cbn; lia.
Qed.

Lemma shr_fexp_nonneg (m e : Z) (l : location) :
  0 <= m -> 0 <= shr_m (fst (shr_fexp F64.prec F64.emax m e l)).
Proof.
  intros Hm. unfold shr_fexp, shr.
  assert (H0 : 0 <= shr_m (shr_record_of_loc m l))
    by (destruct l as [| []]; exact Hm).
  destruct (fexp F64.prec F64.emax (Zdigits2 m + e) - e) as [| p | p];
    cbn [fst]; try exact H0.
  rewrite iter_pos_nat.
  apply (Nat.iter_invariant _ _ shr_1 (fun r => 0 <= shr_m r));
    [exact shr_1_nonneg | exact H0].
Qed.

Lemma round_nearest_even_nonneg (m : Z) (l : location) :
  0 <= m -> 0 <= round_nearest_even m l.
Proof.
  intros Hm. destruct l as [| []]; cbn; try lia.
  destruct (Z.even m); lia.
Qed.

(** Rounding a non-negative mantissa never gives not-a-number. *)
Lemma binary_round_aux_not_nan (s : bool) (m e : Z) (l : location) :
  0 <= m -> binary_round_aux F64.prec F64.emax s m e l <> S754_nan.
Proof.
  intros Hm. unfold binary_round_aux.
  pose proof (shr_fexp_nonneg m e l Hm) as H1.
  destruct (shr_fexp F64.prec F64.emax m e l) as [mrs e']. cbn [fst] in H1.
  pose proof (shr_fexp_nonneg _ e' loc_Exact
                (round_nearest_even_nonneg (shr_m mrs)
                   (loc_of_shr_record mrs) H1)) as H2.
  destruct (shr_fexp F64.prec F64.emax _ e' loc_Exact) as [mrs' e''].
  cbn [fst] in H2.
  destruct (shr_m mrs'); [discriminate | | lia].
  destruct (e'' <=? F64.emax - F64.prec); discriminate.
Qed.

(** The float of an integer mantissa has the sign of the integer. *)
Lemma binary_normalize_sign (z e : Z) :
  (z <= 0 -> SFleb (binary_normalize F64.prec F64.emax z e false) F64.pzero
             = true)
  /\ (0 <= z -> SFleb F64.pzero (binary_normalize F64.prec F64.emax z e false)
                = true).
Proof.
  unfold binary_normalize. destruct z as [| m | m].
  - split; reflexivity.
  - split; [lia | intros _]. unfold binary_round.
    destruct (shl_align m e _) as [mz ez].
    pose proof (binary_round_aux_sign false (Z.pos mz) ez loc_Exact) as Hs.
    pose proof (binary_round_aux_not_nan false (Z.pos mz) ez loc_Exact) as Hn.
    destruct (binary_round_aux F64.prec F64.emax false (Z.pos mz) ez loc_Exact);
      cbn in Hs; subst; try reflexivity. exfalso. apply Hn; [lia | reflexivity].
  - split; [intros _ | lia]. unfold binary_round.
    destruct (shl_align m e _) as [mz ez].
    pose proof (binary_round_aux_sign true (Z.pos mz) ez loc_Exact) as Hs.
    pose proof (binary_round_aux_not_nan true (Z.pos mz) ez loc_Exact) as Hn.
    destruct (binary_round_aux F64.prec F64.emax true (Z.pos mz) ez loc_Exact);
      cbn in Hs; subst; try reflexivity. exfalso. apply Hn; [lia | reflexivity].
Qed.

(** The order of two well-formed finite floats is the order of their
    signed mantissas at a common exponent. *)
Lemma SFleb_aligned (s1 s2 : bool) (m1 m2 : positive) (e1 e2 ez : Z) :
  bounded F64.prec F64.emax m1 e1 = true ->
  bounded F64.prec F64.emax m2 e2 = true ->
  ez <= e1 -> ez <= e2 ->
  SFleb (S754_finite s1 m1 e1) (S754_finite s2 m2 e2) = true ->
  cond_Zopp s1 (Z.pos m1 * 2 ^ (e1 - ez))
  <= cond_Zopp s2 (Z.pos m2 * 2 ^ (e2 - ez)).
Proof.
  intros H1 H2 Hz1 Hz2.
  assert (P1 : 0 < 2 ^ (e1 - ez)) by (apply Z.pow_pos_nonneg; lia).
  assert (P2 : 0 < 2 ^ (e2 - ez)) by (apply Z.pow_pos_nonneg; lia).
  assert (Hlt12 : e1 < e2 -> Z.pos m1 * 2 ^ (e1 - ez)
                             < Z.pos m2 * 2 ^ (e2 - ez)).
  { intros He. pose proof (aligned_lt m1 m2 e1 e2 H1 H2 He) as Ha.
    replace (e2 - ez) with ((e2 - e1) + (e1 - ez)) by lia.
    rewrite Z.pow_add_r by lia. nia. }
  assert (Hlt21 : e2 < e1 -> Z.pos m2 * 2 ^ (e2 - ez)
                             < Z.pos m1 * 2 ^ (e1 - ez)).
  { intros He. pose proof (aligned_lt m2 m1 e2 e1 H2 H1 He) as Ha.
    replace (e1 - ez) with ((e1 - e2) + (e2 - ez)) by lia.
    rewrite Z.pow_add_r by lia. nia. }
  unfold SFleb, SFcompare.
  rewrite !Pos.compare_cont_spec. cbn [Pos.switch_Eq].
  assert (Heq : e1 = e2 -> 2 ^ (e1 - ez) = 2 ^ (e2 - ez)) by (intros ->; reflexivity).
  destruct s1, s2; cbn [cond_Zopp]; try discriminate.
  - destruct (Z.compare_spec e1 e2) as [He | He | He]; try discriminate.
    + destruct (Pos.compare_spec m1 m2) as [Hm | Hm | Hm]; cbn [CompOpp];
        try discriminate; intros _; rewrite (Heq He); nia.
    + intros _. specialize (Hlt21 He). lia.
  - intros _. nia.
  - destruct (Z.compare_spec e1 e2) as [He | He | He]; try discriminate.
    + destruct (Pos.compare_spec m1 m2) as [Hm | Hm | Hm]; cbn [CompOpp];
        try discriminate; intros _; rewrite (Heq He); nia.
    + intros _. specialize (Hlt12 He). lia.
Qed.

(** The difference of two well-formed finite floats has the sign their
    order tells. *)
Lemma sub_sign (b a : spec_float) :
  F64.valid b = true -> F64.valid a = true ->
  F64.is_finite b = true -> F64.is_finite a = true ->
  (SFleb b a = true -> SFleb (F64.sub b a) F64.pzero = true)
  /\ (SFleb a b = true -> SFleb F64.pzero (F64.sub b a) = true).
Proof.
  intros Hvb Hva Hfb Hfa.
  destruct b as [sb | sb | | sb mb eb], a as [sa | sa | | sa ma ea];
    try discriminate.
  - destruct sb, sa; split; reflexivity.
  - destruct sa; split; cbn; trivial.
  - destruct sb; split; cbn; trivial.
  - unfold F64.sub, SFsub. cbn [F64.valid valid_binary] in Hvb, Hva.
    set (ez := Z.min eb ea).
    rewrite (shl_align_value mb eb ez), (shl_align_value ma ea ez)
      by (subst ez; lia).
    destruct (binary_normalize_sign
                (cond_Zopp sb (Z.pos mb * 2 ^ (eb - ez))
                 - cond_Zopp sa (Z.pos ma * 2 ^ (ea - ez))) ez) as [Hle Hge].
    split; intros H.
    + apply Hle.
      pose proof (SFleb_aligned sb sa mb ma eb ea ez Hvb Hva) as Ha.
      assert (ez <= eb /\ ez <= ea) as [Hz1 Hz2] by (subst ez; lia).
      specialize (Ha Hz1 Hz2 H). lia.
    + apply Hge.
      pose proof (SFleb_aligned sa sb ma mb ea eb ez Hva Hvb) as Ha.
      assert (ez <= eb /\ ez <= ea) as [Hz1 Hz2] by (subst ez; lia).
      specialize (Ha Hz2 Hz1 H). lia.
Qed.

(** For integer bounds, and for well-formed finite float bounds, a
    minimum not below the maximum leaves no positive extent, and a
    minimum not above the maximum no negative one. *)
Lemma extent_of_bounds :
  (forall lo hi : Z,
      extent_le0 (PyInt lo) (PyInt hi) = (hi <=? lo)
      /\ extent_ge0 (PyInt lo) (PyInt hi) = (lo <=? hi))
  /\ (forall lo hi : spec_float,
         F64.valid lo = true -> F64.valid hi = true ->
         F64.is_finite lo = true -> F64.is_finite hi = true ->
         (SFleb hi lo = true -> extent_le0 (PyFloat lo) (PyFloat hi) = true)
         /\ (SFleb lo hi = true
             -> extent_ge0 (PyFloat lo) (PyFloat hi) = true)).
Proof.
  split.
  - intros lo hi. unfold extent_le0, extent_ge0.
    cbn [PyNum.sub le0 PyNum.ge0]. split; lia.
  - intros lo hi Hvl Hvh Hfl Hfh. unfold extent_le0, extent_ge0.
    cbn [PyNum.sub PyNum.to_float bind le0 PyNum.ge0].
    exact (sub_sign hi lo Hvh Hvl Hfh Hfl).
Qed.

(** ** Degenerate boxes *)

(** C3 (amended): when numpy.arange builds both coordinate sequences
    and one axis has no room for a step (step > 0 with max - min <= 0,
    or step < 0 with max - min >= 0), get_grid_df raises nothing and
    returns the empty table; for integer bounds, and for well-formed
    finite float bounds, max - min <= 0 holds when min >= max, and
    max - min >= 0 when min <= max. *)
Theorem get_grid_df_no_room :
  (forall step xs_min xs_max ys_min ys_max : pynum,
      is_ok (Numpy.arange xs_min xs_max step) = true ->
      is_ok (Numpy.arange ys_min ys_max step) = true ->
      no_room step xs_min xs_max = true \/ no_room step ys_min ys_max = true ->
      get_grid_df step xs_min xs_max ys_min ys_max = Ok empty_frame)
  /\ (forall lo hi : Z,
         extent_le0 (PyInt lo) (PyInt hi) = (hi <=? lo)
         /\ extent_ge0 (PyInt lo) (PyInt hi) = (lo <=? hi))
  /\ (forall lo hi : spec_float,
         F64.valid lo = true -> F64.valid hi = true ->
         F64.is_finite lo = true -> F64.is_finite hi = true ->
         (SFleb hi lo = true -> extent_le0 (PyFloat lo) (PyFloat hi) = true)
         /\ (SFleb lo hi = true
             -> extent_ge0 (PyFloat lo) (PyFloat hi) = true)).
Proof.
  split; [exact get_grid_df_no_extent | exact extent_of_bounds].
Qed.

Lemma get_grid_df_no_room_witness :
  get_grid_df (PyInt 1) (PyInt 3) (PyInt 0) (PyInt 0) (PyInt 2)
  = Ok empty_frame.
Proof.
  apply (proj1 get_grid_df_no_room);
    [vm_compute; reflexivity | vm_compute; reflexivity
     | left; vm_compute; reflexivity].
Defined.

(** C3 (as stated, refuted): with step = 0 <= 0 the call raises
    ZeroDivisionError; with step = -1 <= 0 over the reversed box 3..0
    by 2..0 it returns two cells; and with step = 1.0, xMin = 3.0 >=
    xMax = 0.0 and a y-range of 1e30 steps it raises ValueError, the
    y sequence being too long to build. *)
Lemma get_grid_df_nonpositive_step_counterexample :
  get_grid_df (PyInt 0) (PyInt 0) (PyInt 3) (PyInt 0) (PyInt 2)
  = Raise ZeroDivisionError
  /\ option_map (fun df => List.map cell_id (rows df))
       (match get_grid_df (PyInt (-1)) (PyInt 3) (PyInt 0) (PyInt 2)
                (PyInt 0) with
        | Ok df => Some df
        | Raise _ => None
        end)
     = Some [1; 2]
  /\ get_grid_df (PyFloat (S754_finite false 4503599627370496 (-52)))
       (PyFloat (S754_finite false 6755399441055744 (-51)))
       (PyFloat F64.pzero) (PyFloat F64.pzero)
       (PyFloat (S754_finite false 7105427357601002 47))
     = Raise ValueError.
Proof.
  repeat split; vm_compute; reflexivity.
Qed.

(** ** The cells of the grid *)

Lemma zip_rows_app (ids : list Z) (codes : list string)
  (xmin xmax ymin ymax : list pynum) (wkt : list string)
  (i : Z) (c : string) (a b u v : pynum) (g : string) :
  List.length codes = List.length ids ->
  List.length xmin = List.length ids ->
  List.length xmax = List.length ids ->
  List.length ymin = List.length ids ->
  List.length ymax = List.length ids ->
  List.length wkt = List.length ids ->
  zip_rows (ids ++ [i]) (codes ++ [c]) (xmin ++ [a]) (xmax ++ [b])
           (ymin ++ [u]) (ymax ++ [v]) (wkt ++ [g])
  = (zip_rows ids codes xmin xmax ymin ymax wkt
     ++ [{| cell_id := i; cell_code := c; cell_x_min := a; cell_x_max := b;
            cell_y_min := u; cell_y_max := v; cell_geometry := g |}])%list.
Proof.
  revert codes xmin xmax ymin ymax wkt.
  induction ids as [| i0 ids IH]; intros codes xmin xmax ymin ymax wkt
    H1 H2 H3 H4 H5 H6;
    destruct codes, xmin, xmax, ymin, ymax, wkt; try discriminate.
  - reflexivity.
  - cbn [List.app zip_rows]. f_equal.
    apply IH; cbn in *; congruence.
Qed.

Lemma get_code_value (xMin xMax yMin yMax : pynum) :
  get_code xMin xMax yMin yMax
  = Ok (PyStr.join "-" [encodeCoordinate xMin AxisX;
                        encodeCoordinate xMax AxisX;
                        encodeCoordinate yMin AxisY;
                        encodeCoordinate yMax AxisY]).
Proof.
  unfold get_code.
  pose proof (format_number_axis xMin AxisX) as Ha.
  pose proof (format_number_axis xMax AxisX) as Hb.
  pose proof (format_number_axis yMin AxisY) as Hc.
  pose proof (format_number_axis yMax AxisY) as Hd.
  cbn [axis_name] in Ha, Hb, Hc, Hd.
  rewrite Ha, Hb, Hc, Hd. reflexivity.
Qed.

(** One pass of the inner loop body appends one cell. *)
Lemma cell_body_appends (xs ys : list pynum) (i j : Z) (st : lists)
  (a b u v : pynum) :
  Numpy.getitem xs i = Ok a ->
  Numpy.getitem xs (i + 1) = Ok b ->
  Numpy.getitem ys j = Ok u ->
  Numpy.getitem ys (j + 1) = Ok v ->
  aligned st ->
  exists st',
    cell_body xs ys i j st = Ok st'
    /\ aligned st'
    /\ state_rows st'
       = (state_rows st ++ [make_cell (c_id st) (a, b) (u, v)])%list
    /\ c_id st' = c_id st + 1.
Proof.
  intros Ha Hb Hu Hv [H1 [H2 [H3 [H4 [H5 H6]]]]].
  unfold cell_body. rewrite Ha, Hb, Hu, Hv. cbn [bind].
  rewrite get_code_value. cbn [bind].
  eexists. split; [reflexivity |]. split; [| split; [| reflexivity]].
  - unfold aligned. cbn. rewrite !List.length_app. cbn. lia.
  - unfold state_rows. cbn [lst_ids lst_codes lst_xmin lst_xmax lst_ymin
                              lst_ymax lst_wkt].
    rewrite zip_rows_app by assumption. reflexivity.
Qed.

Lemma getitem_nth (A : Type) (l : list A) (k : nat) (x : A) :
  List.nth_error l k = Some x -> Numpy.getitem l (Z.of_nat k) = Ok x.
Proof.
  intros H. unfold Numpy.getitem.
  destruct (Z.ltb_spec (Z.of_nat k) 0) as [Hk | Hk]; [lia |].
  destruct (Z.ltb_spec (Z.of_nat k) 0) as [Hk' | Hk']; [lia |].
  rewrite Nat2Z.id, H. reflexivity.
Qed.

Lemma bands_nth (l : list pynum) (k : nat) (a b : pynum) :
  List.nth_error (bands l) k = Some (a, b) ->
  List.nth_error l k = Some a /\ List.nth_error l (S k) = Some b.
Proof.
  revert k. induction l as [| x l IH]; intros k; [destruct k; discriminate |].
  destruct l as [| y l]; [destruct k; discriminate |].
  destruct k as [| k].
  - cbn. intros H; injection H as <- <-. split; reflexivity.
  - intros H. change (List.nth_error (bands (y :: l)) k = Some (a, b)) in H.
    destruct (IH k H) as [H1 H2]. split; assumption.
Qed.

Lemma bands_length (l : list pynum) :
  List.length (bands l) = (List.length l - 1)%nat.
Proof.
  induction l as [| x l IH]; [reflexivity |].
  destruct l as [| y l]; [reflexivity |].
  change (S (List.length (bands (y :: l))) = (S (S (List.length l)) - 1)%nat).
  rewrite IH. cbn. lia.
Qed.

Lemma range_bands (l : list pynum) :
  Numpy.range (Numpy.len l - 1)
  = List.map Z.of_nat (List.seq 0 (List.length (bands l))).
Proof.
  unfold Numpy.range, Numpy.len. rewrite bands_length. do 2 f_equal. lia.
Qed.

(** A loop over consecutive indices keeps an invariant that each pass
    of its body keeps. *)
Lemma for_each_invariant (S : Type) (body : Z -> S -> result S)
  (Inv : nat -> S -> Prop) (len : nat) :
  forall (start : nat) (st : S),
    Inv start st ->
    (forall (k : nat) (st0 : S),
        (start <= k < start + len)%nat -> Inv k st0 ->
        exists st1, body (Z.of_nat k) st0 = Ok st1 /\ Inv (Datatypes.S k) st1) ->
    exists st',
      for_each (List.map Z.of_nat (List.seq start len)) body st = Ok st'
      /\ Inv (start + len)%nat st'.
Proof.
  induction len as [| len IH]; intros start st H0 Hstep.
  - exists st. split; [reflexivity |]. now rewrite Nat.add_0_r.
  - cbn [List.seq List.map for_each].
    destruct (Hstep start st) as [st1 [Hb H1]]; [lia | exact H0 |].
    rewrite Hb. cbn [bind].
    destruct (IH (Datatypes.S start) st1 H1) as [st' [Hf H']].
    + intros k st0 Hk. apply Hstep. lia.
    + exists st'. split; [exact Hf |].
      replace (start + Datatypes.S len)%nat with (Datatypes.S start + len)%nat
        by lia. exact H'.
Qed.

Lemma number_cells_app (id : Z)
  (l1 l2 : list ((pynum * pynum) * (pynum * pynum))) :
  number_cells id (l1 ++ l2)
  = (number_cells id l1
     ++ number_cells (id + Z.of_nat (List.length l1)) l2)%list.
Proof.
  revert id. induction l1 as [| [bx ys] l1 IH]; intros id.
  - cbn [List.app number_cells List.length]. f_equal. cbn. lia.
  - cbn [List.app number_cells List.length]. f_equal. rewrite IH.
    do 2 f_equal. lia.
Qed.

Lemma firstn_succ (A : Type) (l : list A) (k : nat) (x : A) :
  List.nth_error l k = Some x ->
  List.firstn (Datatypes.S k) l = (List.firstn k l ++ [x])%list.
Proof.
  revert k. induction l as [| y l IH]; intros k H; [destruct k; discriminate |].
  destruct k as [| k].
  - cbn in H. injection H as <-. reflexivity.
  - cbn [List.firstn List.app]. f_equal. apply IH. exact H.
Qed.

Lemma nth_error_in_range (A : Type) (l : list A) (k : nat) :
  (k < List.length l)%nat -> exists x, List.nth_error l k = Some x.
Proof.
  intros H. destruct (List.nth_error l k) as [x |] eqn:E; [now exists x |].
  apply List.nth_error_None in E. lia.
Qed.

(** The inner loop appends the cells of one x-band, in the order of the
    y-bands. *)
Lemma inner_loop_appends (xs ys : list pynum) (i : Z) (a b : pynum)
  (st : lists) :
  Numpy.getitem xs i = Ok a ->
  Numpy.getitem xs (i + 1) = Ok b ->
  aligned st ->
  exists st',
    for_each (Numpy.range (Numpy.len ys - 1)) (cell_body xs ys i) st = Ok st'
    /\ aligned st'
    /\ state_rows st'
       = (state_rows st
          ++ number_cells (c_id st)
               (List.map (fun by_ => ((a, b), by_)) (bands ys)))%list
    /\ c_id st' = c_id st + Z.of_nat (List.length (bands ys)).
Proof.
  intros Ha Hb Hal. rewrite range_bands.
  set (Inv := fun (k : nat) (s : lists) =>
                aligned s
                /\ state_rows s
                   = (state_rows st
                      ++ number_cells (c_id st)
                           (List.map (fun by_ => ((a, b), by_))
                              (List.firstn k (bands ys))))%list
                /\ c_id s = c_id st + Z.of_nat k).
  destruct (for_each_invariant lists (cell_body xs ys i) Inv
              (List.length (bands ys)) 0%nat st) as [st' [Hrun Hinv]].
  - unfold Inv. split; [exact Hal |]. split; [| lia].
    cbn [List.firstn List.map number_cells]. now rewrite List.app_nil_r.
  - intros k s Hk [Hs1 [Hs2 Hs3]].
    destruct (nth_error_in_range _ (bands ys) k) as [[u v] Hnth]; [lia |].
    destruct (bands_nth ys k u v Hnth) as [Hu Hv].
    destruct (cell_body_appends xs ys i (Z.of_nat k) s a b u v Ha Hb
                (getitem_nth _ ys k u Hu)) as [s1 [Hb1 [Hal1 [Hrows Hid]]]].
    + replace (Z.of_nat k + 1) with (Z.of_nat (S k)) by lia.
      exact (getitem_nth _ ys (S k) v Hv).
    + exact Hs1.
    + exists s1. split; [exact Hb1 |]. unfold Inv.
      split; [exact Hal1 |]. split; [| lia].
      rewrite Hrows, Hs2, (firstn_succ _ _ k (u, v) Hnth), List.map_app,
        number_cells_app, <- List.app_assoc.
      rewrite List.length_map, List.length_firstn, Nat.min_l by lia.
      rewrite Hs3. reflexivity.
  - exists st'. destruct Hinv as [H1 [H2 H3]].
    rewrite Nat.add_0_l in *. rewrite List.firstn_all in H2.
    split; [exact Hrun |]. split; [exact H1 |]. split; [exact H2 | exact H3].
Qed.

Lemma x_major_length (bxs bys : list (pynum * pynum)) :
  List.length (x_major bxs bys)
  = (List.length bxs * List.length bys)%nat.
Proof.
  unfold x_major. induction bxs as [| bx bxs IH]; [reflexivity |].
  cbn [List.flat_map List.length].
  rewrite List.length_app, List.length_map, IH. lia.
Qed.

(** The two loops append the cells of the grid, x-major, numbered from
    the counter on. *)
Lemma loops_append_grid (xs ys : list pynum) :
  exists st',
    for_each (Numpy.range (Numpy.len xs - 1))
      (fun i => for_each (Numpy.range (Numpy.len ys - 1)) (cell_body xs ys i))
      lists_init = Ok st'
    /\ state_rows st' = grid_cells xs ys.
Proof.
  rewrite (range_bands xs).
  set (Inv := fun (k : nat) (s : lists) =>
                aligned s
                /\ state_rows s
                   = number_cells 1
                       (x_major (List.firstn k (bands xs)) (bands ys))
                /\ c_id s
                   = 1 + Z.of_nat
                           (List.length
                              (x_major (List.firstn k (bands xs)) (bands ys)))).
  destruct (for_each_invariant lists
              (fun i => for_each (Numpy.range (Numpy.len ys - 1))
                          (cell_body xs ys i))
              Inv (List.length (bands xs)) 0%nat lists_init)
    as [st' [Hrun Hinv]].
  - unfold Inv. repeat split.
  - intros k s Hk [Hs1 [Hs2 Hs3]].
    destruct (nth_error_in_range _ (bands xs) k) as [[a b] Hnth]; [lia |].
    destruct (bands_nth xs k a b Hnth) as [Ha Hb].
    destruct (inner_loop_appends xs ys (Z.of_nat k) a b s
                (getitem_nth _ xs k a Ha)) as [s1 [Hb1 [Hal1 [Hrows Hid]]]].
    + replace (Z.of_nat k + 1) with (Z.of_nat (S k)) by lia.
      exact (getitem_nth _ xs (S k) b Hb).
    + exact Hs1.
    + exists s1. split; [exact Hb1 |]. unfold Inv.
      split; [exact Hal1 |].
      assert (Hx : x_major (List.firstn (S k) (bands xs)) (bands ys)
                   = (x_major (List.firstn k (bands xs)) (bands ys)
                      ++ List.map (fun by_ => ((a, b), by_)) (bands ys))%list).
      { unfold x_major. rewrite (firstn_succ _ _ k (a, b) Hnth).
        rewrite List.flat_map_app. cbn [List.flat_map].
        now rewrite List.app_nil_r. }
      split.
      * rewrite Hrows, Hs2, Hx, number_cells_app, Hs3. reflexivity.
      * rewrite Hid, Hs3, Hx, List.length_app, List.length_map. lia.
  - exists st'. destruct Hinv as [_ [H2 _]].
    rewrite Nat.add_0_l, List.firstn_all in H2.
    split; [exact Hrun | exact H2].
Qed.

(** Whenever numpy.arange builds the two coordinate sequences,
    get_grid_df returns the table of the cells spanned by their bands:
    cell bounds (xs[i], xs[i+1], ys[j], ys[j+1]), x-major, with ids 1,
    2, 3, ... in that order, each with its tile code and its WKT
    rectangle. *)
Lemma get_grid_df_cells (step xs_min xs_max ys_min ys_max : pynum)
  (xs ys : list pynum) :
  Numpy.arange xs_min xs_max step = Ok xs ->
  Numpy.arange ys_min ys_max step = Ok ys ->
  exists df,
    get_grid_df step xs_min xs_max ys_min ys_max = Ok df
    /\ rows df = grid_cells xs ys.
Proof.
  intros Hx Hy. unfold get_grid_df. rewrite Hx, Hy. cbn [bind].
  destruct (loops_append_grid xs ys) as [st [Hrun Hrows]].
  rewrite Hrun. cbn [bind]. eexists. split; [reflexivity |]. exact Hrows.
Qed.

(** ** The table of [get_grid_df], column by column *)

(** The two loops leave seven lists of one length, holding the cells of
    the grid. *)
Lemma loops_append_grid_aligned (xs ys : list pynum) :
  exists st',
    for_each (Numpy.range (Numpy.len xs - 1))
      (fun i => for_each (Numpy.range (Numpy.len ys - 1)) (cell_body xs ys i))
      lists_init = Ok st'
    /\ aligned st'
    /\ state_rows st' = grid_cells xs ys.
Proof.
  rewrite (range_bands xs).
  set (Inv := fun (k : nat) (s : lists) =>
                aligned s
                /\ state_rows s
                   = number_cells 1
                       (x_major (List.firstn k (bands xs)) (bands ys))
                /\ c_id s
                   = 1 + Z.of_nat
                           (List.length
                              (x_major (List.firstn k (bands xs)) (bands ys)))).
  destruct (for_each_invariant lists
              (fun i => for_each (Numpy.range (Numpy.len ys - 1))
                          (cell_body xs ys i))
              Inv (List.length (bands xs)) 0%nat lists_init)
    as [st' [Hrun Hinv]].
  - unfold Inv. repeat split.
  - intros k s Hk [Hs1 [Hs2 Hs3]].
    destruct (nth_error_in_range _ (bands xs) k) as [[a b] Hnth]; [lia |].
    destruct (bands_nth xs k a b Hnth) as [Ha Hb].
    destruct (inner_loop_appends xs ys (Z.of_nat k) a b s
                (getitem_nth _ xs k a Ha)) as [s1 [Hb1 [Hal1 [Hrows Hid]]]].
    + replace (Z.of_nat k + 1) with (Z.of_nat (S k)) by lia.
      exact (getitem_nth _ xs (S k) b Hb).
    + exact Hs1.
    + exists s1. split; [exact Hb1 |]. unfold Inv.
      split; [exact Hal1 |].
      assert (Hx : x_major (List.firstn (S k) (bands xs)) (bands ys)
                   = (x_major (List.firstn k (bands xs)) (bands ys)
                      ++ List.map (fun by_ => ((a, b), by_)) (bands ys))%list).
      { unfold x_major. rewrite (firstn_succ _ _ k (a, b) Hnth).
        rewrite List.flat_map_app. cbn [List.flat_map].
        now rewrite List.app_nil_r. }
      split.
      * rewrite Hrows, Hs2, Hx, number_cells_app, Hs3. reflexivity.
      * rewrite Hid, Hs3, Hx, List.length_app, List.length_map. lia.
  - exists st'. destruct Hinv as [H1 [H2 _]].
    rewrite Nat.add_0_l, List.firstn_all in H2.
    split; [exact Hrun |]. split; [exact H1 | exact H2].
Qed.

(** What a returned table tells: both coordinate sequences were built,
    the columns have one length, and the rows are the cells of the
    grid. *)
Lemma get_grid_df_returns (step xs_min xs_max ys_min ys_max : pynum)
  (df : DataFrame) :
  get_grid_df step xs_min xs_max ys_min ys_max = Ok df ->
  exists xs ys,
    Numpy.arange xs_min xs_max step = Ok xs
    /\ Numpy.arange ys_min ys_max step = Ok ys
    /\ columns_aligned df
    /\ rows df = grid_cells xs ys.
Proof.
  unfold get_grid_df.
  destruct (Numpy.arange xs_min xs_max step) as [xs | e]; [| discriminate].
  destruct (Numpy.arange ys_min ys_max step) as [ys | e]; [| discriminate].
  cbn [bind].
  destruct (loops_append_grid_aligned xs ys) as [st [Hrun [Hal Hrows]]].
  rewrite Hrun. cbn [bind]. intros H. injection H as <-.
  exists xs, ys. repeat split; try exact Hrows; apply Hal.
Qed.

(** The columns of a table of aligned columns are the fields of its
    rows. *)
Lemma zip_rows_columns (ids : list Z) (codes : list string)
  (xmin xmax ymin ymax : list pynum) (wkt : list string) :
  List.length codes = List.length ids ->
  List.length xmin = List.length ids ->
  List.length xmax = List.length ids ->
  List.length ymin = List.length ids ->
  List.length ymax = List.length ids ->
  List.length wkt = List.length ids ->
  let r := zip_rows ids codes xmin xmax ymin ymax wkt in
  List.map cell_id r = ids /\ List.map cell_code r = codes
  /\ List.map cell_x_min r = xmin /\ List.map cell_x_max r = xmax
  /\ List.map cell_y_min r = ymin /\ List.map cell_y_max r = ymax
  /\ List.map cell_geometry r = wkt.
Proof.
  revert codes xmin xmax ymin ymax wkt.
  induction ids as [| i0 ids IH]; intros codes xmin xmax ymin ymax wkt
    H1 H2 H3 H4 H5 H6;
    destruct codes, xmin, xmax, ymin, ymax, wkt; try discriminate.
  - cbn. repeat split.
  - cbn in H1, H2, H3, H4, H5, H6.
    destruct (IH codes xmin xmax ymin ymax wkt) as [A [B [C [D [E [F G]]]]]];
      try congruence.
    cbn [zip_rows List.map cell_id cell_code cell_x_min cell_x_max
           cell_y_min cell_y_max cell_geometry].
    cbv zeta in A, B, C, D, E, F, G.
    rewrite A, B, C, D, E, F, G. repeat split.
Qed.

Lemma number_cells_ids (l : list ((pynum * pynum) * (pynum * pynum)))
  (id : Z) :
  List.map cell_id (number_cells id l)
  = List.map (fun k => id + Z.of_nat k) (List.seq 0 (List.length l)).
Proof.
  revert id. induction l as [| [bx by_] l IH]; intros id; [reflexivity |].
  cbn [number_cells List.map List.length List.seq make_cell cell_id].
  f_equal; [cbn; lia |].
  rewrite IH, <- List.seq_shift, List.map_map.
  apply List.map_ext. intros k. lia.
Qed.

Lemma number_cells_nth (l : list ((pynum * pynum) * (pynum * pynum)))
  (id : Z) (k : nat) (bx by_ : pynum * pynum) :
  List.nth_error l k = Some (bx, by_) ->
  List.nth_error (number_cells id l) k
  = Some (make_cell (id + Z.of_nat k) bx by_).
Proof.
  revert id k. induction l as [| [bx' by'] l IH]; intros id k H;
    [destruct k; discriminate |].
  destruct k as [| k].
  - cbn in H. injection H as -> ->. cbn [number_cells List.nth_error].
    do 2 f_equal. cbn. lia.
  - cbn [number_cells List.nth_error]. cbn [List.nth_error] in H.
    rewrite (IH (id + 1) k H). do 2 f_equal. lia.
Qed.

Lemma number_cells_in (l : list ((pynum * pynum) * (pynum * pynum)))
  (id : Z) (c : GridCell) :
  List.In c (number_cells id l) ->
  exists id' bx by_, List.In (bx, by_) l /\ c = make_cell id' bx by_.
Proof.
  revert id. induction l as [| [bx by_] l IH]; intros id H; [destruct H |].
  cbn [number_cells] in H. destruct H as [H | H].
  - exists id, bx, by_. split; [now left | now symmetry].
  - destruct (IH _ H) as [id' [bx' [by' [Hin Hc]]]].
    exists id', bx', by'. split; [now right | exact Hc].
Qed.

Lemma number_cells_length (l : list ((pynum * pynum) * (pynum * pynum)))
  (id : Z) :
  List.length (number_cells id l) = List.length l.
Proof.
  revert id. induction l as [| [bx by_] l IH]; intros id; [reflexivity |].
  cbn [number_cells List.length]. now rewrite IH.
Qed.

Lemma x_major_nth (bxs bys : list (pynum * pynum)) (i j : nat)
  (bx by_ : pynum * pynum) :
  List.nth_error bxs i = Some bx ->
  List.nth_error bys j = Some by_ ->
  List.nth_error (x_major bxs bys) (i * List.length bys + j)
  = Some (bx, by_).
Proof.
  revert i. unfold x_major.
  induction bxs as [| b0 bxs IH]; intros i Hi Hj; [destruct i; discriminate |].
  cbn [List.flat_map].
  assert (Hlt : (j < List.length bys)%nat).
  { apply List.nth_error_Some. rewrite Hj. discriminate. }
  destruct i as [| i].
  - cbn in Hi. injection Hi as ->. cbn [Nat.mul Nat.add].
    rewrite List.nth_error_app1 by (rewrite List.length_map; lia).
    rewrite List.nth_error_map, Hj. reflexivity.
  - cbn [List.nth_error] in Hi.
    rewrite List.nth_error_app2 by (rewrite List.length_map; lia).
    rewrite List.length_map.
    replace (S i * List.length bys + j - List.length bys)%nat
      with (i * List.length bys + j)%nat by lia.
    apply IH; assumption.
Qed.

Lemma x_major_in (bxs bys : list (pynum * pynum)) (bx by_ : pynum * pynum) :
  List.In (bx, by_) (x_major bxs bys) -> List.In bx bxs /\ List.In by_ bys.
Proof.
  unfold x_major. intros H. apply List.in_flat_map in H.
  destruct H as [b [Hb H]]. apply List.in_map_iff in H.
  destruct H as [y [Hy Hin]]. injection Hy as -> ->. split; assumption.
Qed.

Lemma bands_nth_pair (l : list pynum) (k : nat) (a b : pynum) :
  List.nth_error l k = Some a -> List.nth_error l (S k) = Some b ->
  List.nth_error (bands l) k = Some (a, b).
Proof.
  revert k. induction l as [| x l IH]; intros k Ha Hb;
    [destruct k; discriminate |].
  destruct l as [| y l]; [destruct k; discriminate |].
  destruct k as [| k].
  - cbn in Ha, Hb. injection Ha as ->. injection Hb as ->. reflexivity.
  - change (List.nth_error (bands (y :: l)) k = Some (a, b)).
    apply IH; assumption.
Qed.

Lemma bands_in (l : list pynum) (a b : pynum) :
  List.In (a, b) (bands l) ->
  exists k, List.nth_error l k = Some a /\ List.nth_error l (S k) = Some b.
Proof.
  intros H. apply List.In_nth_error in H. destruct H as [k Hk].
  exists k. apply bands_nth. exact Hk.
Qed.

(** X1: whenever get_grid_df returns a table, its seven columns (Id,
    tile_code, x_min, x_max, y_min, y_max, geometry) have one and the
    same length, so the data-frame constructor never meets columns of
    different lengths. *)
Theorem get_grid_df_columns_aligned
  (step xs_min xs_max ys_min ys_max : pynum) (df : DataFrame) :
  get_grid_df step xs_min xs_max ys_min ys_max = Ok df ->
  List.length (tile_code df) = List.length (Id df)
  /\ List.length (x_min df) = List.length (Id df)
  /\ List.length (x_max df) = List.length (Id df)
  /\ List.length (y_min df) = List.length (Id df)
  /\ List.length (y_max df) = List.length (Id df)
  /\ List.length (geometry df) = List.length (Id df).
Proof.
  intros H. destruct (get_grid_df_returns _ _ _ _ _ _ H)
    as [xs [ys [_ [_ [Hal _]]]]].
  exact Hal.
Qed.

Lemma get_grid_df_columns_aligned_witness :
  exists df,
    get_grid_df (PyFloat (S754_finite false 4503599627370496 (-53)))
      (PyInt 0) (PyInt 2) (PyInt 0) (PyInt 1) = Ok df
    /\ List.length (Id df) = 3%nat
    /\ List.length (tile_code df) = List.length (Id df)
    /\ List.length (x_min df) = List.length (Id df)
    /\ List.length (x_max df) = List.length (Id df)
    /\ List.length (y_min df) = List.length (Id df)
    /\ List.length (y_max df) = List.length (Id df)
    /\ List.length (geometry df) = List.length (Id df).
Proof.
  eexists. split; [vm_compute; reflexivity |].
  split; [reflexivity |].
  apply (get_grid_df_columns_aligned
           (PyFloat (S754_finite false 4503599627370496 (-53)))
           (PyInt 0) (PyInt 2) (PyInt 0) (PyInt 1)).
  vm_compute. reflexivity.
Defined.

(** X2: in a table returned by get_grid_df the Id column counts the rows
    from 1: it is 1, 2, ..., N with N = (len(xs) - 1) * (len(ys) - 1)
    (no row when a sequence has fewer than two values), xs and ys being
    the two sequences numpy.arange built. *)
Theorem get_grid_df_ids (step xs_min xs_max ys_min ys_max : pynum)
  (xs ys : list pynum) (df : DataFrame) :
  Numpy.arange xs_min xs_max step = Ok xs ->
  Numpy.arange ys_min ys_max step = Ok ys ->
  get_grid_df step xs_min xs_max ys_min ys_max = Ok df ->
  Id df
  = List.map Z.of_nat
      (List.seq 1 ((List.length xs - 1) * (List.length ys - 1))).
Proof.
  intros Hx Hy H.
  destruct (get_grid_df_returns _ _ _ _ _ _ H)
    as [xs' [ys' [Hx' [Hy' [[H1 [H2 [H3 [H4 [H5 H6]]]]] Hrows]]]]].
  rewrite Hx in Hx'. injection Hx' as <-.
  rewrite Hy in Hy'. injection Hy' as <-.
  destruct (zip_rows_columns (Id df) (tile_code df) (x_min df) (x_max df)
              (y_min df) (y_max df) (geometry df) H1 H2 H3 H4 H5 H6)
    as [Hid _].
  fold (rows df) in Hid. rewrite <- Hid, Hrows. unfold grid_cells.
  rewrite number_cells_ids, x_major_length, !bands_length.
  rewrite <- List.seq_shift, List.map_map.
  apply List.map_ext. intros k. lia.
Qed.

Lemma get_grid_df_ids_witness :
  exists xs ys df,
    Numpy.arange (PyInt 0) (PyInt 4) (PyInt 1) = Ok xs
    /\ Numpy.arange (PyInt 0) (PyInt 3) (PyInt 1) = Ok ys
    /\ get_grid_df (PyInt 1) (PyInt 0) (PyInt 4) (PyInt 0) (PyInt 3) = Ok df
    /\ Id df = [1; 2; 3; 4; 5; 6].
Proof.
  eexists. eexists. eexists.
  split; [vm_compute; reflexivity |].
  split; [vm_compute; reflexivity |].
  split; [vm_compute; reflexivity |].
  apply (get_grid_df_ids (PyInt 1) (PyInt 0) (PyInt 4) (PyInt 0) (PyInt 3)
           [PyInt 0; PyInt 1; PyInt 2; PyInt 3] [PyInt 0; PyInt 1; PyInt 2]);
    vm_compute; reflexivity.
Defined.

(** X3: the row of the cell in x-band i and y-band j.  In a table
    returned by get_grid_df, whenever xs[i], xs[i+1], ys[j] and ys[j+1]
    exist, row number i * (len(ys) - 1) + j (counting from 0) has Id
    i * (len(ys) - 1) + j + 1, the bounds xs[i], xs[i+1], ys[j],
    ys[j+1], the tile code get_code gives for these bounds and the
    polygon create_rectangle_wkt gives for them: the table is x-major
    and neighbouring cells share their common bound. *)
Theorem get_grid_df_row (step xs_min xs_max ys_min ys_max : pynum)
  (xs ys : list pynum) (df : DataFrame) (i j : nat) (a b u v : pynum) :
  Numpy.arange xs_min xs_max step = Ok xs ->
  Numpy.arange ys_min ys_max step = Ok ys ->
  get_grid_df step xs_min xs_max ys_min ys_max = Ok df ->
  List.nth_error xs i = Some a -> List.nth_error xs (S i) = Some b ->
  List.nth_error ys j = Some u -> List.nth_error ys (S j) = Some v ->
  let k := (i * (List.length ys - 1) + j)%nat in
  exists code,
    get_code a b u v = Ok code
    /\ List.nth_error (rows df) k
       = Some {| cell_id := Z.of_nat k + 1; cell_code := code;
                 cell_x_min := a; cell_x_max := b;
                 cell_y_min := u; cell_y_max := v;
                 cell_geometry := create_rectangle_wkt a b u v |}.
Proof.
  intros Hx Hy H Ha Hb Hu Hv k.
  destruct (get_grid_df_returns _ _ _ _ _ _ H)
    as [xs' [ys' [Hx' [Hy' [_ Hrows]]]]].
  rewrite Hx in Hx'. injection Hx' as <-.
  rewrite Hy in Hy'. injection Hy' as <-.
  eexists. split; [apply get_code_value |].
  rewrite Hrows. unfold grid_cells.
  rewrite (number_cells_nth _ 1 k (a, b) (u, v)).
  - unfold make_cell. cbn [fst snd]. do 2 f_equal. lia.
  - unfold k. rewrite <- bands_length.
    apply x_major_nth; apply bands_nth_pair; assumption.
Qed.

Lemma get_grid_df_row_witness :
  exists df code,
    get_grid_df (PyInt 1) (PyInt 0) (PyInt 4) (PyInt 0) (PyInt 3) = Ok df
    /\ get_code (PyInt 2) (PyInt 3) (PyInt 1) (PyInt 2) = Ok code
    /\ List.nth_error (rows df) 5
       = Some {| cell_id := 6; cell_code := code;
                 cell_x_min := PyInt 2; cell_x_max := PyInt 3;
                 cell_y_min := PyInt 1; cell_y_max := PyInt 2;
                 cell_geometry :=
                   create_rectangle_wkt (PyInt 2) (PyInt 3) (PyInt 1)
                     (PyInt 2) |}.
Proof.
  destruct (get_grid_df (PyInt 1) (PyInt 0) (PyInt 4) (PyInt 0) (PyInt 3))
    as [df | e] eqn:E; [| vm_compute in E; discriminate].
  assert (Hx : Numpy.arange (PyInt 0) (PyInt 4) (PyInt 1)
               = Ok [PyInt 0; PyInt 1; PyInt 2; PyInt 3])
    by (vm_compute; reflexivity).
  assert (Hy : Numpy.arange (PyInt 0) (PyInt 3) (PyInt 1)
               = Ok [PyInt 0; PyInt 1; PyInt 2])
    by (vm_compute; reflexivity).
  destruct (get_grid_df_row (PyInt 1) (PyInt 0) (PyInt 4) (PyInt 0) (PyInt 3)
              [PyInt 0; PyInt 1; PyInt 2; PyInt 3]
              [PyInt 0; PyInt 1; PyInt 2] df
              2%nat 1%nat (PyInt 2) (PyInt 3) (PyInt 1) (PyInt 2)
              Hx Hy E eq_refl eq_refl eq_refl eq_refl) as [code [Hc Hr]].
  exists df, code. split; [reflexivity |]. split; [exact Hc | exact Hr].
Defined.

(** X4: every row of a table returned by get_grid_df is a cell between
    neighbouring values of the two sequences: its bounds are xs[i],
    xs[i+1], ys[j], ys[j+1] for some i and j, its tile code is what
    get_code gives for its own bounds and its geometry what
    create_rectangle_wkt gives for them. *)
Theorem get_grid_df_rows_consistent
  (step xs_min xs_max ys_min ys_max : pynum)
  (xs ys : list pynum) (df : DataFrame) (c : GridCell) :
  Numpy.arange xs_min xs_max step = Ok xs ->
  Numpy.arange ys_min ys_max step = Ok ys ->
  get_grid_df step xs_min xs_max ys_min ys_max = Ok df ->
  List.In c (rows df) ->
  (exists i j,
      List.nth_error xs i = Some (cell_x_min c)
      /\ List.nth_error xs (S i) = Some (cell_x_max c)
      /\ List.nth_error ys j = Some (cell_y_min c)
      /\ List.nth_error ys (S j) = Some (cell_y_max c))
  /\ get_code (cell_x_min c) (cell_x_max c) (cell_y_min c) (cell_y_max c)
     = Ok (cell_code c)
  /\ create_rectangle_wkt (cell_x_min c) (cell_x_max c) (cell_y_min c)
       (cell_y_max c)
     = cell_geometry c.
Proof.
  intros Hx Hy H Hin.
  destruct (get_grid_df_returns _ _ _ _ _ _ H)
    as [xs' [ys' [Hx' [Hy' [_ Hrows]]]]].
  rewrite Hx in Hx'. injection Hx' as <-.
  rewrite Hy in Hy'. injection Hy' as <-.
  rewrite Hrows in Hin. unfold grid_cells in Hin.
  destruct (number_cells_in _ _ _ Hin) as [id [[a b] [[u v] [Hp ->]]]].
  destruct (x_major_in _ _ _ _ Hp) as [Hbx Hby].
  destruct (bands_in _ _ _ Hbx) as [i [Hi1 Hi2]].
  destruct (bands_in _ _ _ Hby) as [j [Hj1 Hj2]].
  cbn [make_cell cell_x_min cell_x_max cell_y_min cell_y_max cell_code
         cell_geometry fst snd].
  split; [exists i, j; repeat split; assumption |].
  split; [apply get_code_value | reflexivity].
Qed.

Lemma get_grid_df_rows_consistent_witness :
  exists df c,
    get_grid_df (PyInt 1) (PyInt 0) (PyInt 4) (PyInt 0) (PyInt 3) = Ok df
    /\ List.nth_error (rows df) 5 = Some c
    /\ (exists i j,
          List.nth_error [PyInt 0; PyInt 1; PyInt 2; PyInt 3] i
          = Some (cell_x_min c)
          /\ List.nth_error [PyInt 0; PyInt 1; PyInt 2; PyInt 3] (S i)
             = Some (cell_x_max c)
          /\ List.nth_error [PyInt 0; PyInt 1; PyInt 2] j
             = Some (cell_y_min c)
          /\ List.nth_error [PyInt 0; PyInt 1; PyInt 2] (S j)
             = Some (cell_y_max c))
    /\ get_code (cell_x_min c) (cell_x_max c) (cell_y_min c) (cell_y_max c)
       = Ok (cell_code c)
    /\ create_rectangle_wkt (cell_x_min c) (cell_x_max c) (cell_y_min c)
         (cell_y_max c)
       = cell_geometry c.
Proof.
  eexists. eexists.
  split; [vm_compute; reflexivity |].
  split; [vm_compute; reflexivity |].
  eapply (get_grid_df_rows_consistent (PyInt 1) (PyInt 0) (PyInt 4) (PyInt 0)
            (PyInt 3)).
  - vm_compute; reflexivity.
  - vm_compute; reflexivity.
  - vm_compute; reflexivity.
  - vm_compute. do 5 right. left. reflexivity.
Defined.
(** ** Failures and integer grids of [get_grid_df] *)

(** X5: get_grid_df fails only where numpy.arange fails.  When both
    calls build their sequence a table is returned: the loops never
    index past the end of a sequence and the axis names they pass to
    the encoder are always known, so neither an IndexError nor a
    KeyError arises; when the first call raises, or else the second,
    get_grid_df raises that same exception. *)
Theorem get_grid_df_fails_only_in_arange
  (step xs_min xs_max ys_min ys_max : pynum) :
  match Numpy.arange xs_min xs_max step, Numpy.arange ys_min ys_max step with
  | Ok xs, Ok ys =>
      exists df, get_grid_df step xs_min xs_max ys_min ys_max = Ok df
  | Raise e, _ => get_grid_df step xs_min xs_max ys_min ys_max = Raise e
  | Ok _, Raise e => get_grid_df step xs_min xs_max ys_min ys_max = Raise e
  end.
Proof.
  unfold get_grid_df.
  destruct (Numpy.arange xs_min xs_max step) as [xs | e]; [| reflexivity].
  destruct (Numpy.arange ys_min ys_max step) as [ys | e]; [| reflexivity].
  cbn [bind].
  destruct (loops_append_grid_aligned xs ys) as [st [Hrun _]].
  rewrite Hrun. cbn [bind]. eexists. reflexivity.
Qed.

Lemma arange_int_elements (a b s : Z) (xs : list pynum) (k : nat)
  (x : pynum) :
  Numpy.arange (PyInt a) (PyInt b) (PyInt s) = Ok xs ->
  List.nth_error xs k = Some x ->
  x = PyInt (a + Z.of_nat k * s).
Proof.
  unfold Numpy.arange.
  destruct (Numpy.calc_length (PyInt a) (PyInt b) (PyInt s)) as [len | e];
    [| discriminate].
  cbn [bind]. destruct (len <=? 0).
  - intros H; injection H as <-. destruct k; discriminate.
  - cbn [PyNum.add Numpy.overflow_to_value bind Numpy.all_int].
    intros H; injection H as <-. unfold Numpy.range.
    rewrite List.nth_error_map, List.nth_error_map.
    destruct (List.nth_error (List.seq 0 (Z.to_nat len)) k) as [n |] eqn:E;
      [| discriminate].
    cbn [option_map]. intros H; injection H as <-.
    assert (Hn : n = k).
    { assert (Hlt : (k < List.length (List.seq 0 (Z.to_nat len)))%nat)
        by (apply List.nth_error_Some; rewrite E; discriminate).
      rewrite List.length_seq in Hlt.
      rewrite List.nth_error_nth' with (d := 0%nat) in E
        by (rewrite List.length_seq; exact Hlt).
      rewrite List.seq_nth in E by exact Hlt. injection E as <-. lia. }
    subst n. cbn [Numpy.element]. f_equal. ring.
Qed.

(** X6: with integer step and integer bounds (integers that numpy's
    integer arrays hold) every cell of the table is a square of side
    step on the lattice anchored at (xs_min, ys_min): its bounds are the
    exact integers xs_min + i*step, xs_min + (i+1)*step, ys_min + j*step
    and ys_min + (j+1)*step for some i and j. *)
Theorem get_grid_df_integer_lattice (step x0 x1 y0 y1 : Z)
  (df : DataFrame) (c : GridCell) :
  fits_intp step -> fits_intp x0 -> fits_intp x1 ->
  fits_intp y0 -> fits_intp y1 ->
  get_grid_df (PyInt step) (PyInt x0) (PyInt x1) (PyInt y0) (PyInt y1)
  = Ok df ->
  List.In c (rows df) ->
  exists i j : Z,
    0 <= i /\ 0 <= j
    /\ cell_x_min c = PyInt (x0 + i * step)
    /\ cell_x_max c = PyInt (x0 + (i + 1) * step)
    /\ cell_y_min c = PyInt (y0 + j * step)
    /\ cell_y_max c = PyInt (y0 + (j + 1) * step).
Proof.
  intros _ _ _ _ _ H Hin.
  destruct (get_grid_df_returns _ _ _ _ _ _ H)
    as [xs [ys [Hx [Hy [_ Hrows]]]]].
  rewrite Hrows in Hin. unfold grid_cells in Hin.
  destruct (number_cells_in _ _ _ Hin) as [id [[a b] [[u v] [Hp ->]]]].
  destruct (x_major_in _ _ _ _ Hp) as [Hbx Hby].
  destruct (bands_in _ _ _ Hbx) as [i [Hi1 Hi2]].
  destruct (bands_in _ _ _ Hby) as [j [Hj1 Hj2]].
  exists (Z.of_nat i), (Z.of_nat j).
  cbn [make_cell cell_x_min cell_x_max cell_y_min cell_y_max fst snd].
  rewrite (arange_int_elements _ _ _ _ _ _ Hx Hi1).
  rewrite (arange_int_elements _ _ _ _ _ _ Hx Hi2).
  rewrite (arange_int_elements _ _ _ _ _ _ Hy Hj1).
  rewrite (arange_int_elements _ _ _ _ _ _ Hy Hj2).
  repeat split; try lia; do 2 f_equal; lia.
Qed.

Lemma get_grid_df_integer_lattice_witness :
  exists df c,
    get_grid_df (PyInt 2) (PyInt (-4)) (PyInt 4) (PyInt (-2)) (PyInt 3)
    = Ok df
    /\ List.nth_error (rows df) 4 = Some c
    /\ exists i j : Z,
         0 <= i /\ 0 <= j
         /\ cell_x_min c = PyInt (-4 + i * 2)
         /\ cell_x_max c = PyInt (-4 + (i + 1) * 2)
         /\ cell_y_min c = PyInt (-2 + j * 2)
         /\ cell_y_max c = PyInt (-2 + (j + 1) * 2).
Proof.
  destruct (get_grid_df (PyInt 2) (PyInt (-4)) (PyInt 4) (PyInt (-2))
              (PyInt 3)) as [df | e] eqn:E; [| vm_compute in E; discriminate].
  destruct (List.nth_error (rows df) 4) as [c |] eqn:Ec.
  - exists df, c. split; [reflexivity |]. split; [exact Ec |].
    apply (get_grid_df_integer_lattice 2 (-4) 4 (-2) 3 df c);
      try (unfold fits_intp, Numpy.intp_min, Numpy.intp_max; lia).
    + exact E.
    + apply List.nth_error_In with (n := 4%nat). exact Ec.
  - exfalso. vm_compute in E. injection E as <-. vm_compute in Ec.
    discriminate.
Defined.

Lemma div_nan (x : spec_float) : F64.div x S754_nan = S754_nan.
Proof. destruct x; reflexivity. Qed.

Lemma nonzero_false (v : pynum) :
  PyNum.nonzero v = false ->
  v = PyInt 0 \/ exists s, v = PyFloat (S754_zero s).
Proof.
  destruct v as [z | f]; cbn [PyNum.nonzero]; intros H;
    apply negb_false_iff in H.
  - left. apply Z.eqb_eq in H. now subst.
  - right. destruct f as [s | s | | s m e].
    + now exists s.
    + destruct s; discriminate.
    + discriminate.
    + destruct s; discriminate.
Qed.

(** A step that is zero or not a number gives no sequence. *)
Lemma arange_bad_step (start stop step : pynum) :
  PyNum.nonzero step = false \/ step = PyFloat S754_nan ->
  is_ok (Numpy.arange start stop step) = false.
Proof.
  intros H. unfold Numpy.arange.
  assert (Hc : is_ok (Numpy.calc_length start stop step) = false).
  { unfold Numpy.calc_length.
    destruct (PyNum.sub stop start) as [d | e]; [| destruct e; reflexivity].
    cbn [bind].
    assert (Ht : match PyNum.truediv d step with
                 | Ok val => val = S754_nan
                 | Raise _ => True
                 end).
    { destruct H as [H | ->].
      - destruct (nonzero_false _ H) as [-> | [s ->]].
        + destruct d as [z | f]; cbn; [exact I |].
          exact I.
        + unfold PyNum.truediv.
          destruct d as [z | f].
          * cbn [PyNum.to_float]. destruct (PyNum.int_to_float z); cbn; exact I.
          * cbn. exact I.
      - unfold PyNum.truediv. destruct d as [z | f].
        + cbn [PyNum.to_float]. destruct (PyNum.int_to_float z); cbn [bind];
            [| exact I].
          cbn [F64.is_zero]. apply div_nan.
        + cbn [PyNum.to_float bind F64.is_zero]. apply div_nan. }
    destruct (PyNum.truediv d step) as [val | e]; [| destruct e; reflexivity].
    subst val. reflexivity. }
  destruct (Numpy.calc_length start stop step) as [len | e];
    [discriminate | reflexivity].
Qed.

(** X7: a step that is zero (the integer 0, 0.0 or -0.0) or not a number
    never yields a table: get_grid_df raises, whatever the bounds. *)
Theorem get_grid_df_bad_step (step xs_min xs_max ys_min ys_max : pynum) :
  PyNum.nonzero step = false \/ step = PyFloat S754_nan ->
  is_ok (get_grid_df step xs_min xs_max ys_min ys_max) = false.
Proof.
  intros H. unfold get_grid_df.
  pose proof (arange_bad_step xs_min xs_max step H) as Hx.
  destruct (Numpy.arange xs_min xs_max step); [discriminate | reflexivity].
Qed.

Lemma get_grid_df_bad_step_witness :
  PyNum.nonzero (PyFloat F64.nzero) = false
  /\ is_ok (get_grid_df (PyFloat F64.nzero) (PyInt (-110)) (PyInt (-18))
              (PyInt (-60)) (PyInt 18)) = false.
Proof.
  split; [reflexivity |].
  apply get_grid_df_bad_step. left. reflexivity.
Defined.

(** ** More on the coordinate codec *)

(** X8: format_number knows two axes only.  For the axis "x" or "y" it
    returns a code, for every value; for any other axis string ("X",
    "lat", the empty string, ...) it raises KeyError, for every
    value. *)
Theorem format_number_axis_keys (v : pynum) (k : string) :
  (k = "x" \/ k = "y" -> is_ok (format_number v (Some k)) = true)
  /\ (k <> "x" -> k <> "y" -> format_number v (Some k) = Raise KeyError).
Proof.
  unfold format_number.
  destruct (PyNum.ge0 v);
    cbn [subscript d_signal_positive d_signal_negative lookup];
    destruct (String.eqb_spec "y" k) as [Hy | Hy];
    destruct (String.eqb_spec "x" k) as [Hx | Hx];
    (split;
     [ intros H; first [reflexivity | destruct H; congruence]
     | intros H1 H2; first [reflexivity | congruence] ]).
Qed.

Lemma map_ext (f g : ascii -> ascii) (s : string) :
  (forall c, f c = g c) -> PyStr.map f s = PyStr.map g s.
Proof.
  intros H. induction s as [| c s IH]; cbn; [reflexivity |].
  now rewrite H, IH.
Qed.

Lemma decoded_lower (c : ascii) :
  (fun x => if Ascii.eqb x "p" then "."%char else x)
    (PyStr.lower_char (PyStr.lower_char c))
  = (fun x => if Ascii.eqb x "p" then "."%char else x) (PyStr.lower_char c).
Proof.
  ascii_cases c; vm_compute; reflexivity.
Qed.

Lemma decoded_point (c : ascii) :
  (fun x => if Ascii.eqb x "p" then "."%char else x)
    (PyStr.lower_char (if Ascii.eqb c "p" then "."%char else c))
  = (fun x => if Ascii.eqb x "p" then "."%char else x) (PyStr.lower_char c).
Proof.
  ascii_cases c; vm_compute; reflexivity.
Qed.

Lemma decoded_p (c : ascii) :
  (fun x => if Ascii.eqb x "p" then "."%char else x)
    (PyStr.lower_char (if Ascii.eqb c "." then "p"%char else c))
  = (fun x => if Ascii.eqb x "p" then "."%char else x) (PyStr.lower_char c).
Proof.
  ascii_cases c; vm_compute; reflexivity.
Qed.

(** X9: retrieve_number ignores letter case and reads 'p', 'P' and '.'
    alike: lower-casing the code, replacing every 'p' by '.' or every
    '.' by 'p' changes neither the decoded value nor the exception
    raised. *)
Theorem retrieve_number_ignores_case_and_point (s : string) :
  retrieve_number (PyStr.lower s) = retrieve_number s
  /\ retrieve_number (PyStr.replace "p" "." s) = retrieve_number s
  /\ retrieve_number (PyStr.replace "." "p" s) = retrieve_number s.
Proof.
  unfold retrieve_number, PyStr.lower, PyStr.replace.
  rewrite !map_map.
  rewrite (map_ext _ _ s decoded_lower).
  rewrite (map_ext _ _ s decoded_point).
  rewrite (map_ext _ _ s decoded_p).
  repeat split.
Qed.

Lemma underscores_prev (p q : ascii) (s : string) :
  PyStr.is_digit p = PyStr.is_digit q ->
  Ascii.eqb p "_" = Ascii.eqb q "_" ->
  Parse.underscores p s = Parse.underscores q s.
Proof.
  intros Hd Hu. destruct s as [| c s]; cbn [Parse.underscores];
    rewrite ?Hd, ?Hu; reflexivity.
Qed.

(** What [float] makes of a string that starts with a sign. *)
Lemma py_float_signed (neg : bool) (t : string) :
  Parse.py_float (sign_string neg ++ t)
  = match Parse.underscores "+"
            (Parse.rstrip (PyStr.map Parse.transform_char t)) with
    | None => Raise ValueError
    | Some u =>
        match Parse.string_to_double (sign_string neg ++ u) with
        | Some f => Ok f
        | None => Raise ValueError
        end
    end.
Proof.
  unfold Parse.py_float, Parse.strip.
  destruct neg; cbn [sign_string String.append PyStr.map].
  - change (Parse.transform_char "-") with "-"%char.
    cbn [Parse.lstrip]. change (Parse.is_space "-") with false.
    cbn [Parse.rstrip]. change (Parse.is_space "-") with false.
    rewrite andb_false_r. cbn [Parse.underscores].
    change (Ascii.eqb "-" "_") with false.
    change (Ascii.eqb "000" "_") with false. cbn [andb].
    rewrite (underscores_prev "-" "+") by reflexivity.
    destruct (Parse.underscores "+" _); reflexivity.
  - change (Parse.transform_char "+") with "+"%char.
    cbn [Parse.lstrip]. change (Parse.is_space "+") with false.
    cbn [Parse.rstrip]. change (Parse.is_space "+") with false.
    rewrite andb_false_r. cbn [Parse.underscores].
    change (Ascii.eqb "+" "_") with false.
    change (Ascii.eqb "000" "_") with false. cbn [andb].
    destruct (Parse.underscores "+" _); reflexivity.
Qed.

Lemma string_to_double_negated (u : string) :
  Parse.string_to_double ("-" ++ u)
  = option_map SFopp (Parse.string_to_double ("+" ++ u)).
Proof.
  unfold Parse.string_to_double. cbn [String.append Parse.take_sign].
  destruct ((PyStr.lower u =? "inf")%string
            || (PyStr.lower u =? "infinity")%string); [reflexivity |].
  destruct (PyStr.lower u =? "nan")%string; [reflexivity |].
  destruct (Parse.parse_number u) as [q |]; [| reflexivity].
  cbn [option_map]. now rewrite round_Q_negative.
Qed.

(** The same digits after a minus sign read as the negated float. *)
Lemma py_float_negated (t : string) :
  Parse.py_float ("-" ++ t)
  = (v <- Parse.py_float ("+" ++ t) ;; Ok (SFopp v)).
Proof.
  pose proof (py_float_signed true t) as Hn.
  pose proof (py_float_signed false t) as Hp.
  cbn [sign_string] in Hn, Hp. rewrite Hn, Hp.
  destruct (Parse.underscores "+" _) as [u |]; [| reflexivity].
  rewrite string_to_double_negated.
  destruct (Parse.string_to_double ("+" ++ u)); reflexivity.
Qed.

(** X10: the hemisphere letter only sets the sign.  For every rest r,
    retrieve_number reads "e" ++ r exactly as "n" ++ r and "w" ++ r
    exactly as "s" ++ r (the axis is not told apart), and "s" ++ r
    gives the negation of what "n" ++ r gives, or raises the same
    exception. *)
Theorem retrieve_number_hemispheres (r : string) :
  retrieve_number (String "e" r) = retrieve_number (String "n" r)
  /\ retrieve_number (String "w" r) = retrieve_number (String "s" r)
  /\ retrieve_number (String "s" r)
     = (v <- retrieve_number (String "n" r) ;; Ok (SFopp v)).
Proof.
  rewrite !retrieve_number_cases.
  change (hemisphere_sign "e") with (Some false).
  change (hemisphere_sign "n") with (Some false).
  change (hemisphere_sign "w") with (Some true).
  change (hemisphere_sign "s") with (Some true).
  split; [reflexivity |]. split; [reflexivity |].
  apply py_float_negated.
Qed.
(** ** Integers through the codec *)

Lemma shl_align_exponent (m : positive) (e e' : Z) :
  e' <= e -> snd (shl_align m e e') = e'.
Proof.
  intros He. unfold shl_align.
  destruct (e' - e) as [| d | d] eqn:Ed; cbn [snd]; lia.
Qed.

(** An integer below 2^53 is a float: [binary_round] only shifts it to
    the canonical exponent. *)
Lemma binary_round_small (s : bool) (p : positive) :
  Z.pos p < 2 ^ 53 ->
  exists m e,
    bounded F64.prec F64.emax m e = true
    /\ e <= 0
    /\ Z.pos m = Z.pos p * 2 ^ (- e)
    /\ binary_round F64.prec F64.emax s p 0 = S754_finite s m e.
Proof.
  intros Hp. unfold binary_round.
  pose proof (digits2_pos_bounds p) as [Hd1 Hd2].
  set (d := Z.pos (digits2_pos p)) in *.
  assert (Hd : 1 <= d <= 53).
  { split; [subst d; lia |].
    assert (d - 1 < 53); [| lia].
    apply pow2_lt_exponents; [lia |]. lia. }
  set (e' := fexp F64.prec F64.emax (d + 0)).
  assert (He' : e' = d - 53)
    by (subst e'; unfold fexp, emin, F64.prec, F64.emax; lia).
  pose proof (shl_align_value p 0 e') as Hv.
  pose proof (shl_align_exponent p 0 e') as Hx.
  destruct (shl_align p 0 e') as [mz ez]. cbn [fst snd] in Hv, Hx.
  rewrite Hx by lia.
  assert (Hval : Z.pos mz = Z.pos p * 2 ^ (- e'))
    by (rewrite Hv by lia; f_equal).
  assert (Hb : bounded F64.prec F64.emax mz e' = true).
  { unfold bounded, canonical_mantissa.
    change (Z.pos (digits2_pos mz)) with (Zdigits2 (Z.pos mz)).
    rewrite Hval.
    replace (- e') with (Z.of_nat (Z.to_nat (- e')))
      by (rewrite Z2Nat.id; lia).
    rewrite Zdigits2_shift by lia. rewrite Z2Nat.id by lia.
    change (Zdigits2 (Z.pos p)) with d.
    apply andb_true_iff. split.
    - apply Z.eqb_eq. unfold fexp, emin, F64.prec, F64.emax. lia.
    - apply Z.leb_le. unfold F64.prec, F64.emax. lia. }
  exists mz, e'. split; [exact Hb |]. split; [lia |].
  split; [exact Hval |].
  pose proof (binary_round_aux_exact s mz e' 0 Hb (Z.le_refl 0)) as H.
  rewrite Z.mul_1_r, Z.sub_0_r in H. exact H.
Qed.

Lemma to_Q_small (p m : positive) (e : Z) :
  e <= 0 -> Z.pos m = Z.pos p * 2 ^ (- e) ->
  F64.to_Q m e == Z.pos p # 1.
Proof.
  intros He Hv. unfold Qeq. destruct e as [| k | k]; [| lia |];
    cbn [F64.to_Q Qnum Qden].
  - cbn in Hv. lia.
  - rewrite Hv. cbn [Z.opp]. rewrite Pos2Z.inj_pow. lia.
Qed.

Lemma int_round_trip_signed (s : bool) (p : positive) (z : Z) (a : axis) :
  Z.pos p < 2 ^ 53 ->
  z = (if s then Z.neg p else Z.pos p) ->
  exists v q,
    PyNum.int_to_float z = Ok v
    /\ (c <- format_number (PyInt z) (Some (axis_name a)) ;;
        retrieve_number c) = Ok v
    /\ value (PyFloat v) = Some q
    /\ q == z # 1.
Proof.
  intros Hp Hz.
  destruct (binary_round_small s p Hp) as [m [e [Hb [He [Hv Hr]]]]].
  pose proof (to_Q_small p m e He Hv) as Hq.
  exists (S754_finite s m e),
         (if s then Qopp (F64.to_Q m e) else F64.to_Q m e).
  split; [| split; [| split; [reflexivity |]]].
  - unfold PyNum.int_to_float, F64.of_Z, binary_normalize.
    subst z. destruct s; rewrite Hr; reflexivity.
  - rewrite retrieve_number_format_number_int.
    replace (z <? 0) with s by (subst z; destruct s; reflexivity).
    f_equal. apply round_Q_exact; [exact Hb |].
    rewrite Hq. replace (Z.abs z) with (Z.pos p)
      by (subst z; destruct s; reflexivity).
    unfold F64.dec_value, Qeq. cbn [Qnum Qden]. lia.
  - subst z. destruct s; [rewrite Hq |]; [reflexivity | exact Hq].
Qed.

(** X11: an integer of magnitude below 2^53 survives the codec exactly:
    decoding the code format_number gives for z, on either axis, yields
    float(z), and that float has the value z (the sign of z included;
    0 gives 0.0). *)
Theorem retrieve_number_format_number_integer (z : Z) (a : axis) :
  Z.abs z < 2 ^ 53 ->
  exists v q,
    PyNum.int_to_float z = Ok v
    /\ (c <- format_number (PyInt z) (Some (axis_name a)) ;;
        retrieve_number c) = Ok v
    /\ value (PyFloat v) = Some q
    /\ q == z # 1.
Proof.
  intros Hz. destruct z as [| p | p].
  - exists F64.pzero, (0 # 1).
    split; [reflexivity |]. split; [| split; reflexivity].
    rewrite retrieve_number_format_number_int. reflexivity.
  - apply (int_round_trip_signed false p); [lia | reflexivity].
  - apply (int_round_trip_signed true p); [lia | reflexivity].
Qed.

Lemma retrieve_number_format_number_integer_witness :
  exists v q,
    PyNum.int_to_float (-110) = Ok v
    /\ (c <- format_number (PyInt (-110)) (Some (axis_name AxisX)) ;;
        retrieve_number c) = Ok v
    /\ value (PyFloat v) = Some q
    /\ q == (-110) # 1.
Proof.
  apply (retrieve_number_format_number_integer (-110) AxisX).
  reflexivity.
Defined.
(** ** Codes as names: their characters, and what they tell apart *)

Lemma all_map (p : ascii -> bool) (f : ascii -> ascii) (s : string) :
  PyStr.all p (PyStr.map f s) = PyStr.all (fun c => p (f c)) s.
Proof.
  induction s as [| c s IH]; cbn; [reflexivity | now rewrite IH].
Qed.

Lemma encode_split (v : pynum) (a : axis) :
  encodeCoordinate v a = hemisphere v a ++ magnitude v.
Proof. reflexivity. Qed.

Lemma hemisphere_letter (v : pynum) (a : axis) :
  exists c, hemisphere v a = String c EmptyString
            /\ code_char c = true /\ PyStr.is_digit c = false
            /\ Ascii.eqb c "-" = false.
Proof.
  unfold hemisphere.
  destruct a, (PyNum.ge0 v); eexists; repeat split.
Qed.

Lemma hemisphere_inj (v w : pynum) (a b : axis) :
  hemisphere v a = hemisphere w b ->
  a = b /\ PyNum.ge0 v = PyNum.ge0 w.
Proof.
  unfold hemisphere.
  destruct a, b, (PyNum.ge0 v), (PyNum.ge0 w); intros H;
    try discriminate; split; reflexivity.
Qed.

Lemma magnitude_int (z : Z) : magnitude (PyInt z) = PyStr.digits (Z.abs z).
Proof.
  unfold magnitude. cbn [PyNum.abs PyNum.str]. unfold Repr.str_int.
  replace (Z.abs z <? 0) with false by lia.
  destruct (digits_spec (Z.abs z) (Z.abs_nonneg z)) as [Hall _].
  exact (map_fixed _ PyStr.is_digit _ digit_not_dot Hall).
Qed.

Lemma magnitude_float (f : spec_float) :
  magnitude (PyFloat f) = PyStr.replace "." "p" (Repr.repr_abs f).
Proof.
  destruct f as [s | s | | s m e]; reflexivity.
Qed.

(** The digits and the exponent printed for a well-formed finite
    float. *)
Lemma shortest_positive (m : positive) (e : Z) :
  bounded F64.prec F64.emax m e = true -> 0 < fst (Repr.shortest m e).
Proof.
  intros Hb. exact (proj1 (shortest_roundtrip m e Hb)).
Qed.

Lemma numeric_code (c : ascii) :
  numeric_char c = true ->
  code_char (if Ascii.eqb c "." then "p"%char else c) = true.
Proof.
  ascii_cases c; vm_compute; trivial.
Qed.

Lemma magnitude_chars (v : pynum) :
  well_formed v = true -> PyStr.all code_char (magnitude v) = true.
Proof.
  intros Hv. destruct v as [z | f].
  - rewrite magnitude_int.
    destruct (digits_spec (Z.abs z) (Z.abs_nonneg z)) as [Hall _].
    apply (all_weaken PyStr.is_digit); [| exact Hall].
    intros c Hc. unfold code_char. now rewrite Hc.
  - rewrite magnitude_float.
    destruct f as [s | s | | s m e]; try reflexivity.
    cbn [Repr.repr_abs]. pose proof (shortest_positive m e Hv) as Hpos.
    destruct (Repr.shortest m e) as [D k]. cbn [fst] in Hpos.
    destruct (format_short_chars D k Hpos) as [Hnum _].
    unfold PyStr.replace. rewrite all_map.
    apply (all_weaken numeric_char); [exact numeric_code | exact Hnum].
Qed.

Lemma encode_chars (v : pynum) (a : axis) :
  well_formed v = true ->
  PyStr.all code_char (encodeCoordinate v a) = true.
Proof.
  intros Hv. rewrite encode_split, all_app, (magnitude_chars v Hv).
  destruct (hemisphere_letter v a) as [c [-> [Hc _]]].
  cbn [PyStr.all]. now rewrite Hc.
Qed.

(** X12: the tile code of well-formed bounds (integers, floats of any
    kind) is made of digits, lower-case ASCII letters, '+' and '-'
    only: it holds no '.', no blank and no path separator, whatever the
    magnitudes (also for exponent notation, infinities and
    not-a-number). *)
Theorem get_code_characters (xMin xMax yMin yMax : pynum) :
  well_formed xMin = true -> well_formed xMax = true ->
  well_formed yMin = true -> well_formed yMax = true ->
  exists code,
    get_code xMin xMax yMin yMax = Ok code
    /\ PyStr.all code_char code = true.
Proof.
  intros H1 H2 H3 H4. eexists. split; [apply get_code_value |].
  unfold PyStr.join. cbn [String.concat].
  rewrite !all_app, (encode_chars _ _ H1), (encode_chars _ _ H2),
    (encode_chars _ _ H3), (encode_chars _ _ H4).
  reflexivity.
Qed.

Lemma get_code_characters_witness :
  exists code,
    get_code (PyFloat (S754_finite false 5902958103587057 16))
      (PyFloat (S754_finite true 5902958103587057 (-122)))
      (PyFloat S754_nan) (PyInt (-60)) = Ok code
    /\ PyStr.all code_char code = true.
Proof.
  apply get_code_characters; reflexivity.
Defined.
(** ** Codes tell numbers apart *)

(** The magnitude part of a code, decoded, reads back as the magnitude
    of the float. *)
Lemma magnitude_read (f : spec_float) :
  F64.valid f = true ->
  Parse.py_float
    ("+" ++ PyStr.replace "p" "." (PyStr.lower (magnitude (PyFloat f))))
  = Ok (SFabs f).
Proof.
  intros Hv. rewrite magnitude_float.
  destruct f as [s | s | | s m e]; try reflexivity.
  destruct (read_printed_finite false s m e Hv) as [Hnum Hread].
  rewrite (numeric_string_decoded _ Hnum). exact Hread.
Qed.

Lemma ge0_abs (f g : spec_float) :
  SFabs f = SFabs g ->
  PyNum.ge0 (PyFloat f) = PyNum.ge0 (PyFloat g) ->
  f <> S754_nan ->
  SFeqb f g = true.
Proof.
  destruct f as [s | s | | s m e], g as [t | t | | t n x]; cbn [SFabs];
    intros Ha Hs Hn; try discriminate; try congruence.
  - destruct s, t; reflexivity.
  - destruct s, t; try reflexivity; discriminate.
  - injection Ha as -> ->.
    assert (s = t) by (destruct s, t; try reflexivity; discriminate).
    subst t. apply SFeqb_finite_refl.
Qed.

Lemma all_app_false (p : ascii -> bool) (a b : string) :
  PyStr.all p b = false -> PyStr.all p (a ++ b) = false.
Proof.
  intros H. rewrite all_app, H. apply andb_false_r.
Qed.

(** The text printed for a float is never a plain string of digits. *)
Lemma format_short_not_digits (D k : Z) :
  PyStr.all PyStr.is_digit (Repr.format_short D k) = false.
Proof.
  unfold Repr.format_short.
  set (ds := PyStr.digits D). set (n := Z.of_nat (String.length ds)).
  destruct ((-4 <? n + k) && (n + k <=? 16)).
  - destruct (n + k <=? 0); [reflexivity |].
    destruct (n <=? n + k).
    + apply all_app_false, all_app_false. reflexivity.
    + apply all_app_false. reflexivity.
  - apply all_app_false, all_app_false. reflexivity.
Qed.

Lemma all_ext (p q : ascii -> bool) (s : string) :
  (forall c, p c = q c) -> PyStr.all p s = PyStr.all q s.
Proof.
  intros H. induction s as [| c s IH]; cbn; [reflexivity |].
  now rewrite H, IH.
Qed.

Lemma digit_after_replace (c : ascii) :
  PyStr.is_digit (if Ascii.eqb c "." then "p"%char else c) = PyStr.is_digit c.
Proof.
  ascii_cases c; vm_compute; reflexivity.
Qed.

Lemma magnitude_float_not_digits (f : spec_float) :
  PyStr.all PyStr.is_digit (magnitude (PyFloat f)) = false.
Proof.
  rewrite magnitude_float. unfold PyStr.replace. rewrite all_map.
  rewrite (all_ext _ PyStr.is_digit _ digit_after_replace).
  destruct f as [s | s | | s m e]; try reflexivity.
  cbn [Repr.repr_abs]. destruct (Repr.shortest m e) as [D k].
  apply format_short_not_digits.
Qed.

(** Equal magnitude parts and equal signs: equal numbers. *)
Lemma magnitude_inj (v w : pynum) :
  well_formed v = true -> well_formed w = true ->
  is_nan v = false -> is_nan w = false ->
  magnitude v = magnitude w ->
  PyNum.ge0 v = PyNum.ge0 w ->
  same_number v w.
Proof.
  intros Hv Hw Nv Nw Hm Hs.
  destruct v as [x | f], w as [y | g]; cbn [same_number].
  - rewrite !magnitude_int in Hm.
    assert (Ha : Z.abs x = Z.abs y).
    { rewrite <- (digits_value_digits (Z.abs x)) by lia.
      rewrite <- (digits_value_digits (Z.abs y)) by lia.
      now rewrite Hm. }
    cbn [PyNum.ge0] in Hs.
    destruct (Z.leb_spec 0 x), (Z.leb_spec 0 y); try discriminate; lia.
  - pose proof (magnitude_float_not_digits g) as Hg.
    rewrite <- Hm, magnitude_int in Hg.
    destruct (digits_spec (Z.abs x) (Z.abs_nonneg x)) as [Hall _].
    congruence.
  - pose proof (magnitude_float_not_digits f) as Hf.
    rewrite Hm, magnitude_int in Hf.
    destruct (digits_spec (Z.abs y) (Z.abs_nonneg y)) as [Hall _].
    congruence.
  - assert (Hf : f <> S754_nan) by (intros ->; discriminate).
    pose proof (magnitude_read f Hv) as Rf.
    pose proof (magnitude_read g Hw) as Rg.
    rewrite Hm, Rg in Rf. injection Rf as Rf.
    apply ge0_abs; [now symmetry | exact Hs | exact Hf].
Qed.

Lemma encode_inj (v w : pynum) (a b : axis) :
  well_formed v = true -> well_formed w = true ->
  is_nan v = false -> is_nan w = false ->
  encodeCoordinate v a = encodeCoordinate w b ->
  a = b /\ same_number v w.
Proof.
  intros Hv Hw Nv Nw H. rewrite !encode_split in H.
  destruct (hemisphere_letter v a) as [c [Ec _]].
  destruct (hemisphere_letter w b) as [d [Ed _]].
  pose proof (hemisphere_inj v w a b) as Hh.
  rewrite Ec, Ed in H, Hh. cbn [String.append] in H.
  injection H as Hc Hm. subst d.
  destruct (Hh eq_refl) as [Hab Hs].
  split; [exact Hab |].
  apply magnitude_inj; assumption.
Qed.

(** X13: format_number tells numbers and axes apart.  For integers and
    well-formed floats other than not-a-number, two calls that give the
    same code were made for the same axis and for equal numbers: two
    equal integers, or two floats equal as == has it (only 0.0 and -0.0
    share a code); an integer and a float never share one. *)
Theorem format_number_injective (v w : pynum) (a b : axis) :
  well_formed v = true -> well_formed w = true ->
  is_nan v = false -> is_nan w = false ->
  format_number v (Some (axis_name a)) = format_number w (Some (axis_name b)) ->
  a = b /\ same_number v w.
Proof.
  intros Hv Hw Nv Nw H. rewrite !format_number_axis in H.
  injection H as H. apply encode_inj; assumption.
Qed.

Lemma format_number_injective_witness :
  format_number (PyFloat F64.nzero) (Some (axis_name AxisX))
  = format_number (PyFloat F64.pzero) (Some (axis_name AxisX))
  /\ AxisX = AxisX
  /\ same_number (PyFloat F64.nzero) (PyFloat F64.pzero).
Proof.
  split; [reflexivity |].
  apply format_number_injective; reflexivity.
Defined.
(** ** The four fields of a tile code *)

Lemma digit_not_minus (c : ascii) :
  PyStr.is_digit c = true -> negb (Ascii.eqb c "-") = true.
Proof.
  ascii_cases c; vm_compute; trivial.
Qed.

Lemma field_ok_clean (s : string) :
  PyStr.all (fun c => negb (Ascii.eqb c "-")) s = true -> field_ok s = true.
Proof.
  induction s as [| c s IH]; cbn [PyStr.all field_ok]; [reflexivity |].
  intros H. apply andb_true_iff in H. destruct H as [Hc Hs].
  apply negb_true_iff in Hc. rewrite Hc. exact (IH Hs).
Qed.

Lemma field_ok_app_clean (s t : string) :
  PyStr.all (fun c => negb (Ascii.eqb c "-")) s = true ->
  field_ok (s ++ t) = field_ok t.
Proof.
  induction s as [| c s IH]; cbn [PyStr.all field_ok String.append];
    [reflexivity |].
  intros H. apply andb_true_iff in H. destruct H as [Hc Hs].
  apply negb_true_iff in Hc. rewrite Hc. exact (IH Hs).
Qed.

Lemma digits_clean (d : string) :
  PyStr.all PyStr.is_digit d = true ->
  PyStr.all (fun c => negb (Ascii.eqb c "-")) d = true.
Proof.
  apply all_weaken. exact digit_not_minus.
Qed.

(** In the text printed for a float a minus sign occurs in the exponent
    only, before its digits. *)
Lemma format_short_field (D k : Z) :
  0 < D -> field_ok (Repr.format_short D k) = true.
Proof.
  intros HD. destruct (digits_spec D) as [Hall [Hne Hval]]; [lia |].
  unfold Repr.format_short. set (ds := PyStr.digits D) in *.
  set (n := Z.of_nat (String.length ds)).
  pose proof (digits_clean ds Hall) as Hds.
  assert (Hzeros : forall z,
             PyStr.all (fun c => negb (Ascii.eqb c "-")) (PyStr.repeat "0" z)
             = true).
  { intros z. apply digits_clean. apply repeat_zero_spec. }
  destruct ((-4 <? n + k) && (n + k <=? 16)).
  - apply field_ok_clean.
    destruct (n + k <=? 0); [| destruct (n <=? n + k)].
    + change ("0." ++ ?x) with (String "0" (String "." x)).
      cbn [PyStr.all]. rewrite all_app, Hzeros, Hds. reflexivity.
    + rewrite !all_app, Hzeros, Hds. reflexivity.
    + rewrite !all_app, (all_firstn _ _ _ Hds), (all_skipn _ _ _ Hds).
      reflexivity.
  - rewrite field_ok_app_clean by (apply all_firstn; exact Hds).
    rewrite field_ok_app_clean
      by (destruct (1 <? n); [| reflexivity];
          rewrite all_app, (all_skipn _ _ _ Hds); reflexivity).
    destruct (pad2_spec _ _ (digits_spec (Z.abs (n + k - 1))
                               (Z.abs_nonneg _))) as [Hp [Hpne _]].
    set (x := Repr.pad2 (PyStr.digits (Z.abs (n + k - 1)))) in *.
    pose proof (field_ok_clean x (digits_clean x Hp)) as Hx.
    destruct x as [| c x]; [discriminate |].
    cbn [PyStr.all] in Hp. apply andb_true_iff in Hp. destruct Hp as [Hc _].
    destruct (n + k - 1 <? 0); cbn [String.append field_ok Ascii.eqb Bool.eqb];
      cbn [String.append field_ok] in Hx |- *.
    + rewrite Hc. exact Hx.
    + exact Hx.
Qed.

Lemma minus_after_replace (c : ascii) :
  Ascii.eqb (if Ascii.eqb c "." then "p"%char else c) "-" = Ascii.eqb c "-".
Proof.
  ascii_cases c; vm_compute; reflexivity.
Qed.

Lemma field_ok_replace (s : string) :
  field_ok (PyStr.replace "." "p" s) = field_ok s.
Proof.
  unfold PyStr.replace. induction s as [| c s IH]; [reflexivity |].
  cbn [PyStr.map field_ok]. rewrite IH, minus_after_replace.
  destruct s as [| d s]; [reflexivity |].
  cbn [PyStr.map]. now rewrite digit_after_replace.
Qed.

Lemma magnitude_field (v : pynum) :
  well_formed v = true -> field_ok (magnitude v) = true.
Proof.
  intros Hv. destruct v as [z | f].
  - rewrite magnitude_int. apply field_ok_clean, digits_clean.
    apply (digits_spec (Z.abs z) (Z.abs_nonneg z)).
  - rewrite magnitude_float, field_ok_replace.
    destruct f as [s | s | | s m e]; try reflexivity.
    cbn [Repr.repr_abs]. pose proof (shortest_positive m e Hv) as Hpos.
    destruct (Repr.shortest m e) as [D k]. cbn [fst] in Hpos.
    apply format_short_field. exact Hpos.
Qed.

(** A coordinate code is a letter and a magnitude whose minus signs
    stand before digits. *)
Lemma encode_field (v : pynum) (a : axis) :
  well_formed v = true ->
  field_ok (encodeCoordinate v a) = true
  /\ exists c r, encodeCoordinate v a = String c r /\ PyStr.is_digit c = false.
Proof.
  intros Hv. rewrite encode_split.
  destruct (hemisphere_letter v a) as [c [-> [_ [Hd Hm]]]].
  cbn [String.append field_ok]. rewrite Hm, (magnitude_field v Hv).
  split; [reflexivity |]. exists c, (magnitude v). split; [reflexivity | exact Hd].
Qed.

(** Two codes joined by [-] come apart in one way only. *)
Lemma field_split_unique (A A' R R' : string) :
  field_ok A = true -> field_ok A' = true ->
  (exists c r, R = String c r /\ PyStr.is_digit c = false) ->
  (exists c r, R' = String c r /\ PyStr.is_digit c = false) ->
  A ++ String "-" R = A' ++ String "-" R' ->
  A = A' /\ R = R'.
Proof.
  revert A'. induction A as [| c A IH]; intros A' HA HA' HR HR' H;
    destruct A' as [| c' A']; cbn [String.append] in H.
  - injection H as H. split; [reflexivity | exact H].
  - exfalso. injection H as Hc HRe. subst c'.
    cbn [field_ok Ascii.eqb Bool.eqb] in HA'.
    destruct A' as [| d A']; [discriminate |].
    apply andb_true_iff in HA'. destruct HA' as [Hd _].
    destruct HR as [x [r [-> Hx]]]. cbn [String.append] in HRe.
    injection HRe as -> _. congruence.
  - exfalso. injection H as Hc HRe. subst c.
    cbn [field_ok Ascii.eqb Bool.eqb] in HA.
    destruct A as [| d A]; [discriminate |].
    apply andb_true_iff in HA. destruct HA as [Hd _].
    destruct HR' as [x [r [-> Hx]]]. cbn [String.append] in HRe.
    injection HRe as <- _. congruence.
  - injection H as Hc Ht. subst c'.
    cbn [field_ok] in HA, HA'.
    apply andb_true_iff in HA. destruct HA as [_ HA].
    apply andb_true_iff in HA'. destruct HA' as [_ HA'].
    destruct (IH A' HA HA' HR HR' Ht) as [-> ->]. split; reflexivity.
Qed.

Lemma starts_app (s t : string) :
  (exists c r, s = String c r /\ PyStr.is_digit c = false) ->
  exists c r, s ++ t = String c r /\ PyStr.is_digit c = false.
Proof.
  intros [c [r [-> Hc]]]. exists c, (r ++ t). split; [reflexivity | exact Hc].
Qed.

(** Number and well-formed, but not not-a-number. *)
Lemma proper_split (v : pynum) :
  well_formed v && negb (is_nan v) = true ->
  well_formed v = true /\ is_nan v = false.
Proof.
  intros H. apply andb_true_iff in H. destruct H as [H N].
  apply negb_true_iff in N. split; assumption.
Qed.

(** Four coordinate codes joined by [-] tell their numbers apart. *)
Lemma joined_codes_inj
  (xMin xMax yMin yMax xMin' xMax' yMin' yMax' : pynum) :
  well_formed xMin && negb (is_nan xMin) = true ->
  well_formed xMax && negb (is_nan xMax) = true ->
  well_formed yMin && negb (is_nan yMin) = true ->
  well_formed yMax && negb (is_nan yMax) = true ->
  well_formed xMin' && negb (is_nan xMin') = true ->
  well_formed xMax' && negb (is_nan xMax') = true ->
  well_formed yMin' && negb (is_nan yMin') = true ->
  well_formed yMax' && negb (is_nan yMax') = true ->
  PyStr.join "-" [encodeCoordinate xMin AxisX; encodeCoordinate xMax AxisX;
                  encodeCoordinate yMin AxisY; encodeCoordinate yMax AxisY]
  = PyStr.join "-" [encodeCoordinate xMin' AxisX;
                    encodeCoordinate xMax' AxisX;
                    encodeCoordinate yMin' AxisY;
                    encodeCoordinate yMax' AxisY] ->
  same_number xMin xMin' /\ same_number xMax xMax'
  /\ same_number yMin yMin' /\ same_number yMax yMax'.
Proof.
  intros H1 H2 H3 H4 H1' H2' H3' H4' H.
  destruct (proper_split _ H1) as [W1 N1].
  destruct (proper_split _ H2) as [W2 N2].
  destruct (proper_split _ H3) as [W3 N3].
  destruct (proper_split _ H4) as [W4 N4].
  destruct (proper_split _ H1') as [W1' N1'].
  destruct (proper_split _ H2') as [W2' N2'].
  destruct (proper_split _ H3') as [W3' N3'].
  destruct (proper_split _ H4') as [W4' N4'].
  unfold PyStr.join in H. cbn [String.concat] in H.
  change ("-" ++ ?x) with (String "-" x) in H.
  destruct (encode_field xMin AxisX W1) as [F1 S1].
  destruct (encode_field xMax AxisX W2) as [F2 S2].
  destruct (encode_field yMin AxisY W3) as [F3 S3].
  destruct (encode_field yMax AxisY W4) as [F4 S4].
  destruct (encode_field xMin' AxisX W1') as [F1' S1'].
  destruct (encode_field xMax' AxisX W2') as [F2' S2'].
  destruct (encode_field yMin' AxisY W3') as [F3' S3'].
  destruct (encode_field yMax' AxisY W4') as [F4' S4'].
  destruct (field_split_unique _ _ _ _ F1 F1'
              (starts_app _ _ S2) (starts_app _ _ S2') H) as [E1 Ha].
  destruct (field_split_unique _ _ _ _ F2 F2'
              (starts_app _ _ S3) (starts_app _ _ S3') Ha) as [E2 Hb].
  destruct (field_split_unique _ _ _ _ F3 F3' S4 S4' Hb) as [E3 E4].
  repeat split; eapply encode_inj; eassumption.
Qed.

(** X14: get_code gives a unique code.  For bounds that are integers or
    well-formed floats other than not-a-number, two calls that return
    the same tile code were given equal bounds, one by one: equal
    integers, or floats equal as == has it.  A minus sign inside a field
    (exponent notation) is never taken for the separator. *)
Theorem get_code_injective
  (xMin xMax yMin yMax xMin' xMax' yMin' yMax' : pynum) :
  well_formed xMin && negb (is_nan xMin) = true ->
  well_formed xMax && negb (is_nan xMax) = true ->
  well_formed yMin && negb (is_nan yMin) = true ->
  well_formed yMax && negb (is_nan yMax) = true ->
  well_formed xMin' && negb (is_nan xMin') = true ->
  well_formed xMax' && negb (is_nan xMax') = true ->
  well_formed yMin' && negb (is_nan yMin') = true ->
  well_formed yMax' && negb (is_nan yMax') = true ->
  get_code xMin xMax yMin yMax = get_code xMin' xMax' yMin' yMax' ->
  same_number xMin xMin' /\ same_number xMax xMax'
  /\ same_number yMin yMin' /\ same_number yMax yMax'.
Proof.
  intros H1 H2 H3 H4 H1' H2' H3' H4' H.
  rewrite !get_code_value in H. injection H as H.
  exact (joined_codes_inj _ _ _ _ _ _ _ _ H1 H2 H3 H4 H1' H2' H3' H4' H).
Qed.

Lemma get_code_injective_witness :
  get_code (PyFloat F64.nzero) (PyFloat (S754_finite false 5902958103587057 (-122)))
    (PyInt (-60)) (PyInt (-57))
  = get_code (PyFloat F64.pzero)
      (PyFloat (S754_finite false 5902958103587057 (-122)))
      (PyInt (-60)) (PyInt (-57))
  /\ same_number (PyFloat F64.nzero) (PyFloat F64.pzero)
  /\ same_number (PyFloat (S754_finite false 5902958103587057 (-122)))
       (PyFloat (S754_finite false 5902958103587057 (-122)))
  /\ same_number (PyInt (-60)) (PyInt (-60))
  /\ same_number (PyInt (-57)) (PyInt (-57)).
Proof.
  split; [vm_compute; reflexivity |].
  apply (get_code_injective
           (PyFloat F64.nzero)
           (PyFloat (S754_finite false 5902958103587057 (-122)))
           (PyInt (-60)) (PyInt (-57))
           (PyFloat F64.pzero)
           (PyFloat (S754_finite false 5902958103587057 (-122)))
           (PyInt (-60)) (PyInt (-57)));
    vm_compute; reflexivity.
Defined.

(** ** The text of a rectangle *)

Lemma count_app (c : ascii) (a b : string) :
  count c (a ++ b) = (count c a + count c b)%nat.
Proof.
  induction a as [| x a IH]; cbn [String.append count]; [reflexivity |].
  rewrite IH. lia.
Qed.

Lemma count_absent (p : ascii -> bool) (c : ascii) (s : string) :
  p c = false -> PyStr.all p s = true -> count c s = 0%nat.
Proof.
  intros Hc. induction s as [| x s IH]; cbn [PyStr.all count];
    [reflexivity |].
  intros H. apply andb_true_iff in H. destruct H as [Hx Hs].
  rewrite (IH Hs). destruct (Ascii.eqb_spec x c) as [-> | _];
    [congruence | reflexivity].
Qed.

Lemma numeric_number (c : ascii) : numeric_char c = true -> number_char c = true.
Proof.
  intros H. unfold number_char. now rewrite H.
Qed.

(** [str] of an integer or of a well-formed float holds number
    characters only. *)
Lemma str_chars (v : pynum) :
  well_formed v = true -> PyStr.all number_char (PyNum.str v) = true.
Proof.
  intros Hv. destruct v as [z | f]; cbn [PyNum.str].
  - unfold Repr.str_int.
    assert (Hd : forall n, 0 <= n ->
                   PyStr.all number_char (PyStr.digits n) = true).
    { intros n Hn. destruct (digits_spec n Hn) as [Hall _].
      apply (all_weaken PyStr.is_digit); [| exact Hall].
      intros c Hc. apply numeric_number, digit_numeric, Hc. }
    destruct (Z.ltb_spec z 0).
    + rewrite all_app, Hd by lia. reflexivity.
    + apply Hd. lia.
  - unfold Repr.repr. rewrite all_app.
    replace (PyStr.all number_char
               (if F64.signbit f then "-" else EmptyString)) with true
      by (destruct (F64.signbit f); reflexivity).
    destruct f as [s | s | | s m e]; try reflexivity.
    cbn [Repr.repr_abs andb]. pose proof (shortest_positive m e Hv) as Hpos.
    destruct (Repr.shortest m e) as [D k]. cbn [fst] in Hpos.
    destruct (format_short_chars D k Hpos) as [Hnum _].
    exact (all_weaken _ _ _ numeric_number Hnum).
Qed.

Lemma count_str (c : ascii) (v : pynum) :
  number_char c = false -> well_formed v = true ->
  count c (PyNum.str v) = 0%nat.
Proof.
  intros Hc Hv. exact (count_absent number_char c _ Hc (str_chars v Hv)).
Qed.

(** X15: the text create_rectangle_wkt builds for integers and
    well-formed floats has its separators where the template puts them
    and nowhere else: exactly 4 commas, 9 blanks, 2 opening and 2
    closing parentheses, since no number is printed with any of these
    characters; the text splits into five points of two coordinates in
    one way only. *)
Theorem create_rectangle_wkt_separators (xMin xMax yMin yMax : pynum) :
  well_formed xMin = true -> well_formed xMax = true ->
  well_formed yMin = true -> well_formed yMax = true ->
  let wkt := create_rectangle_wkt xMin xMax yMin yMax in
  count "," wkt = 4%nat /\ count " " wkt = 9%nat
  /\ count "(" wkt = 2%nat /\ count ")" wkt = 2%nat.
Proof.
  intros H1 H2 H3 H4 wkt. subst wkt. unfold create_rectangle_wkt.
  repeat split; rewrite !count_app, !count_str by (assumption || reflexivity);
    reflexivity.
Qed.

Lemma create_rectangle_wkt_separators_witness :
  count ","
    (create_rectangle_wkt (PyFloat (S754_finite true 7740561859543040 (-46)))
       (PyFloat (S754_finite true 7529455627010048 (-46)))
       (PyFloat (S754_finite false 5902958103587057 (-122))) (PyInt 18))
  = 4%nat
  /\ count " "
       (create_rectangle_wkt
          (PyFloat (S754_finite true 7740561859543040 (-46)))
          (PyFloat (S754_finite true 7529455627010048 (-46)))
          (PyFloat (S754_finite false 5902958103587057 (-122))) (PyInt 18))
     = 9%nat
  /\ count "("
       (create_rectangle_wkt
          (PyFloat (S754_finite true 7740561859543040 (-46)))
          (PyFloat (S754_finite true 7529455627010048 (-46)))
          (PyFloat (S754_finite false 5902958103587057 (-122))) (PyInt 18))
     = 2%nat
  /\ count ")"
       (create_rectangle_wkt
          (PyFloat (S754_finite true 7740561859543040 (-46)))
          (PyFloat (S754_finite true 7529455627010048 (-46)))
          (PyFloat (S754_finite false 5902958103587057 (-122))) (PyInt 18))
     = 2%nat.
Proof.
  apply (create_rectangle_wkt_separators
           (PyFloat (S754_finite true 7740561859543040 (-46)))
           (PyFloat (S754_finite true 7529455627010048 (-46)))
           (PyFloat (S754_finite false 5902958103587057 (-122))) (PyInt 18));
    reflexivity.
Defined.

(** ** The script *)

Lemma make_grid_returns (step : pynum) (filename folder : string)
  (out : list Main.event) (df : DataFrame) :
  get_grid_df_default step = Ok df ->
  Main.make_grid step filename folder out
  = ((out ++ [Main.Print (Main.head df);
              Main.ToCsv df (folder ++ "/" ++ filename ++ ".csv") ";" false])
       %list, None).
Proof.
  intros H. unfold Main.make_grid. rewrite H.
  rewrite <- List.app_assoc. reflexivity.
Qed.

Lemma grid_cells_length (xs ys : list pynum) :
  List.length (grid_cells xs ys)
  = ((List.length xs - 1) * (List.length ys - 1))%nat.
Proof.
  unfold grid_cells.
  now rewrite number_cells_length, x_major_length, !bands_length.
Qed.

(** The number of rows of a returned table. *)
Lemma get_grid_df_length (step xs_min xs_max ys_min ys_max : pynum)
  (xs ys : list pynum) (df : DataFrame) :
  Numpy.arange xs_min xs_max step = Ok xs ->
  Numpy.arange ys_min ys_max step = Ok ys ->
  get_grid_df step xs_min xs_max ys_min ys_max = Ok df ->
  List.length (Id df) = ((List.length xs - 1) * (List.length ys - 1))%nat.
Proof.
  intros Hx Hy H.
  destruct (get_grid_df_returns _ _ _ _ _ _ H)
    as [xs' [ys' [Hx' [Hy' [[H1 [H2 [H3 [H4 [H5 H6]]]]] Hrows]]]]].
  rewrite Hx in Hx'. injection Hx' as <-.
  rewrite Hy in Hy'. injection Hy' as <-.
  destruct (zip_rows_columns (Id df) (tile_code df) (x_min df) (x_max df)
              (y_min df) (y_max df) (geometry df) H1 H2 H3 H4 H5 H6)
    as [Hid _].
  fold (rows df) in Hid.
  rewrite <- Hid, List.length_map, Hrows. apply grid_cells_length.
Qed.

(** The table over the default box, for a step that gives [nx + 1]
    values on the x axis and [ny + 1] on the y axis. *)
Lemma default_grid (step : pynum) (nx ny : Z) :
  0 <= nx -> 0 <= ny ->
  (exists xs, Numpy.arange (PyInt (-110)) (PyInt (-18)) step = Ok xs
              /\ Numpy.len xs = nx + 1) ->
  (exists ys, Numpy.arange (PyInt (-60)) (PyInt 18) step = Ok ys
              /\ Numpy.len ys = ny + 1) ->
  exists df, get_grid_df_default step = Ok df
             /\ Numpy.len (Id df) = nx * ny.
Proof.
  intros Hnx Hny [xs [Hx Lx]] [ys [Hy Ly]].
  destruct (get_grid_df_cells _ _ _ _ _ _ _ Hx Hy) as [df [Hdf _]].
  exists df. split; [exact Hdf |].
  unfold Numpy.len in *.
  rewrite (get_grid_df_length _ _ _ _ _ _ _ _ Hx Hy Hdf).
  rewrite Nat2Z.inj_mul, !Nat2Z.inj_sub by lia. lia.
Qed.

(** One pass of the loop of the script, when the grid is built. *)
Lemma main_loop_step (step_s : string) (step : pynum) (r : list string)
  (out : list Main.event) (df : DataFrame) :
  Main.getitem Main.steps_d step_s = Ok step ->
  get_grid_df_default step = Ok df ->
  Main.main_loop (step_s :: r) out
  = Main.main_loop r
      (out ++ [Main.Print (Main.head df);
               Main.ToCsv df
                 ("C:/data" ++ "/"
                  ++ ("sasg_" ++ step_s ++ "-v0_"
                      ++ PyStr.replace "." "p" (PyNum.str step)
                      ++ "-d_sa_2025")
                  ++ ".csv") ";" false])%list.
Proof.
  intros Hk Hdf. cbn [Main.main_loop]. rewrite Hk.
  rewrite (make_grid_returns _ _ _ _ df Hdf). reflexivity.
Qed.

(** The float literals of the script are what [float] reads from their
    text. *)
Lemma steps_d_literals :
  Parse.py_float "0.25" = Ok Main.f_0p25
  /\ Parse.py_float "0.5" = Ok Main.f_0p5
  /\ Parse.py_float "1.0" = Ok Main.f_1p0
  /\ Parse.py_float "2.0" = Ok Main.f_2p0
  /\ Parse.py_float "3.0" = Ok Main.f_3p0.
Proof.
  repeat split; vm_compute; reflexivity.
Qed.

(** X16: what running main.py does.  It builds the grid over the
    default box for the steps 0.25, 0.5, 1.0, 2.0 and 3.0, in this
    order; get_grid_df returns each time, with 114137, 28365, 7007,
    1710 and 750 rows; each table has its first five rows printed and
    is then written with separator ';' and without index to
    C:/data/sasg_<key>-v0_<step>-d_sa_2025.csv, where <step> is the
    text of the float with 'p' for the point (so 0p5 beside the key
    0p50); no exception ends the run. *)
Theorem main_writes_five_grids :
  exists df1 df2 df3 df4 df5 : DataFrame,
    (get_grid_df_default (PyFloat Main.f_0p25) = Ok df1
     /\ get_grid_df_default (PyFloat Main.f_0p5) = Ok df2
     /\ get_grid_df_default (PyFloat Main.f_1p0) = Ok df3
     /\ get_grid_df_default (PyFloat Main.f_2p0) = Ok df4
     /\ get_grid_df_default (PyFloat Main.f_3p0) = Ok df5)
    /\ (Numpy.len (Id df1) = 114137 /\ Numpy.len (Id df2) = 28365
        /\ Numpy.len (Id df3) = 7007 /\ Numpy.len (Id df4) = 1710
        /\ Numpy.len (Id df5) = 750)
    /\ Main.main
       = ([Main.Print (Main.head df1);
           Main.ToCsv df1 "C:/data/sasg_0p25-v0_0p25-d_sa_2025.csv" ";" false;
           Main.Print (Main.head df2);
           Main.ToCsv df2 "C:/data/sasg_0p50-v0_0p5-d_sa_2025.csv" ";" false;
           Main.Print (Main.head df3);
           Main.ToCsv df3 "C:/data/sasg_1p00-v0_1p0-d_sa_2025.csv" ";" false;
           Main.Print (Main.head df4);
           Main.ToCsv df4 "C:/data/sasg_2p00-v0_2p0-d_sa_2025.csv" ";" false;
           Main.Print (Main.head df5);
           Main.ToCsv df5 "C:/data/sasg_3p00-v0_3p0-d_sa_2025.csv" ";" false],
          None).
Proof.
  destruct (default_grid (PyFloat Main.f_0p25) 367 311) as [df1 [E1 L1]];
    [lia | lia
    | eexists; split; vm_compute; reflexivity
    | eexists; split; vm_compute; reflexivity |].
  destruct (default_grid (PyFloat Main.f_0p5) 183 155) as [df2 [E2 L2]];
    [lia | lia
    | eexists; split; vm_compute; reflexivity
    | eexists; split; vm_compute; reflexivity |].
  destruct (default_grid (PyFloat Main.f_1p0) 91 77) as [df3 [E3 L3]];
    [lia | lia
    | eexists; split; vm_compute; reflexivity
    | eexists; split; vm_compute; reflexivity |].
  destruct (default_grid (PyFloat Main.f_2p0) 45 38) as [df4 [E4 L4]];
    [lia | lia
    | eexists; split; vm_compute; reflexivity
    | eexists; split; vm_compute; reflexivity |].
  destruct (default_grid (PyFloat Main.f_3p0) 30 25) as [df5 [E5 L5]];
    [lia | lia
    | eexists; split; vm_compute; reflexivity
    | eexists; split; vm_compute; reflexivity |].
  exists df1, df2, df3, df4, df5.
  split; [exact (conj E1 (conj E2 (conj E3 (conj E4 E5)))) |].
  split; [exact (conj L1 (conj L2 (conj L3 (conj L4 L5)))) |].
  unfold Main.main. cbn [List.map fst Main.steps_d].
  rewrite (main_loop_step "0p25" (PyFloat Main.f_0p25)
             ["0p50"; "1p00"; "2p00"; "3p00"] [] df1 eq_refl E1).
  rewrite (main_loop_step "0p50" (PyFloat Main.f_0p5)
             ["1p00"; "2p00"; "3p00"] _ df2 eq_refl E2).
  rewrite (main_loop_step "1p00" (PyFloat Main.f_1p0)
             ["2p00"; "3p00"] _ df3 eq_refl E3).
  rewrite (main_loop_step "2p00" (PyFloat Main.f_2p0)
             ["3p00"] _ df4 eq_refl E4).
  rewrite (main_loop_step "3p00" (PyFloat Main.f_3p0) [] _ df5 eq_refl E5).
  cbn [Main.main_loop List.app].
  replace (PyStr.replace "." "p" (PyNum.str (PyFloat Main.f_0p25)))
    with "0p25" by (vm_compute; reflexivity).
  replace (PyStr.replace "." "p" (PyNum.str (PyFloat Main.f_0p5)))
    with "0p5" by (vm_compute; reflexivity).
  replace (PyStr.replace "." "p" (PyNum.str (PyFloat Main.f_1p0)))
    with "1p0" by (vm_compute; reflexivity).
  replace (PyStr.replace "." "p" (PyNum.str (PyFloat Main.f_2p0)))
    with "2p0" by (vm_compute; reflexivity).
  replace (PyStr.replace "." "p" (PyNum.str (PyFloat Main.f_3p0)))
    with "3p0" by (vm_compute; reflexivity).
  reflexivity.
Qed.

(** ** Integer grids whose step divides the box *)

Lemma ceil_small (p m : positive) (e : Z) :
  e <= 0 -> Z.pos m = Z.pos p * 2 ^ (- e) ->
  F64.ceil (S754_finite false m e) = Some (Z.pos p).
Proof.
  intros He Hv. cbn [F64.ceil]. f_equal.
  destruct e as [| k | k]; [| lia |].
  - cbn in Hv. lia.
  - rewrite Pos2Z.inj_pow. cbn [Z.opp] in Hv.
    replace (- Z.pos m) with ((- Z.pos p) * Z.pos 2 ^ Z.pos k) by (rewrite Hv; ring).
    rewrite Z.div_mul by (apply Z.pow_nonzero; lia). lia.
Qed.

(** The length numpy.arange computes for integers when the step
    divides the extent: their quotient. *)
Lemma calc_length_exact (a b s : Z) :
  0 < s -> a < b -> (b - a) mod s = 0 -> b - a < 2 ^ 53 ->
  Numpy.calc_length (PyInt a) (PyInt b) (PyInt s) = Ok ((b - a) / s).
Proof.
  intros Hs Hab Hmod Hsmall.
  set (d := b - a) in *. set (q := d / s).
  assert (Hd : d = q * s).
  { subst q. pose proof (Z.div_mod d s). rewrite Hmod in H. lia. }
  assert (Hq : 0 < q < 2 ^ 53) by nia.
  destruct q as [| qp | qp] eqn:Eq; [lia | | lia].
  destruct d as [| n | n] eqn:Ed; [lia | | lia].
  destruct s as [| sp | sp] eqn:Es; [lia | | lia].
  destruct (binary_round_small false qp) as [m [e [Hb [He [Hv _]]]]]; [lia |].
  assert (Hdiv : F64.div (S754_finite false n 0) (S754_finite false sp 0)
                 = S754_finite false m e).
  { apply div_exact; [exact Hb |].
    rewrite Z.max_r, Z.max_l, Z.pow_0_r by lia. rewrite Hv, Hd. ring. }
  unfold Numpy.calc_length. cbn [PyNum.sub bind]. fold d. rewrite Ed.
  unfold PyNum.truediv, PyNum.int_quotient.
  cbn [Z.eqb Z.ltb Z.compare xorb Z.abs]. rewrite Hdiv. cbn [bind].
  unfold Numpy.safe_ceil_to_intp. rewrite (ceil_small qp m e He Hv).
  replace ((Numpy.intp_min <=? Z.pos qp) && (Z.pos qp <=? Numpy.intp_max))
    with true
    by (symmetry; apply andb_true_iff; unfold Numpy.intp_min, Numpy.intp_max;
        split; apply Z.leb_le; lia).
  cbn [bind]. replace (SFeqb (S754_finite false m e) F64.pzero) with false
    by reflexivity.
  reflexivity.
Qed.

Lemma arange_int_exact (a b s : Z) :
  0 < s -> a < b -> (b - a) mod s = 0 -> b - a < 2 ^ 53 ->
  exists xs,
    Numpy.arange (PyInt a) (PyInt b) (PyInt s) = Ok xs
    /\ Numpy.len xs = (b - a) / s.
Proof.
  intros Hs Hab Hmod Hsmall.
  assert (Hq : 0 < (b - a) / s).
  { pose proof (Z.div_mod (b - a) s). rewrite Hmod in H.
    assert (0 < s * ((b - a) / s)) by lia. nia. }
  unfold Numpy.arange. rewrite (calc_length_exact a b s Hs Hab Hmod Hsmall).
  cbn [bind]. replace ((b - a) / s <=? 0) with false by lia.
  cbn [PyNum.add Numpy.overflow_to_value bind Numpy.all_int].
  eexists. split; [reflexivity |].
  unfold Numpy.len, Numpy.range.
  rewrite !List.length_map, List.length_seq. lia.
Qed.

(** X17: an integer grid whose step divides the box stops one step
    short of both maxima.  For integer bounds of magnitude below
    2^52 and a positive integer step that divides xs_max - xs_min and
    ys_max - ys_min, get_grid_df returns a table with
    (nx - 1) * (ny - 1) rows, nx = (xs_max - xs_min) / step and
    ny = (ys_max - ys_min) / step, and every row is the square
    [xs_min + i*step, xs_min + (i+1)*step] by
    [ys_min + j*step, ys_min + (j+1)*step] for some 0 <= i < nx - 1 and
    0 <= j < ny - 1: no cell reaches beyond xs_max - step or
    ys_max - step. *)
Theorem get_grid_df_integer_extent (step x0 x1 y0 y1 : Z) :
  0 < step ->
  - 2 ^ 52 < x0 -> x0 < x1 -> x1 < 2 ^ 52 ->
  - 2 ^ 52 < y0 -> y0 < y1 -> y1 < 2 ^ 52 ->
  (x1 - x0) mod step = 0 -> (y1 - y0) mod step = 0 ->
  let nx := (x1 - x0) / step in
  let ny := (y1 - y0) / step in
  exists df,
    get_grid_df (PyInt step) (PyInt x0) (PyInt x1) (PyInt y0) (PyInt y1)
    = Ok df
    /\ Numpy.len (Id df) = (nx - 1) * (ny - 1)
    /\ forall c, List.In c (rows df) ->
         exists i j : Z,
           0 <= i < nx - 1 /\ 0 <= j < ny - 1
           /\ cell_x_min c = PyInt (x0 + i * step)
           /\ cell_x_max c = PyInt (x0 + (i + 1) * step)
           /\ cell_y_min c = PyInt (y0 + j * step)
           /\ cell_y_max c = PyInt (y0 + (j + 1) * step).
Proof.
  intros Hs Hx0 Hx Hx1 Hy0 Hy Hy1 Mx My nx ny.
  assert (P53 : 2 ^ 53 = 2 * 2 ^ 52) by reflexivity.
  destruct (arange_int_exact x0 x1 step Hs Hx Mx) as [xs [Ex Lx]]; [lia |].
  destruct (arange_int_exact y0 y1 step Hs Hy My) as [ys [Ey Ly]]; [lia |].
  fold nx in Lx. fold ny in Ly.
  destruct (get_grid_df_cells _ _ _ _ _ _ _ Ex Ey) as [df [Hdf Hrows]].
  exists df. split; [exact Hdf |]. split.
  - unfold Numpy.len in *.
    rewrite (get_grid_df_length _ _ _ _ _ _ _ _ Ex Ey Hdf).
    assert (0 < nx) by (subst nx; apply Z.div_str_pos; split;
                        [lia | apply Z.divide_pos_le;
                               [lia | apply Z.mod_divide; lia]]).
    assert (0 < ny) by (subst ny; apply Z.div_str_pos; split;
                        [lia | apply Z.divide_pos_le;
                               [lia | apply Z.mod_divide; lia]]).
    rewrite Nat2Z.inj_mul, !Nat2Z.inj_sub by lia. lia.
  - intros c Hin. rewrite Hrows in Hin. unfold grid_cells in Hin.
    destruct (number_cells_in _ _ _ Hin) as [id [[a b] [[u v] [Hp ->]]]].
    destruct (x_major_in _ _ _ _ Hp) as [Hbx Hby].
    destruct (bands_in _ _ _ Hbx) as [i [Hi1 Hi2]].
    destruct (bands_in _ _ _ Hby) as [j [Hj1 Hj2]].
    assert (Hi : (S i < List.length xs)%nat)
      by (apply List.nth_error_Some; rewrite Hi2; discriminate).
    assert (Hj : (S j < List.length ys)%nat)
      by (apply List.nth_error_Some; rewrite Hj2; discriminate).
    exists (Z.of_nat i), (Z.of_nat j).
    cbn [make_cell cell_x_min cell_x_max cell_y_min cell_y_max fst snd].
    rewrite (arange_int_elements _ _ _ _ _ _ Ex Hi1).
    rewrite (arange_int_elements _ _ _ _ _ _ Ex Hi2).
    rewrite (arange_int_elements _ _ _ _ _ _ Ey Hj1).
    rewrite (arange_int_elements _ _ _ _ _ _ Ey Hj2).
    unfold Numpy.len in Lx, Ly.
    repeat split; try lia; do 2 f_equal; lia.
Qed.

Lemma get_grid_df_integer_extent_witness :
  exists df,
    get_grid_df (PyInt 2) (PyInt (-110)) (PyInt (-18)) (PyInt (-60))
      (PyInt 18) = Ok df
    /\ Numpy.len (Id df) = (46 - 1) * (39 - 1)
    /\ forall c, List.In c (rows df) ->
         exists i j : Z,
           0 <= i < 46 - 1 /\ 0 <= j < 39 - 1
           /\ cell_x_min c = PyInt (-110 + i * 2)
           /\ cell_x_max c = PyInt (-110 + (i + 1) * 2)
           /\ cell_y_min c = PyInt (-60 + j * 2)
           /\ cell_y_max c = PyInt (-60 + (j + 1) * 2).
Proof.
  apply (get_grid_df_integer_extent 2 (-110) (-18) (-60) 18);
    reflexivity.
Defined.

(** ** Tile codes as keys of an integer grid *)

Lemma arange_int_nodup (a b s : Z) (xs : list pynum) :
  s <> 0 ->
  Numpy.arange (PyInt a) (PyInt b) (PyInt s) = Ok xs ->
  List.NoDup xs.
Proof.
  intros Hs Hx. apply List.NoDup_nth_error. intros i j Hi Hij.
  destruct (List.nth_error xs i) as [x |] eqn:Ei;
    [| apply List.nth_error_None in Ei; lia].
  symmetry in Hij.
  pose proof (arange_int_elements _ _ _ _ _ _ Hx Ei) as H1.
  pose proof (arange_int_elements _ _ _ _ _ _ Hx Hij) as H2.
  rewrite H1 in H2. injection H2 as H2. nia.
Qed.

Lemma arange_int_ints (a b s : Z) (xs : list pynum) (x : pynum) :
  Numpy.arange (PyInt a) (PyInt b) (PyInt s) = Ok xs ->
  List.In x xs -> exists z, x = PyInt z.
Proof.
  intros Hx Hin. apply List.In_nth_error in Hin. destruct Hin as [k Hk].
  eexists. exact (arange_int_elements _ _ _ _ _ _ Hx Hk).
Qed.

Lemma bands_nodup (l : list pynum) : List.NoDup l -> List.NoDup (bands l).
Proof.
  intros Hl. apply List.NoDup_nth_error. intros i j Hi Hij.
  destruct (List.nth_error (bands l) i) as [[a b] |] eqn:Ei;
    [| apply List.nth_error_None in Ei; lia].
  symmetry in Hij.
  destruct (bands_nth l i a b Ei) as [Ha _].
  destruct (bands_nth l j a b Hij) as [Ha' _].
  apply (proj1 (List.NoDup_nth_error l) Hl).
  - apply List.nth_error_Some. rewrite Ha. discriminate.
  - now rewrite Ha, Ha'.
Qed.

Lemma bands_members (l : list pynum) (a b : pynum) :
  List.In (a, b) (bands l) -> List.In a l /\ List.In b l.
Proof.
  intros H. destruct (bands_in l a b H) as [k [H1 H2]].
  split; eapply List.nth_error_In; eassumption.
Qed.

Lemma nodup_map_on (A B : Type) (f : A -> B) (l : list A) :
  (forall x y, List.In x l -> List.In y l -> f x = f y -> x = y) ->
  List.NoDup l -> List.NoDup (List.map f l).
Proof.
  intros Hf Hl. induction Hl as [| a r Ha Hr IH]; [constructor |].
  cbn [List.map]. constructor.
  - intros Hin. apply List.in_map_iff in Hin. destruct Hin as [y [E Hy]].
    assert (y = a) by (apply Hf; [now right | now left | exact E]).
    subst y. contradiction.
  - apply IH. intros x y Hx Hy. apply Hf; now right.
Qed.

Lemma x_major_nodup (bxs bys : list (pynum * pynum)) :
  List.NoDup bxs -> List.NoDup bys -> List.NoDup (x_major bxs bys).
Proof.
  intros Hx Hy. induction Hx as [| b r Hb Hr IH]; [constructor |].
  change (x_major (b :: r) bys)
    with (List.map (fun ys => (b, ys)) bys ++ x_major r bys)%list.
  apply List.NoDup_app.
  - apply nodup_map_on; [| exact Hy].
    intros u v _ _ H. now injection H.
  - exact IH.
  - intros [b' y] Hin Hin'. apply List.in_map_iff in Hin.
    destruct Hin as [y' [E _]]. injection E as <- _.
    apply x_major_in in Hin'. tauto.
Qed.

Lemma number_cells_codes (l : list ((pynum * pynum) * (pynum * pynum)))
  (id : Z) :
  List.map cell_code (number_cells id l) = List.map band_code l.
Proof.
  revert id. induction l as [| [bx by_] l IH]; intros id; [reflexivity |].
  cbn [number_cells List.map]. now rewrite IH.
Qed.

(** X18: in an integer grid the tile code identifies the row.  With an
    integer step other than 0 that fits 64 bits and integer bounds of
    magnitude below 2^63 (so that the array holds them as 64-bit
    integers and abs wraps on none of its values) the tile_code column
    of the table get_grid_df returns holds no code twice. *)
Theorem get_grid_df_integer_codes_distinct (step x0 x1 y0 y1 : Z)
  (df : DataFrame) :
  step <> 0 ->
  fits_intp step -> fits_abs x0 -> fits_abs x1 ->
  fits_abs y0 -> fits_abs y1 ->
  get_grid_df (PyInt step) (PyInt x0) (PyInt x1) (PyInt y0) (PyInt y1)
  = Ok df ->
  List.NoDup (tile_code df).
Proof.
  intros Hs _ _ _ _ _ H.
  destruct (get_grid_df_returns _ _ _ _ _ _ H)
    as [xs [ys [Hx [Hy [[H1 [H2 [H3 [H4 [H5 H6]]]]] Hrows]]]]].
  destruct (zip_rows_columns (Id df) (tile_code df) (x_min df) (x_max df)
              (y_min df) (y_max df) (geometry df) H1 H2 H3 H4 H5 H6)
    as [_ [Hcodes _]].
  fold (rows df) in Hcodes. rewrite <- Hcodes, Hrows. unfold grid_cells.
  rewrite number_cells_codes.
  apply nodup_map_on.
  - intros [[a b] [u v]] [[a' b'] [u' v']] Hin Hin' E.
    apply x_major_in in Hin, Hin'.
    destruct Hin as [Hab Huv], Hin' as [Hab' Huv'].
    apply bands_members in Hab, Huv, Hab', Huv'.
    destruct (arange_int_ints _ _ _ _ a Hx) as [za ->]; [tauto |].
    destruct (arange_int_ints _ _ _ _ b Hx) as [zb ->]; [tauto |].
    destruct (arange_int_ints _ _ _ _ a' Hx) as [za' ->]; [tauto |].
    destruct (arange_int_ints _ _ _ _ b' Hx) as [zb' ->]; [tauto |].
    destruct (arange_int_ints _ _ _ _ u Hy) as [zu ->]; [tauto |].
    destruct (arange_int_ints _ _ _ _ v Hy) as [zv ->]; [tauto |].
    destruct (arange_int_ints _ _ _ _ u' Hy) as [zu' ->]; [tauto |].
    destruct (arange_int_ints _ _ _ _ v' Hy) as [zv' ->]; [tauto |].
    unfold band_code in E. cbn [fst snd] in E.
    destruct (joined_codes_inj (PyInt za) (PyInt zb) (PyInt zu) (PyInt zv)
                (PyInt za') (PyInt zb') (PyInt zu') (PyInt zv')
                eq_refl eq_refl eq_refl eq_refl
                eq_refl eq_refl eq_refl eq_refl E) as [Ea [Eb [Eu Ev]]].
    cbn [same_number] in Ea, Eb, Eu, Ev. now subst.
  - apply x_major_nodup; apply bands_nodup;
      eapply arange_int_nodup; eassumption.
Qed.

Lemma get_grid_df_integer_codes_distinct_witness :
  exists df,
    get_grid_df (PyInt 3) (PyInt (-9)) (PyInt 9) (PyInt (-6)) (PyInt 6)
    = Ok df
    /\ List.length (tile_code df) = 15%nat
    /\ List.NoDup (tile_code df).
Proof.
  destruct (get_grid_df (PyInt 3) (PyInt (-9)) (PyInt 9) (PyInt (-6))
              (PyInt 6)) as [df | e] eqn:E; [| vm_compute in E; discriminate].
  exists df. split; [reflexivity |]. split.
  - vm_compute in E. injection E as <-. reflexivity.
  - apply (get_grid_df_integer_codes_distinct 3 (-9) 9 (-6) 6 df);
      try (unfold fits_intp, fits_abs, Numpy.intp_min, Numpy.intp_max; lia).
    exact E.
Defined.

(** ** The first cell *)

(** The first two values of a sequence of numpy.arange are [start] and
    [start + step]. *)
Lemma arange_first_two (start stop step : pynum) (xs : list pynum)
  (a b : pynum) :
  Numpy.arange start stop step = Ok xs ->
  List.nth_error xs 0 = Some a ->
  List.nth_error xs 1 = Some b ->
  as_element start stop step start = Ok a
  /\ (next <- PyNum.add start step ;; as_element start stop step next) = Ok b.
Proof.
  unfold Numpy.arange, as_element.
  destruct (Numpy.calc_length start stop step) as [len | e]; [| discriminate].
  cbn [bind]. destruct (len <=? 0) eqn:Hlen;
    [intros H; injection H as <-; discriminate |].
  destruct (PyNum.add start step) as [next | e] eqn:Hadd;
    [| destruct e; discriminate].
  cbn [Numpy.overflow_to_value bind].
  assert (Hr : exists r, Numpy.range len = 0 :: 1 :: r \/ Numpy.range len = [0]).
  { unfold Numpy.range. destruct (Z.to_nat len) as [| [| n]] eqn:En; [lia | |].
    - exists []. now right.
    - eexists. left. cbn [List.seq List.map]. reflexivity. }
  destruct Hr as [r Hr].
  destruct (Numpy.all_int start stop step) eqn:Hint.
  - intros H; injection H as <-.
    destruct start as [s0 | ?], stop as [s1 | ?], step as [s2 | ?];
      try discriminate.
    cbn [PyNum.add] in Hadd. injection Hadd as <-.
    destruct Hr as [-> | ->]; [| intros _ Hb; discriminate Hb].
    assert (E0 : Numpy.element (PyInt s0) (PyInt (s0 + s2)) 0 = PyInt s0)
      by (unfold Numpy.element; f_equal; lia).
    assert (E1 : Numpy.element (PyInt s0) (PyInt (s0 + s2)) 1
                 = PyInt (s0 + s2))
      by (unfold Numpy.element; f_equal; lia).
    cbn [List.map List.nth_error]. rewrite E0, E1.
    intros Ha Hb. injection Ha as <-. injection Hb as <-.
    split; reflexivity.
  - destruct (PyNum.to_float start) as [fa | e]; [| discriminate].
    destruct (PyNum.to_float next) as [fb | e]; [| discriminate].
    cbn [bind]. intros H; injection H as <-.
    destruct Hr as [-> | ->]; [| intros _ Hb; discriminate Hb].
    cbn [List.map List.nth_error Numpy.element Z.eqb].
    intros Ha Hb. injection Ha as <-. injection Hb as <-.
    split; reflexivity.
Qed.

(** X19: the grid is anchored at the minimum corner.  For a step and
    bounds that are floats or integers fitting 64 bits (from these
    numpy.arange builds an array of 64-bit integers or of floats), the
    first row of a table returned by get_grid_df has Id 1 and spans
    from (xs_min, ys_min) to (xs_min + step, ys_min + step), the sums
    being the ones Python computes: on an axis whose bounds and step
    are all integers the bounds of the cell are these integers, on any
    other axis they are the floats of xs_min and of xs_min + step. *)
Theorem get_grid_df_first_cell (step xs_min xs_max ys_min ys_max : pynum)
  (df : DataFrame) (c : GridCell) :
  in_int64 step ->
  in_int64 xs_min -> in_int64 xs_max ->
  in_int64 ys_min -> in_int64 ys_max ->
  get_grid_df step xs_min xs_max ys_min ys_max = Ok df ->
  List.hd_error (rows df) = Some c ->
  cell_id c = 1
  /\ as_element xs_min xs_max step xs_min = Ok (cell_x_min c)
  /\ (next <- PyNum.add xs_min step ;; as_element xs_min xs_max step next)
     = Ok (cell_x_max c)
  /\ as_element ys_min ys_max step ys_min = Ok (cell_y_min c)
  /\ (next <- PyNum.add ys_min step ;; as_element ys_min ys_max step next)
     = Ok (cell_y_max c).
Proof.
  intros _ _ _ _ _ H Hc.
  destruct (get_grid_df_returns _ _ _ _ _ _ H)
    as [xs [ys [Hx [Hy [_ Hrows]]]]].
  rewrite Hrows in Hc.
  assert (Hlen : (0 < List.length (grid_cells xs ys))%nat)
    by (destruct (grid_cells xs ys); [discriminate Hc | cbn; lia]).
  rewrite grid_cells_length in Hlen. unfold grid_cells in Hc.
  destruct xs as [| a [| b xs]]; [cbn in Hlen; lia | cbn in Hlen; lia |].
  destruct ys as [| u [| v ys]];
    [cbn [List.length] in Hlen; lia | cbn [List.length] in Hlen; lia |].
  cbn in Hc. injection Hc as <-.
  cbn [cell_id cell_x_min cell_x_max cell_y_min cell_y_max].
  destruct (arange_first_two _ _ _ _ a b Hx eq_refl eq_refl) as [Ha Hb].
  destruct (arange_first_two _ _ _ _ u v Hy eq_refl eq_refl) as [Hu Hv].
  repeat split; assumption.
Qed.

Lemma get_grid_df_first_cell_witness :
  exists df c,
    get_grid_df (PyFloat Main.f_0p5) (PyInt (-110)) (PyInt (-108))
      (PyInt (-60)) (PyInt (-58)) = Ok df
    /\ List.hd_error (rows df) = Some c
    /\ cell_id c = 1
    /\ cell_x_min c = PyFloat (S754_finite true 7740561859543040 (-46))
    /\ cell_x_max c = PyFloat (S754_finite true 7705377487454208 (-46))
    /\ cell_y_min c = PyFloat (S754_finite true 8444249301319680 (-47))
    /\ cell_y_max c = PyFloat (S754_finite true 8373880557142016 (-47)).
Proof.
  destruct (get_grid_df (PyFloat Main.f_0p5) (PyInt (-110)) (PyInt (-108))
              (PyInt (-60)) (PyInt (-58))) as [df | e] eqn:E;
    [| vm_compute in E; discriminate].
  destruct (List.hd_error (rows df)) as [c |] eqn:Ec;
    [| vm_compute in E; injection E as <-; discriminate].
  exists df, c. split; [reflexivity |]. split; [exact Ec |].
  assert (Hfit : forall z, - 200 <= z <= 200 -> in_int64 (PyInt z))
    by (intros z Hz; cbn [in_int64];
        unfold fits_intp, Numpy.intp_min, Numpy.intp_max; lia).
  destruct (get_grid_df_first_cell (PyFloat Main.f_0p5) (PyInt (-110))
              (PyInt (-108)) (PyInt (-60)) (PyInt (-58)) df c
              I (Hfit (-110) ltac:(lia)) (Hfit (-108) ltac:(lia))
              (Hfit (-60) ltac:(lia)) (Hfit (-58) ltac:(lia)) E Ec)
    as [Hid [Ha [Hb [Hu Hv]]]].
  split; [exact Hid |].
  repeat split;
    match goal with
    | |- ?f c = ?v =>
        assert (X : Ok (f c) = Ok v)
          by (first [rewrite <- Ha | rewrite <- Hb
                    | rewrite <- Hu | rewrite <- Hv];
              vm_compute; reflexivity);
        injection X; trivial
    end.
Defined.
(** ** Bounds that are not finite *)

Lemma sub_nonfinite (x y : spec_float) :
  F64.is_finite x = false \/ F64.is_finite y = false ->
  F64.is_finite (F64.sub x y) = false.
Proof.
  destruct x as [s | s | | s m e], y as [t | t | | t n f];
    intros [H | H]; try discriminate; try reflexivity;
    cbn; destruct s, t; reflexivity.
Qed.

Lemma div_nonfinite (x y : spec_float) :
  F64.is_finite x = false -> F64.is_finite (F64.div x y) = false.
Proof.
  destruct x as [s | s | | s m e], y as [t | t | | t n f];
    intros H; try discriminate; reflexivity.
Qed.

Lemma ceil_nonfinite (x : spec_float) :
  F64.is_finite x = false -> F64.ceil x = None.
Proof.
  destruct x; intros H; try discriminate; reflexivity.
Qed.

Lemma to_float_nonfinite (v : pynum) (x : spec_float) :
  nonfinite v = true -> PyNum.to_float v = Ok x -> F64.is_finite x = false.
Proof.
  destruct v as [z | f]; [discriminate |].
  cbn [PyNum.to_float]. intros Hv H. injection H as <-.
  destruct f; try discriminate; reflexivity.
Qed.

(** No sequence starts or stops at an infinity or at not-a-number. *)
Lemma arange_nonfinite (start stop step : pynum) :
  nonfinite start = true \/ nonfinite stop = true ->
  is_ok (Numpy.arange start stop step) = false.
Proof.
  intros H. unfold Numpy.arange.
  assert (Hc : is_ok (Numpy.calc_length start stop step) = false).
  { unfold Numpy.calc_length.
    assert (Hd : match PyNum.sub stop start with
                 | Ok (PyFloat d) => F64.is_finite d = false
                 | Ok (PyInt _) => False
                 | Raise _ => True
                 end).
    { unfold PyNum.sub.
      destruct stop as [b | b], start as [a | a];
        try (destruct H; discriminate);
        destruct (PyNum.to_float _) as [x |] eqn:Ex; cbn [bind]; try exact I;
        destruct (PyNum.to_float _) as [y |] eqn:Ey in |- *; cbn [bind];
        try exact I; apply sub_nonfinite;
        destruct H as [H | H];
        first [ right; exact (to_float_nonfinite _ _ H Ey)
              | left; exact (to_float_nonfinite _ _ H Ex)
              | discriminate H ]. }
    destruct (PyNum.sub stop start) as [[z | d] | e];
      [contradiction | | destruct e; reflexivity].
    cbn [bind]. unfold PyNum.truediv.
    destruct step as [s | s]; cbn [PyNum.to_float bind].
    - destruct (PyNum.int_to_float s) as [y | e]; [| destruct e; reflexivity].
      cbn [bind]. destruct (F64.is_zero y); [reflexivity |]. cbn [bind].
      unfold Numpy.safe_ceil_to_intp.
      now rewrite (ceil_nonfinite _ (div_nonfinite d y Hd)).
    - destruct (F64.is_zero s); [reflexivity |]. cbn [bind].
      unfold Numpy.safe_ceil_to_intp.
      now rewrite (ceil_nonfinite _ (div_nonfinite d s Hd)). }
  destruct (Numpy.calc_length start stop step) as [len | e];
    [discriminate | reflexivity].
Qed.

(** X20: a bound that is an infinity or not-a-number never yields a
    table: whichever of xs_min, xs_max, ys_min, ys_max it is, and
    whatever the step, get_grid_df raises. *)
Theorem get_grid_df_nonfinite_bound
  (step xs_min xs_max ys_min ys_max : pynum) :
  nonfinite xs_min || nonfinite xs_max || nonfinite ys_min
  || nonfinite ys_max = true ->
  is_ok (get_grid_df step xs_min xs_max ys_min ys_max) = false.
Proof.
  intros H. unfold get_grid_df.
  destruct (nonfinite xs_min || nonfinite xs_max) eqn:Hx.
  - apply orb_true_iff in Hx.
    pose proof (arange_nonfinite xs_min xs_max step Hx) as Ha.
    destruct (Numpy.arange xs_min xs_max step); [discriminate | reflexivity].
  - cbn [orb] in H. apply orb_true_iff in H.
    pose proof (arange_nonfinite ys_min ys_max step H) as Ha.
    destruct (Numpy.arange xs_min xs_max step); [| reflexivity].
    cbn [bind].
    destruct (Numpy.arange ys_min ys_max step); [discriminate | reflexivity].
Qed.

Lemma get_grid_df_nonfinite_bound_witness :
  is_ok (get_grid_df (PyFloat Main.f_1p0) (PyInt (-110)) (PyInt (-18))
           (PyInt (-60)) (PyFloat F64.pinf)) = false.
Proof.
  apply get_grid_df_nonfinite_bound. reflexivity.
Defined.
